(** * camera-streamer: the desktop listener's ingestion core

    A shallow embedding of [src/desktop-listener/main.py]: the
    [VideoServer] class (length-prefixed framing, optional metadata
    handshake, single-slot frame queue, FPS window), the consumer side
    of [ViewerApp] ([_poll_frames], [_display_frame]) and the camera
    registry ([_add_camera] and the dialog's [add_camera]).

    Conventions.
    - Bytes are [Byte.byte]; a [bytes] object is a [list byte].
    - Python [int]s are [Z]; buffer lengths and loop counters are [nat].
    - Python [float]s (the readings of [time.time()], fps, latency) are
      rationals [Q]: every finite double is a rational, and the
      arithmetic is taken exact.
    - An exception is a value of [exn]; a call returns an [outcome].
      State changes made before a [raise] persist, as in Python. *)

From Stdlib Require Import ZArith QArith Qabs List Lia Bool Strings.Byte.
From Stdlib Require Import Sorting.Mergesort Sorting.Sorted Sorting.Permutation.
From stdpp Require Import base gmap strings.
Import ListNotations.

Local Open Scope nat_scope.
Local Open Scope list_scope.

(** ** Wire format: [struct.pack('>I', n)] and [struct.unpack('>I', b)] *)

Module Wire.

Definition byte_val (b : byte) : Z := Z.of_N (Byte.to_N b).

Definition byte_of (z : Z) : byte :=
  match Byte.of_N (Z.to_N (z mod 256)) with
  | Some b => b
  | None => x00
  end.

(** [struct.unpack('>I', header)]: four bytes, most significant first.
    Any other size is [struct.error] ([None] here). *)
Definition unpack_be32 (header : list byte) : option Z :=
  match header with
  | [b0; b1; b2; b3] =>
      Some (Z.lor (Z.shiftl (byte_val b0) 24)
           (Z.lor (Z.shiftl (byte_val b1) 16)
           (Z.lor (Z.shiftl (byte_val b2) 8) (byte_val b3))))
  | _ => None
  end.

(** What a conforming client writes: [struct.pack('>I', n)]. *)
Definition pack_be32 (n : Z) : list byte :=
  [ byte_of (Z.shiftr n 24); byte_of (Z.shiftr n 16);
    byte_of (Z.shiftr n 8); byte_of n ].

End Wire.

(** ** The client socket, seen from [recv_into] *)

Module Sock.

(** What the next [recv_into] call meets.  TCP is a byte stream, so a
    segment that is longer than the caller's buffer is left on the
    wire, shortened. *)
Inductive recv_event :=
| Seg (bs : list byte)   (* bytes that have arrived; [Seg []] is a 0-byte read *)
| SockTimeout                (* socket.timeout after settimeout(5.0) *)
| SockError.                 (* ConnectionError / OSError from the transport *)

(** The future of the socket; [[]] is the peer's orderly close, on
    which [recv_into] returns 0.  A wire is a finite list: the reads
    of the sockets described here come to an end, with the peer's
    close at the latest.  A client that goes on sending for ever is
    not described. *)
Definition wire := list recv_event.

Inductive recv_result :=
| Got (bs : list byte)   (* nbytes = length bs written into the view *)
| TimedOut
| Failed.

(** One [client_socket.recv_into(view)] with [cap = len(view)]. *)
Definition recv_into (cap : nat) (w : wire) : recv_result * wire :=
  match w with
  | [] => (Got [], [])
  | SockTimeout :: rest => (TimedOut, rest)
  | SockError :: rest => (Failed, rest)
  | Seg bs :: rest =>
      if length bs <=? cap then (Got bs, rest)
      else (Got (firstn cap bs), Seg (skipn cap bs) :: rest)
  end.

(** Result of [_recvall]: [bytes], [None], or an exception that
    escapes it (only [socket.timeout] is caught inside). *)
Inductive recvall_result :=
| Data (bs : list byte)
| NoData
| Raised.

(** [VideoServer._recvall]'s loop, [need = length - received],
    [data] the part of the buffer filled so far.  Each turn of the
    loop is one [recv_into], which uses up the head of the wire, so
    the recursion is on the wire. *)
Fixpoint recvall_loop (w : wire) (need : nat) (data : list byte)
  : recvall_result * wire :=
  match need with
  | 0 => (Data data, w)                       (* received = length *)
  | S _ =>
      match w with
      | [] => (NoData, [])                    (* nbytes == 0 *)
      | SockTimeout :: rest => (NoData, rest)     (* except socket.timeout *)
      | SockError :: rest => (Raised, rest)
      | Seg bs :: rest =>
          match bs with
          | [] => (NoData, rest)              (* nbytes == 0 *)
          | _ :: _ =>
              if length bs <=? need
              then recvall_loop rest (need - length bs) (data ++ bs)
              else (Data (data ++ firstn need bs), Seg (skipn need bs) :: rest)
          end
      end
  end.

Definition recvall (w : wire) (length : nat) : recvall_result * wire :=
  recvall_loop w length [].

(** The bytes a wire delivers before anything else happens: before a
    timeout, an error, a 0-byte read or the peer's close. *)
Fixpoint pending (w : wire) : list byte :=
  match w with
  | Seg (b :: bs) :: rest => (b :: bs) ++ pending rest
  | _ => []
  end.

(** A bound on the number of [recv_into] calls a wire can serve. *)
Fixpoint weight (w : wire) : nat :=
  match w with
  | [] => 0
  | Seg bs :: rest => S (length bs + weight rest)
  | _ :: rest => S (weight rest)
  end.

End Sock.

(** ** Exceptions and a state monad in which they can be raised *)

Module Py.

Inductive exn :=
| QueueEmpty            (* queue.Empty *)
| QueueFull             (* queue.Full *)
| OSError               (* OSError and its subclasses, ConnectionError among them *)
| StructError           (* struct.error *)
| JSONDecodeError
| UnicodeDecodeError
| AttributeError
| ImageError.           (* whatever PIL raises on a payload it cannot decode *)

(** [Diverged] is not a Python outcome: it marks a loop that was cut
    because its fuel ran out, and is shown never to happen. *)
Inductive outcome (A : Type) :=
| Return (a : A)
| Raise (e : exn)
| Diverged.
Arguments Return {A} a.
Arguments Raise {A} e.
Arguments Diverged {A}.

Definition M (St A : Type) : Type := St -> outcome A * St.

Definition ret {St A} (a : A) : M St A := fun s => (Return a, s).
Definition raise {St A} (e : exn) : M St A := fun s => (Raise e, s).
Definition diverge {St A} : M St A := fun s => (Diverged, s).

Definition bind {St A B} (m : M St A) (k : A -> M St B) : M St B :=
  fun s =>
    match m s with
    | (Return a, s') => k a s'
    | (Raise e, s') => (Raise e, s')
    | (Diverged, s') => (Diverged, s')
    end.

Definition gets {St A} (f : St -> A) : M St A := fun s => (Return (f s), s).
Definition modify {St} (f : St -> St) : M St unit := fun s => (Return tt, f s).

(** [try: m except <those e with handles e>: h e].  The state reached
    when the exception was raised is the one the handler starts from. *)
Definition try_except {St A} (m : M St A) (handles : exn -> bool)
    (h : exn -> M St A) : M St A :=
  fun s =>
    match m s with
    | (Raise e, s') => if handles e then h e s' else (Raise e, s')
    | r => r
    end.

(** A bare [except:] and [except Exception:]. *)
Definition any_exn (_ : exn) : bool := true.

Declare Scope py_scope.
Delimit Scope py_scope with py.
Notation "x <- m ;; k" := (bind m (fun x => k))
  (at level 100, m at next level, right associativity) : py_scope.
Notation "m ;;; k" := (bind m (fun _ => k))
  (at level 100, right associativity) : py_scope.

(** The values [json.loads] can return. *)
#[warnings="-register-all"]
Inductive pyvalue :=
| PyNone
| PyBool (b : bool)
| PyNum (q : Q)
| PyStr (s : string)
| PyList (l : list pyvalue)
| PyDict (kvs : list (string * pyvalue)).   (* one binding per key *)

(** [d.get(key, default)] on a [dict]. *)
Fixpoint dict_get (kvs : list (string * pyvalue)) (key : string)
    (default : pyvalue) : pyvalue :=
  match kvs with
  | [] => default
  | (k, v) :: rest => if String.eqb k key then v else dict_get rest key default
  end.

(** [d[key]] when [key in d]. *)
Fixpoint dict_lookup (kvs : list (string * pyvalue)) (key : string)
  : option pyvalue :=
  match kvs with
  | [] => None
  | (k, v) :: rest => if String.eqb k key then Some v else dict_lookup rest key
  end.

(** [key in d]. *)
Fixpoint dict_has (kvs : list (string * pyvalue)) (key : string) : bool :=
  match kvs with
  | [] => false
  | (k, _) :: rest => String.eqb k key || dict_has rest key
  end.

(** [metadata.get('camera_id', default)]: only a [dict] has [get]. *)
Definition py_get (metadata : pyvalue) (key : string) (default : pyvalue)
  : outcome pyvalue :=
  match metadata with
  | PyDict kvs => Return (dict_get kvs key default)
  | _ => Raise AttributeError
  end.

(** [json.loads(b.decode('utf-8'))] as the caller sees it. *)
Inductive loaded :=
| BadUtf8               (* UnicodeDecodeError from decode *)
| BadJson               (* JSONDecodeError from loads *)
| Parsed (v : pyvalue).

End Py.

(** ** [queue.Queue(maxsize)] *)

Module Queue.
Import Py.

(** A frame as it sits in the queue: [(frame_data, timestamp)]. *)
Definition frame : Type := list byte * Q.

Record t := mk { maxsize : nat; items : list frame }.

Definition empty (q : t) : bool :=
  match items q with [] => true | _ :: _ => false end.

Definition full (q : t) : bool :=
  (0 <? maxsize q) && (maxsize q <=? length (items q)).

(** [get_nowait]: oldest item, or [queue.Empty]. *)
Definition get_nowait (q : t) : outcome frame * t :=
  match items q with
  | [] => (Raise QueueEmpty, q)
  | x :: rest => (Return x, mk (maxsize q) rest)
  end.

(** [put_nowait]: append, or [queue.Full]. *)
Definition put_nowait (x : frame) (q : t) : outcome unit * t :=
  if full q then (Raise QueueFull, q)
  else (Return tt, mk (maxsize q) (items q ++ [x])).

(** What another thread may do to the same queue between two
    operations of this one: the viewer's [get_nowait], or a
    [put_nowait] by another producer.  Their exceptions stay in their
    own thread. *)
Inductive other_op :=
| OtherGet
| OtherPut (x : frame).

Definition other (op : other_op) (q : t) : t :=
  match op with
  | OtherGet => snd (get_nowait q)
  | OtherPut x => snd (put_nowait x q)
  end.

Definition others (ops : list other_op) (q : t) : t :=
  fold_left (fun q op => other op q) ops q.

End Queue.

(** ** [FrameStats] and [VideoServer] *)

Module Server.
Import Py Sock.
Local Open Scope py_scope.

Record FrameStats := mkStats {
  fps : Q;
  latency_ms : Q;
  last_updated : Q;
  stats_camera_id : pyvalue;
}.

(** [FrameStats(camera_id=camera_id)]; the default of [last_updated]
    is the reading of [time.time()] taken when the class was defined. *)
Definition FrameStats_new (t_import : Q) (camera_id : pyvalue) : FrameStats :=
  mkStats 0 0 t_import camera_id.

Definition set_fps (v : Q) (s : FrameStats) : FrameStats :=
  mkStats v (latency_ms s) (last_updated s) (stats_camera_id s).
Definition set_latency_ms (v : Q) (s : FrameStats) : FrameStats :=
  mkStats (fps s) v (last_updated s) (stats_camera_id s).
Definition set_last_updated (v : Q) (s : FrameStats) : FrameStats :=
  mkStats (fps s) (latency_ms s) v (stats_camera_id s).
Definition set_stats_camera_id (v : pyvalue) (s : FrameStats) : FrameStats :=
  mkStats (fps s) (latency_ms s) (last_updated s) v.

(** The fields of a [VideoServer].  Sockets are named by the number
    of the [accept] that returned them. *)
Record VideoServer := mkServer {
  host : string;
  port : Z;
  frame_queue : Queue.t;
  stats : FrameStats;
  camera_id : pyvalue;
  should_run : bool;                     (* _should_run.is_set() *)
  client_socket : option nat;            (* _client_socket *)
  client_output_stream : option nat;     (* _client_output_stream *)
}.

(** [VideoServer.__init__]. *)
Definition VideoServer_new (host : string) (port : Z) (frame_queue : Queue.t)
    (stats : FrameStats) (camera_id : pyvalue) : VideoServer :=
  mkServer host port frame_queue stats camera_id false None None.

Definition set_frame_queue (q : Queue.t) (s : VideoServer) : VideoServer :=
  mkServer (host s) (port s) q (stats s) (camera_id s) (should_run s)
           (client_socket s) (client_output_stream s).
Definition set_stats (st : FrameStats) (s : VideoServer) : VideoServer :=
  mkServer (host s) (port s) (frame_queue s) st (camera_id s) (should_run s)
           (client_socket s) (client_output_stream s).
Definition set_camera_id (v : pyvalue) (s : VideoServer) : VideoServer :=
  mkServer (host s) (port s) (frame_queue s) (stats s) v (should_run s)
           (client_socket s) (client_output_stream s).
Definition set_should_run (b : bool) (s : VideoServer) : VideoServer :=
  mkServer (host s) (port s) (frame_queue s) (stats s) (camera_id s) b
           (client_socket s) (client_output_stream s).
Definition set_client_socket (c : option nat) (s : VideoServer) : VideoServer :=
  mkServer (host s) (port s) (frame_queue s) (stats s) (camera_id s) (should_run s)
           c (client_output_stream s).
Definition set_client_output_stream (c : option nat) (s : VideoServer) : VideoServer :=
  mkServer (host s) (port s) (frame_queue s) (stats s) (camera_id s) (should_run s)
           (client_socket s) c.

(** What the server thread runs in: the object itself, the future of
    the socket it serves, the number of [time.time()] calls made so
    far, and what other threads do to the queue before each of this
    thread's queue operations (one batch per operation; none left
    means the thread runs alone). *)
Record world := mkWorld {
  self : VideoServer;
  net : wire;
  ticks : nat;
  meddling : list (list Queue.other_op);
}.

Definition on_self (f : VideoServer -> VideoServer) (w : world) : world :=
  mkWorld (f (self w)) (net w) (ticks w) (meddling w).
Definition set_net (n : wire) (w : world) : world :=
  mkWorld (self w) n (ticks w) (meddling w).

Section Code.

(** [time.time()]: the reading returned by the n-th call. *)
Variable clock : nat -> Q.
(** [json.loads(b.decode('utf-8'))], from the Python library. *)
Variable loads : list byte -> loaded.

Definition time : M world Q :=
  fun w => (Return (clock (ticks w)),
            mkWorld (self w) (net w) (S (ticks w)) (meddling w)).

(** Other threads take their turn at the queue. *)
Definition interleave : M world unit :=
  fun w =>
    match meddling w with
    | [] => (Return tt, w)
    | ops :: later =>
        (Return tt,
         mkWorld (set_frame_queue (Queue.others ops (frame_queue (self w))) (self w))
                 (net w) (ticks w) later)
    end.

Definition on_queue {A} (op : Queue.t -> outcome A * Queue.t) : M world A :=
  interleave ;;;
  (fun w => let (r, q) := op (frame_queue (self w)) in
            (r, on_self (set_frame_queue q) w)).

Definition q_empty : M world bool :=
  on_queue (fun q => (Return (Queue.empty q), q)).
Definition q_get_nowait : M world Queue.frame := on_queue Queue.get_nowait.
Definition q_put_nowait (x : Queue.frame) : M world unit :=
  on_queue (Queue.put_nowait x).

Definition is_QueueEmpty (e : exn) : bool :=
  match e with QueueEmpty => true | _ => false end.
Definition is_QueueFull (e : exn) : bool :=
  match e with QueueFull => true | _ => false end.

(** The [while not self.frame_queue.empty()] loop of [_push_frame];
    [false] from the inner [try] is its [break]. *)
Fixpoint drain (fuel : nat) : M world unit :=
  match fuel with
  | 0 => diverge
  | S fuel' =>
      e <- q_empty ;;
      if e then ret tt
      else
        again <- try_except (q_get_nowait ;;; ret true)
                            is_QueueEmpty (fun _ => ret false) ;;
        if again then drain fuel' else ret tt
  end.

(** Turns of the loop are paid for by items in the queue and by
    what the other threads still have to do. *)
Definition drain_fuel (w : world) : nat :=
  S (length (Queue.items (frame_queue (self w)))
     + length (concat (meddling w)) + length (meddling w)).

(** [VideoServer._push_frame]. *)
Definition _push_frame (frame_data : list byte) (timestamp : Q) : M world unit :=
  (fun w => drain (drain_fuel w) w) ;;;
  try_except (q_put_nowait (frame_data, timestamp))
             is_QueueFull (fun _ => ret tt) ;;;
  modify (on_self (fun s => set_stats (set_last_updated timestamp (stats s)) s)).

(** [VideoServer._recvall] on the served socket. *)
Definition _recvall (length : nat) : M world (option (list byte)) :=
  fun w =>
    match recvall (net w) length with
    | (Data bs, n) => (Return (Some bs), set_net n w)
    | (NoData, n) => (Return None, set_net n w)
    | (Raised, n) => (Raise OSError, set_net n w)
    end.

(** Truth value of an [Optional[bytes]]. *)
Definition truthy (b : option (list byte)) : bool :=
  match b with
  | Some (_ :: _) => true
  | _ => false
  end.

Definition unpack (header : list byte) : M world Z :=
  match Wire.unpack_be32 header with
  | Some n => ret n
  | None => raise StructError
  end.

Definition json_loads (metadata_bytes : list byte) : M world pyvalue :=
  match loads metadata_bytes with
  | BadUtf8 => raise UnicodeDecodeError
  | BadJson => raise JSONDecodeError
  | Parsed v => ret v
  end.

Definition lift {A} (r : outcome A) : M world A := fun w => (r, w).

Definition is_decode_error (e : exn) : bool :=
  match e with
  | JSONDecodeError | UnicodeDecodeError => true
  | _ => false
  end.

(** Lines 130-146 of [_handle_client]: the optional metadata. *)
Definition read_metadata : M world unit :=
  try_except
    (metadata_header <- _recvall 4 ;;
     if truthy metadata_header then
       metadata_length <- unpack (default [] metadata_header) ;;
       if ((0 <? metadata_length) && (metadata_length <? 1024))%Z then
         metadata_bytes <- _recvall (Z.to_nat metadata_length) ;;
         if truthy metadata_bytes then
           try_except
             (metadata <- json_loads (default [] metadata_bytes) ;;
              old <- gets (fun w => camera_id (self w)) ;;
              new <- lift (py_get metadata "camera_id" old) ;;
              modify (on_self (set_camera_id new)) ;;;
              cid <- gets (fun w => camera_id (self w)) ;;
              modify (on_self (fun s => set_stats (set_stats_camera_id cid (stats s)) s)))
             is_decode_error (fun _ => ret tt)
         else ret tt
       else ret tt
     else ret tt)
    any_exn (fun _ => ret tt).

(** What lines 139-144 leave of the server once the metadata bytes
    are in hand: the identity is set, on the object and in its
    statistics, only when they decode to a [dict]. *)
Definition after_metadata (payload : list byte) (s : VideoServer) : VideoServer :=
  match loads payload with
  | Parsed (PyDict kvs) =>
      let new := dict_get kvs "camera_id" (camera_id s) in
      set_stats (set_stats_camera_id new (stats s)) (set_camera_id new s)
  | _ => s
  end.

(** What one turn of the frame loop tells the [while]. *)
Inductive ctl :=
| Break
| Continue.

Definition MAX_FRAME : Z := 5 * 1024 * 1024.

(** The body of the [while] of [_handle_client] (lines 149-172),
    with the two locals [frame_count] and [window_start] passed in
    and out.  Every exception the body can meet is an [OSError] or a
    [struct.error], and both handlers [break]. *)
Definition frame_turn (frame_count : nat) (window_start : Q)
  : M world (ctl * nat * Q) :=
  try_except
    (header <- _recvall 4 ;;
     if negb (truthy header) then ret (Break, frame_count, window_start)
     else
       frame_length <- unpack (default [] header) ;;
       if ((frame_length <=? 0) || (MAX_FRAME <? frame_length))%Z
       then ret (Continue, frame_count, window_start)
       else
         frame_data <- _recvall (Z.to_nat frame_length) ;;
         if negb (truthy frame_data) then ret (Break, frame_count, window_start)
         else
           now <- time ;;
           _push_frame (default [] frame_data) now ;;;
           let frame_count := S frame_count in
           let elapsed := (now - window_start)%Q in
           if Qle_bool 1 elapsed then
             modify (on_self (fun s =>
               set_stats (set_fps (inject_Z (Z.of_nat frame_count) / elapsed)%Q
                                  (stats s)) s)) ;;;
             ret (Continue, 0, now)
           else ret (Continue, frame_count, window_start))
    (fun e => match e with OSError | StructError => true | _ => false end)
    (fun _ => ret (Break, frame_count, window_start)).

(** [while self._should_run.is_set(): ...]. *)
Fixpoint frame_loop (fuel : nat) (frame_count : nat) (window_start : Q)
  : M world unit :=
  match fuel with
  | 0 => diverge
  | S fuel' =>
      running <- gets (fun w => should_run (self w)) ;;
      if negb running then ret tt
      else
        r <- frame_turn frame_count window_start ;;
        match r with
        | (Break, _, _) => ret tt
        | (Continue, frame_count', window_start') =>
            frame_loop fuel' frame_count' window_start'
        end
  end.

(** A turn that continues has read a header, so the wire pays. *)
Definition loop_fuel (w : world) : nat := S (weight (net w)).

(** Lines 122-125 of [_handle_client]: three [setsockopt] calls and
    [settimeout(5.0)] on the client socket.  They stand outside every
    [try], so the [OSError] that a socket closed by [stop] since
    [accept] returned answers them with leaves [_handle_client] before
    anything else is done.  [accepted] tells whether all four
    return. *)
Definition socket_options (accepted : bool) : M world unit :=
  if accepted then ret tt else raise OSError.

(** [VideoServer._handle_client]; [options_accepted] is what the
    client socket makes of lines 122-125. *)
Definition _handle_client (client_socket : nat) (options_accepted : bool)
  : M world unit :=
  socket_options options_accepted ;;;
  modify (on_self (set_client_output_stream (Some client_socket))) ;;;
  let frame_count := 0 in
  window_start <- time ;;
  read_metadata ;;;
  (fun w => frame_loop (loop_fuel w) frame_count window_start w) ;;;
  modify (on_self (set_client_output_stream None)).

End Code.

(** The queue of the world's server. *)
Definition fq (w : world) : Queue.t := frame_queue (self w).

(** What the drain loop of [_push_frame] is paid with. *)
Definition mu (w : world) : nat :=
  length (Queue.items (fq w)) + length (concat (meddling w)) + length (meddling w).

(** Nothing but the queue (and the other threads' agenda) differs. *)
Definition queue_only (w w' : world) : Prop :=
  self w' = set_frame_queue (fq w') (self w)
  /\ net w' = net w /\ ticks w' = ticks w
  /\ Queue.maxsize (fq w') = Queue.maxsize (fq w).

End Server.

(** ** [start], [stop] and the accept loop of [_run_server] *)

Module Lifecycle.
Import Server.

(** Where the server thread is.  The session itself is
    [Server._handle_client]; here it is one blocking call among the
    others, and only the fields that [start], [stop] and the accept
    loop read and write are followed. *)
Inductive pc :=
| NoThread                 (* _server_thread is None *)
| Binding                  (* thread started, before bind/listen *)
| LoopHead                 (* about to test _should_run.is_set() *)
| InAccept                 (* blocked in server_socket.accept() *)
| InClient (sock : nat)    (* inside _handle_client(sock, address) *)
| Exited.                  (* _run_server has returned or died *)

(** [_server_thread.is_alive()]. *)
Definition is_alive (p : pc) : bool :=
  match p with
  | NoThread | Exited => false
  | _ => true
  end.

(** A [VideoServer] together with its thread and its sockets. *)
Record endpoint := mkEndpoint {
  srv : VideoServer;
  thread : pc;
  accepted : nat;            (* connections accepted so far *)
  closed : list nat;         (* client sockets that have been closed *)
}.

Definition endpoint_new (s : VideoServer) : endpoint :=
  mkEndpoint s NoThread 0 [].

(** [VideoServer.start]. *)
Definition start (e : endpoint) : endpoint :=
  if is_alive (thread e) then e
  else mkEndpoint (set_should_run true (srv e)) Binding (accepted e) (closed e).

(** [VideoServer.stop].  [shutdown] on a socket that is already
    closed raises [OSError], which is swallowed; [close] is then
    harmless.  Nothing here waits for the thread. *)
Definition stop (e : endpoint) : endpoint :=
  let s := set_should_run false (srv e) in
  match client_socket s with
  | Some k => mkEndpoint (set_client_socket None s) (thread e) (accepted e)
                         (k :: closed e)
  | None => mkEndpoint s (thread e) (accepted e) (closed e)
  end.

(** How the blocking call the thread is in comes back. *)
Inductive comes_back :=
| Succeeds
| TimesOut                 (* socket.timeout *)
| Fails.                   (* any other OSError *)

(** One move of the thread running [_run_server]. *)
Definition thread_step (r : comes_back) (e : endpoint) : endpoint :=
  match thread e with
  | NoThread | Exited => e
  | Binding =>
      match r with
      | Succeeds => mkEndpoint (srv e) LoopHead (accepted e) (closed e)
      | _ => mkEndpoint (srv e) Exited (accepted e) (closed e)
      end
  | LoopHead =>
      if should_run (srv e)
      then mkEndpoint (srv e) InAccept (accepted e) (closed e)
      else mkEndpoint (srv e) Exited (accepted e) (closed e)
  | InAccept =>
      match r with
      | Succeeds =>
          let k := accepted e in
          mkEndpoint (set_client_socket (Some k) (srv e)) (InClient k)
                     (S k) (closed e)
      | TimesOut => mkEndpoint (srv e) LoopHead (accepted e) (closed e)
      | Fails => mkEndpoint (srv e) Exited (accepted e) (closed e)
      end
  | InClient k =>
      (* [with client_socket:] closes the socket however the session
         ends; an OSError that escapes _handle_client is a [break] *)
      match r with
      | Fails => mkEndpoint (srv e) Exited (accepted e) (k :: closed e)
      | _ => mkEndpoint (srv e) LoopHead (accepted e) (k :: closed e)
      end
  end.

Definition thread_run (rs : list comes_back) (e : endpoint) : endpoint :=
  fold_left (fun e r => thread_step r e) rs e.

Definition is_closed (k : nat) (e : endpoint) : bool :=
  existsb (Nat.eqb k) (closed e).

End Lifecycle.

(** ** [ViewerApp]: the camera registry and the consumer of frames *)

Module Viewer.
Import Py Server.
Local Open Scope py_scope.

(** An entry of [self.cameras].  Its ['stats'] and ['queue'] are the
    very objects the server holds, so they are read through
    [server]. *)
Record camera := mkCamera {
  server : Lifecycle.endpoint;
  cam_host : string;
  cam_port : Z;
}.

Record ViewerApp := mkApp {
  cameras : gmap string camera;
  active_camera_id : option string;
  current_image_ts : Q;
  app_ticks : nat;             (* time.time() calls made by this thread *)
}.

Definition set_cameras (c : gmap string camera) (a : ViewerApp) : ViewerApp :=
  mkApp c (active_camera_id a) (current_image_ts a) (app_ticks a).

Definition on_server (f : VideoServer -> VideoServer) (c : camera) : camera :=
  mkCamera (Lifecycle.mkEndpoint (f (Lifecycle.srv (server c)))
              (Lifecycle.thread (server c)) (Lifecycle.accepted (server c))
              (Lifecycle.closed (server c)))
           (cam_host c) (cam_port c).

Definition cam_queue (c : camera) : Queue.t :=
  frame_queue (Lifecycle.srv (server c)).
Definition cam_stats (c : camera) : FrameStats :=
  stats (Lifecycle.srv (server c)).

Section Code.

Variable clock : nat -> Q.
(** Whether PIL turns the payload into a displayed image
    ([Image.open] up to [video_label.configure]) without raising. *)
Variable decodes : list byte -> bool.
(** The reading of [time.time()] when [FrameStats] was defined. *)
Variable t_import : Q.

(** [ViewerApp._add_camera]: no test, the entry is (re)bound. *)
Definition _add_camera (camera_id : string) (host : string) (port : Z)
    (a : ViewerApp) : ViewerApp :=
  let frame_queue := Queue.mk 1 [] in
  let stats := FrameStats_new t_import (PyStr camera_id) in
  let server := VideoServer_new host port frame_queue stats (PyStr camera_id) in
  set_cameras (<[camera_id := mkCamera (Lifecycle.endpoint_new server) host port]>
                 (cameras a)) a.

(** What the dialog shows when [add_camera] returns. *)
Inductive dialog :=
| Destroyed                      (* dialog.destroy(): the camera was added *)
| ErrorLabel (text : string).    (* error_label.config(text=...) *)

Definition start_camera (name : string) (a : ViewerApp) : ViewerApp :=
  match cameras a !! name with
  | Some c => set_cameras (<[name := mkCamera (Lifecycle.start (server c))
                                              (cam_host c) (cam_port c)]>
                             (cameras a)) a
  | None => a
  end.

(** The [add_camera] callback of the "Add Camera" dialog.  [name]
    and [host] are the entries' texts after [strip()]; [port] is
    [int(port_entry.get().strip())], [None] when it raises
    [ValueError]. *)
Definition add_camera (name host : string) (port : option Z)
    (a : ViewerApp) : dialog * ViewerApp :=
  match port with
  | None => (ErrorLabel "Invalid port number", a)
  | Some port =>
      if String.eqb name "" then
        (ErrorLabel "Please enter a camera name", a)
      else if String.eqb host "" then
        (ErrorLabel "Please enter a host/IP address", a)
      else if ((port <? 1024) || (65535 <? port))%Z then
        (ErrorLabel "Port must be between 1024 and 65535", a)
      else if bool_decide (is_Some (cameras a !! name)) then
        (ErrorLabel ("Camera '" ++ name ++ "' already exists"), a)
      else
        (Destroyed, start_camera name (_add_camera name host port a))
  end.

(** [self.active_camera_id and self.active_camera_id in self.cameras]. *)
Definition active_camera (a : ViewerApp) : option (string * camera) :=
  match active_camera_id a with
  | Some id =>
      if String.eqb id "" then None
      else match cameras a !! id with
           | Some c => Some (id, c)
           | None => None
           end
  | None => None
  end.

Definition app_time : M ViewerApp Q :=
  fun a => (Return (clock (app_ticks a)),
            mkApp (cameras a) (active_camera_id a) (current_image_ts a)
                  (S (app_ticks a))).

(** Python's [max(a, b)]: [b] only when [b > a]. *)
Definition py_max (a b : Q) : Q := if Qle_bool b a then a else b.

(** [ViewerApp._display_frame]. *)
Definition _display_frame (frame_data : list byte) (timestamp : Q)
  : M ViewerApp unit :=
  try_except
    ((if decodes frame_data then ret tt else raise ImageError) ;;;
     now <- app_time ;;
     modify (fun a =>
       match active_camera a with
       | Some (id, c) =>
           let latency := py_max ((now - timestamp) * 1000)%Q 0%Q in
           set_cameras
             (<[id := on_server (fun s => set_stats (set_latency_ms latency (stats s)) s) c]>
                (cameras a)) a
       | None => a
       end) ;;;
     modify (fun a => mkApp (cameras a) (active_camera_id a) now (app_ticks a)))
    any_exn (fun _ => ret tt).

Definition app_get_nowait (id : string) (c : camera) : M ViewerApp Queue.frame :=
  fun a =>
    let (r, q) := Queue.get_nowait (cam_queue c) in
    (r, set_cameras (<[id := on_server (set_frame_queue q) c]> (cameras a)) a).

(** [ViewerApp._poll_frames], without the rescheduling of itself.
    The Python method returns nothing; the frame it took from the
    queue, if any, is returned here so that it can be observed. *)
Definition _poll_frames : M ViewerApp (option Queue.frame) :=
  try_except
    (cam <- gets active_camera ;;
     match cam with
     | Some (id, c) =>
         f <- app_get_nowait id c ;;
         _display_frame (fst f) (snd f) ;;;
         ret (Some f)
     | None => ret None
     end)
    is_QueueEmpty (fun _ => ret None).

End Code.
End Viewer.

(** ** Runs of the whole: a registered camera, its thread, a client *)

Module Scenario.
Import Py Sock Server Lifecycle Viewer.

(** What a conforming client writes for one frame. *)
Definition encode_frame (payload : list byte) : list byte :=
  Wire.pack_be32 (Z.of_nat (length payload)) ++ payload.

Definition on_endpoint (f : endpoint -> endpoint) (c : camera) : camera :=
  mkCamera (f (server c)) (cam_host c) (cam_port c).

Definition on_camera (name : string) (f : camera -> camera) (a : ViewerApp)
  : ViewerApp :=
  match cameras a !! name with
  | Some c => set_cameras (<[name := f c]> (cameras a)) a
  | None => a
  end.

(** The server thread of a camera serves the connection [k], whose
    socket accepts the options and delivers [n]: [_handle_client]
    runs on the camera's own server object, with no other thread at
    the queue meanwhile. *)
Definition session (clock : nat -> Q) (loads : list byte -> loaded)
    (k : nat) (n : wire) (t : nat) (c : camera) : camera :=
  on_server (fun s => self (snd (_handle_client clock loads k true (mkWorld s n t [])))) c.

(** [ViewerApp.__init__] as far as cameras go: "Camera 1" is
    registered, selected, and every registered server is started. *)
Definition app_init (t_import : Q) (host : string) (port : Z) : ViewerApp :=
  let a := _add_camera t_import "Camera 1" host port (mkApp ∅ None 0 0) in
  let a := mkApp (cameras a) (Some "Camera 1") 0 (app_ticks a) in
  on_camera "Camera 1" (on_endpoint start) a.

(** The thread binds, tests the flag and accepts its first client. *)
Definition first_client (a : ViewerApp) : ViewerApp :=
  on_camera "Camera 1"
    (on_endpoint (thread_run [Succeeds; Succeeds; Succeeds])) a.

(** A payload the length test of the frame loop lets through. *)
Definition valid_frame (payload : list byte) : Prop :=
  (0 < Z.of_nat (length payload) <= 5242880)%Z.

(** What a conforming client writes for a run of frames. *)
Definition encode_frames (frames : list (list byte)) : list byte :=
  concat (map encode_frame frames).

(** Concrete inputs. *)
Definition A5 : list byte := [x41; x41; x41; x41; x41].   (* b"AAAAA" *)

(** A clock that advances one second per reading. *)
Definition seconds (n : nat) : Q := inject_Z (Z.of_nat n).

(** A clock read at 0, then at 1/2, 3/2, 5/2, ... *)
Definition half_past (n : nat) : Q :=
  match n with
  | 0 => 0
  | S m => inject_Z (2 * Z.of_nat m + 1) / 2
  end.

(** A parser that rejects everything as malformed JSON. *)
Definition no_json (_ : list byte) : loaded := BadJson.

(** The 21 bytes of the JSON text that binds camera_id to Cam42. *)
Definition cam42_json : list byte :=
  [x7b; x22; x63; x61; x6d; x65; x72; x61; x5f; x69; x64; x22; x3a;
   x22; x43; x61; x6d; x34; x32; x22; x7d].

Fixpoint bytes_eqb (a b : list byte) : bool :=
  match a, b with
  | [], [] => true
  | x :: a', y :: b' => Byte.eqb x y && bytes_eqb a' b'
  | _, _ => false
  end.

(** A parser that knows that one text. *)
Definition cam42_parser (b : list byte) : loaded :=
  if bytes_eqb b cam42_json
  then Parsed (PyDict [("camera_id"%string, PyStr "Cam42")])
  else BadJson.

(** The server of a freshly registered camera, started. *)
Definition fresh_server : VideoServer :=
  set_should_run true
    (VideoServer_new "0.0.0.0" 5000 (Queue.mk 1 [])
       (FrameStats_new 0 (PyStr "Camera 1")) (PyStr "Camera 1")).

(** The server thread alone with a socket. *)
Definition alone (s : VideoServer) (n : wire) : world := mkWorld s n 0 [].

End Scenario.

(** ** The control channel: [send_control_command] and its callers *)

Module Control.
Import Py Server Lifecycle Viewer.
Local Open Scope py_scope.

(** [command.encode('utf-8') + b'\n'].  A [str] is held as the bytes
    of its UTF-8 encoding, so encoding it is reading them off. *)
Definition encode_line (command : string) : list byte :=
  String.list_byte_of_string command ++ [x0a].

(** A server with its thread and sockets, what [sendall] has written
    on each socket so far, oldest first, and the exceptions whose
    message has been printed. *)
Record link := mkLink {
  ep : endpoint;
  sent : list (nat * list byte);
  printed : list exn;
}.

(** [sock.sendall(data)] on socket [k].  A closed socket refuses at
    once; otherwise the transport takes [room] bytes, and fewer than
    all of them is an [OSError] after those have gone out. *)
Definition sendall (k : nat) (data : list byte) (room : nat) : M link unit :=
  fun l =>
    if is_closed k (ep l) then (Raise OSError, l)
    else if length data <=? room
    then (Return tt, mkLink (ep l) (sent l ++ [(k, data)]) (printed l))
    else (Raise OSError,
          mkLink (ep l)
                 (match firstn room data with
                  | [] => sent l
                  | part => sent l ++ [(k, part)]
                  end)
                 (printed l)).

(** [VideoServer.send_control_command]. *)
Definition send_control_command (command : string) (room : nat) : M link unit :=
  stream <- gets (fun l => client_output_stream (srv (ep l))) ;;
  match stream with
  | Some k =>
      try_except (sendall k (encode_line command) room) any_exn
        (fun e => modify (fun l => mkLink (ep l) (sent l) (printed l ++ [e])))
  | None => ret tt
  end.

(** [ImageSettings]. *)
Record ImageSettings := mkSettings {
  brightness : Q;
  contrast : Q;
  saturation : Q;
  filter_type : string;
  rotation : Z;
}.

Definition ImageSettings_new : ImageSettings := mkSettings 1 1 1 "none" 0.

(** The viewer with its image settings, what has gone out to the
    cameras' clients (camera, socket, bytes), what has been printed,
    and the number of commands issued so far. *)
Record desk := mkDesk {
  app : ViewerApp;
  image_settings : ImageSettings;
  out : list (string * nat * list byte);
  stdout : list exn;
  issued : nat;
}.

Section Code.

(** How many bytes the transport takes of the n-th command. *)
Variable room : nat -> nat.

(** [if self.active_camera_id and self.active_camera_id in
    self.cameras: self.cameras[...]['server'].send_control_command(c)]. *)
Definition send_to_active (command : string) (d : desk) : desk :=
  match active_camera (app d) with
  | Some (id, c) =>
      let l := snd (send_control_command command (room (issued d))
                      (mkLink (server c) [] [])) in
      mkDesk (app d) (image_settings d)
             (out d ++ map (fun x => (id, fst x, snd x)) (sent l))
             (stdout d ++ printed l) (S (issued d))
  | None => d
  end.

(** [ViewerApp._on_flash_change]; [flash] is [self.flash_var.get()]. *)
Definition _on_flash_change (flash : bool) (d : desk) : desk :=
  let flash_state := if flash then "ON"%string else "OFF"%string in
  send_to_active ("FLASH:" ++ flash_state)%string d.

(** [ViewerApp._reset_controls], the Tk variables and labels left
    out. *)
Definition _reset_controls (d : desk) : desk :=
  let d := mkDesk (app d) ImageSettings_new (out d) (stdout d) (issued d) in
  match active_camera (app d) with
  | Some _ =>
      send_to_active "FLASH:OFF"
        (send_to_active "FOCUS:0.5"
           (send_to_active "EXPOSURE:0"
              (send_to_active "ZOOM:1.0" d)))
  | None => d
  end.

End Code.
End Control.

(** ** The rest of [ViewerApp]: selection, shutdown, the status bar *)

Module Panel.
Import Py Server Lifecycle Viewer.
Local Open Scope py_scope.

(** [ViewerApp._switch_camera]. *)
Definition _switch_camera (camera_id : string) (a : ViewerApp) : ViewerApp :=
  if bool_decide (is_Some (cameras a !! camera_id))
  then mkApp (cameras a) (Some camera_id) (current_image_ts a) (app_ticks a)
  else a.

(** [ViewerApp._stop_server]: [stop] on every registered server. *)
Definition _stop_server (a : ViewerApp) : ViewerApp :=
  set_cameras
    ((fun c => mkCamera (stop (server c)) (cam_host c) (cam_port c)) <$> cameras a)
    a.

(** What [_refresh_stats] puts in the status bar; the formatting of
    the numbers is left out. *)
Inductive shown :=
| Streaming (fps latency : Q) (camera_id : pyvalue)
| Waiting            (* "FPS: --", "Waiting for stream..." *)
| NoCamera.          (* "No camera selected..." *)

(** [ViewerApp._refresh_stats], without the rescheduling of itself. *)
Definition _refresh_stats (clock : nat -> Q) : M ViewerApp shown :=
  cam <- gets active_camera ;;
  match cam with
  | Some (_, c) =>
      let stats := cam_stats c in
      now <- app_time clock ;;
      let elapsed := (now - last_updated stats)%Q in
      if negb (Qle_bool 2 elapsed) && negb (Qle_bool (fps stats) 0)
      then ret (Streaming (fps stats) (latency_ms stats) (stats_camera_id stats))
      else ret Waiting
  | None => ret NoCamera
  end.

End Panel.

(** ** [_compute_display_size] *)

Module DisplaySize.

(** [_cached_display_size] and [_last_label_size]. *)
Record display_cache := mkCache {
  cached_display_size : option (Z * Z);
  last_label_size : Z * Z;
}.

(** As [ViewerApp.__init__] sets them. *)
Definition display_cache_new : display_cache := mkCache None (0, 0)%Z.

Definition size_eqb (a b : Z * Z) : bool :=
  (fst a =? fst b)%Z && (snd a =? snd b)%Z.

Section Code.

(** [(int(image_width * scale), int(image_height * scale))] for a
    label size and an image size with no side 0, as double-precision
    arithmetic gives it. *)
Variable scaled : Z * Z -> Z * Z -> Z * Z.

(** [ViewerApp._compute_display_size]; [winfo_width], [winfo_height]
    are what the label reports.  [None] is the [ZeroDivisionError] of
    an image with a side of 0. *)
Definition _compute_display_size (winfo_width winfo_height : Z)
    (image_size : Z * Z) (c : display_cache)
  : option ((Z * Z) * display_cache) :=
  let label_width := Z.max winfo_width 640 in
  let label_height := Z.max winfo_height 480 in
  let current_label_size := (label_width, label_height) in
  match cached_display_size c with
  | Some cached =>
      if size_eqb (last_label_size c) current_label_size
      then Some (cached, c)
      else
        if (fst image_size =? 0)%Z || (snd image_size =? 0)%Z then None
        else
          let display_size := scaled current_label_size image_size in
          Some (display_size, mkCache (Some display_size) current_label_size)
  | None =>
      if (fst image_size =? 0)%Z || (snd image_size =? 0)%Z then None
      else
        let display_size := scaled current_label_size image_size in
        Some (display_size, mkCache (Some display_size) current_label_size)
  end.

End Code.

(** The same arithmetic carried out exactly, on rationals. *)

(** [int(x)]: towards zero. *)
Definition py_int (x : Q) : Z := Z.quot (Qnum x) (Zpos (Qden x)).

(** Python's [min(a, b)]: [b] only when [b < a]. *)
Definition py_min (a b : Q) : Q := if Qle_bool a b then a else b.

Definition scaled_exactly (label_size image_size : Z * Z) : Z * Z :=
  let (label_width, label_height) := label_size in
  let (image_width, image_height) := image_size in
  let width_ratio := (inject_Z label_width / inject_Z image_width)%Q in
  let height_ratio := (inject_Z label_height / inject_Z image_height)%Q in
  let scale := py_min width_ratio height_ratio in
  (py_int (inject_Z image_width * scale), py_int (inject_Z image_height * scale)).

End DisplaySize.

(** ** Calls to [start] and [stop] between the moves of the thread *)

Module Life.
Import Server Lifecycle.

(** What happens to an endpoint: its thread moves, or the viewer
    calls [start] or [stop]. *)
Inductive action :=
| Move (r : comes_back)
| CallStart
| CallStop.

Definition act (a : action) (e : endpoint) : endpoint :=
  match a with
  | Move r => thread_step r e
  | CallStart => start e
  | CallStop => stop e
  end.

Definition acts (l : list action) (e : endpoint) : endpoint :=
  fold_left (fun e a => act a e) l e.

(** No socket is left open behind: every accepted socket has been
    closed unless it is the one of the session under way, and nothing
    names a socket that was never accepted. *)
Definition tidy (e : endpoint) : Prop :=
  (forall k, k < accepted e -> In k (closed e) \/ thread e = InClient k)
  /\ (forall k, thread e = InClient k -> k < accepted e)
  /\ (forall k, client_socket (srv e) = Some k -> k < accepted e)
  /\ (forall k, In k (closed e) -> k < accepted e).

(** Only the queue and the statistics of a server differ. *)
Definition server_kept (s s' : VideoServer) : Prop :=
  s' = set_stats (stats s') (set_frame_queue (frame_queue s') s).

End Life.

(** ** [get_local_ip_addresses] *)

Module LocalIp.
Import Py.

(** The order [sorted] puts [str]s in: by code point, which on UTF-8
    bytes is the order of the bytes. *)
Module StringOrder <: Orders.TotalLeBool.
Definition t := string.
Definition leb := String.leb.
Definition leb_total (x y : t) : leb x y = true \/ leb y x = true :=
  String.leb_total x y.
End StringOrder.

Module StringSort := Sort StringOrder.

(** [sorted(set(ips))]: a set holds each address once, and the sorted
    list of distinct strings does not depend on the order the set
    yields them in. *)
Definition sorted_set (ips : list string) : list string :=
  StringSort.sort (remove_dups ips).

(** How [socket.gethostbyname_ex(socket.gethostname())] ends. *)
Inductive resolution :=
| Resolved (addresses : list string)   (* the third component *)
| GaiError                             (* socket.gaierror *)
| OtherError.                          (* any other OSError, socket.herror among them *)

(** [get_local_ip_addresses].  [probe] is the address
    [getsockname()] reports after the UDP [connect], [None] when that
    raises [OSError]. *)
Definition get_local_ip_addresses (lookup : resolution) (probe : option string)
  : outcome (list string) :=
  match lookup with
  | OtherError => Raise OSError
  | _ =>
      let ips :=
        match lookup with
        | Resolved addresses =>
            List.filter (fun addr => negb (String.prefix "127." addr)) addresses
        | _ => []
        end in
      let ips := ips ++ match probe with Some ip => [ip] | None => [] end in
      match sorted_set ips with
      | [] => Return ["127.0.0.1"%string]
      | l => Return l
      end
  end.

End LocalIp.

(** * Properties *)

(** ** The queue under interference *)

Module QueueFacts.
Import Py Queue.

Lemma other_maxsize op q : maxsize (other op q) = maxsize q.
Proof.
  destruct op as [|x]; cbn.
  - unfold get_nowait. destruct (items q); reflexivity.
  - unfold put_nowait. destruct (full q); reflexivity.
Qed.

Lemma other_length op q : length (items (other op q)) <= S (length (items q)).
Proof.
  destruct op as [|x]; cbn.
  - unfold get_nowait. destruct (items q) eqn:E; cbn; rewrite ?E; cbn; lia.
  - unfold put_nowait. destruct (full q); cbn; [lia|].
    rewrite length_app. cbn. lia.
Qed.

Lemma others_maxsize ops : forall q, maxsize (others ops q) = maxsize q.
Proof.
  induction ops as [|op ops IH]; intros q; cbn; [reflexivity|].
  unfold others in IH. rewrite IH. apply other_maxsize.
Qed.

Lemma others_length ops : forall q,
  length (items (others ops q)) <= length (items q) + length ops.
Proof.
  induction ops as [|op ops IH]; intros q; cbn; [lia|].
  unfold others in IH. etransitivity; [apply IH|].
  pose proof (other_length op q). lia.
Qed.

(** A queue that has just been emptied takes one more item, whatever
    its bound. *)
Lemma put_after_empty m x :
  put_nowait x (mk m []) = (Return tt, mk m [x]).
Proof.
  unfold put_nowait, full. cbn.
  destruct m; cbn; reflexivity.
Qed.

End QueueFacts.

(** ** [_push_frame] *)

Module PushFacts.
Import Py Queue Server.

Ltac unfold_m :=
  unfold on_queue, bind, ret, raise, gets, modify, try_except, lift in *.

Lemma queue_only_refl w : queue_only w w.
Proof.
  unfold queue_only, fq. destruct w as [s n t m]. destruct s. cbn. auto.
Qed.

Lemma queue_only_trans w1 w2 w3 :
  queue_only w1 w2 -> queue_only w2 w3 -> queue_only w1 w3.
Proof.
  unfold queue_only, fq. intros (A1 & A2 & A3 & A4) (B1 & B2 & B3 & B4).
  repeat split; try congruence.
  rewrite B1, A1. destruct (self w1). reflexivity.
Qed.

Lemma queue_only_set_queue w q :
  maxsize q = maxsize (fq w) ->
  queue_only w (on_self (set_frame_queue q) w).
Proof.
  unfold queue_only, fq. destruct w as [s n t m]. destruct s. cbn. auto.
Qed.

Lemma interleave_spec w :
  exists w', interleave w = (Return tt, w')
    /\ queue_only w w' /\ mu w' <= mu w
    /\ (meddling w = [] -> w' = w).
Proof.
  unfold interleave. destruct (meddling w) as [|ops later] eqn:E.
  - exists w. split; [reflexivity|]. split; [apply queue_only_refl|].
    split; [lia|auto].
  - eexists. split; [reflexivity|]. split; [|split]; [| |discriminate].
    + unfold queue_only, fq. destruct w as [s n t m]. destruct s. cbn.
      repeat split. apply QueueFacts.others_maxsize.
    + unfold mu, fq. cbn. rewrite E. cbn. rewrite length_app.
      destruct w as [s n t m]. destruct s. cbn in *.
      pose proof (QueueFacts.others_length ops frame_queue0). lia.
Qed.

Lemma q_empty_spec w :
  exists w', q_empty w = (Return (Queue.empty (fq w')), w')
    /\ queue_only w w' /\ mu w' <= mu w
    /\ (meddling w = [] -> meddling w' = [] /\ fq w' = fq w).
Proof.
  destruct (interleave_spec w) as (w1 & E & Q & L & Alone).
  unfold q_empty. unfold_m. rewrite E. cbn.
  exists (on_self (set_frame_queue (fq w1)) w1). split; [|split; [|split]].
  - destruct w1 as [s n t m]. destruct s. reflexivity.
  - eapply queue_only_trans; [exact Q|]. apply queue_only_set_queue. reflexivity.
  - destruct w1 as [s n t m]. destruct s. exact L.
  - intros A. rewrite (Alone A). destruct w as [s n t m]. destruct s.
    cbn in *. auto.
Qed.

Lemma q_get_nowait_spec w :
  exists r w', q_get_nowait w = (r, w')
    /\ queue_only w w'
    /\ match r with
       | Return _ => mu w' < mu w
       | Raise e => e = QueueEmpty /\ mu w' <= mu w
       | Diverged => False
       end
    /\ (meddling w = [] ->
        meddling w' = [] /\
        match items (fq w) with
        | [] => r = Raise QueueEmpty /\ fq w' = fq w
        | x :: rest => r = Return x /\ fq w' = mk (maxsize (fq w)) rest
        end).
Proof.
  destruct (interleave_spec w) as (w1 & E & Q & L & Alone).
  unfold q_get_nowait. unfold_m. rewrite E. cbn.
  unfold get_nowait.
  destruct (items (frame_queue (self w1))) as [|x rest] eqn:I.
  - exists (Raise QueueEmpty). eexists. split; [reflexivity|].
    split; [|split].
    + eapply queue_only_trans; [exact Q|]. apply queue_only_set_queue. reflexivity.
    + split; [reflexivity|]. destruct w1 as [s n t m]. destruct s. exact L.
    + intros A. rewrite (Alone A) in *. unfold fq. rewrite I.
      destruct w as [s n t m]. destruct s. cbn in *. auto.
  - exists (Return x). eexists. split; [reflexivity|].
    split; [|split].
    + eapply queue_only_trans; [exact Q|]. apply queue_only_set_queue. reflexivity.
    + unfold mu, fq in *. rewrite I in L.
      destruct w1 as [s n t m]. destruct s. cbn in *. lia.
    + intros A. rewrite (Alone A) in *. unfold fq. rewrite I.
      destruct w as [s n t m]. destruct s. cbn in *. auto.
Qed.

Lemma q_put_nowait_spec x w :
  exists r w', q_put_nowait x w = (r, w')
    /\ queue_only w w'
    /\ match r with
       | Return _ => True
       | Raise e => e = QueueFull
       | Diverged => False
       end
    /\ (meddling w = [] -> items (fq w) = [] ->
        r = Return tt /\ meddling w' = [] /\ fq w' = mk (maxsize (fq w)) [x]).
Proof.
  destruct (interleave_spec w) as (w1 & E & Q & L & Alone).
  unfold q_put_nowait. unfold_m. rewrite E. cbn.
  unfold put_nowait.
  destruct (full (frame_queue (self w1))) eqn:F.
  - exists (Raise QueueFull). eexists. split; [reflexivity|].
    split; [|split]; [|reflexivity|].
    + eapply queue_only_trans; [exact Q|]. apply queue_only_set_queue. reflexivity.
    + intros A I. rewrite (Alone A) in *. unfold fq in I.
      unfold full in F. rewrite I in F. cbn in F.
      destruct (maxsize (frame_queue (self w))); discriminate.
  - exists (Return tt). eexists. split; [reflexivity|].
    split; [|split]; [|exact Logic.I|].
    + eapply queue_only_trans; [exact Q|]. apply queue_only_set_queue. reflexivity.
    + intros A I. rewrite (Alone A) in *. unfold fq in *. rewrite I.
      destruct w as [s n t m]. destruct s. cbn in *. auto.
Qed.

(** The drain loop ends, and touches nothing but the queue.  Alone, it
    leaves the queue empty. *)
Lemma drain_spec fuel : forall w,
  mu w < fuel ->
  exists w', drain fuel w = (Return tt, w')
    /\ queue_only w w'
    /\ (meddling w = [] -> meddling w' = [] /\ items (fq w') = []).
Proof.
  induction fuel as [|fuel IH]; intros w Hf; [lia|].
  destruct (q_empty_spec w) as (w1 & E1 & Q1 & L1 & A1).
  cbn [drain]. unfold bind at 1. rewrite E1.
  destruct (Queue.empty (fq w1)) eqn:Em.
  - exists w1. split; [reflexivity|]. split; [exact Q1|].
    intros A. destruct (A1 A) as [A1a A1b]. split; [exact A1a|].
    unfold Queue.empty in Em. destruct (items (fq w1)); [reflexivity|discriminate].
  - destruct (q_get_nowait_spec w1) as (r & w2 & E2 & Q2 & Hr & A2).
    unfold bind, try_except, ret. rewrite E2.
    destruct r as [x|e|]; [| |contradiction].
    + destruct (IH w2) as (w3 & E3 & Q3 & A3); [lia|].
      exists w3. split; [exact E3|].
      split; [eauto using queue_only_trans|].
      intros A. destruct (A1 A) as [A1a A1b].
      destruct (A2 A1a) as [A2a _]. auto.
    + destruct Hr as [-> Hr]. cbn.
      exists w2. split; [reflexivity|].
      split; [eauto using queue_only_trans|].
      intros A. destruct (A1 A) as [A1a A1b].
      destruct (A2 A1a) as [A2a A2b].
      unfold Queue.empty in Em.
      destruct (items (fq w1)); [discriminate|].
      destruct A2b as [A2b _]. discriminate.
Qed.

Lemma drain_fuel_enough w : mu w < drain_fuel w.
Proof. unfold mu, drain_fuel, fq. lia. Qed.

(** [_push_frame] returns normally from every state and under every
    interference, and of the statistics it writes [last_updated] only. *)
Lemma push_frame_spec frame_data timestamp w :
  exists w', _push_frame frame_data timestamp w = (Return tt, w')
    /\ stats (self w') = set_last_updated timestamp (stats (self w))
    /\ camera_id (self w') = camera_id (self w)
    /\ should_run (self w') = should_run (self w)
    /\ net w' = net w /\ ticks w' = ticks w
    /\ maxsize (fq w') = maxsize (fq w)
    /\ (meddling w = [] ->
        meddling w' = [] /\ items (fq w') = [(frame_data, timestamp)]).
Proof.
  destruct (drain_spec (drain_fuel w) w (drain_fuel_enough w))
    as (w1 & E1 & Q1 & A1).
  destruct (q_put_nowait_spec (frame_data, timestamp) w1)
    as (r & w2 & E2 & Q2 & Hr & A2).
  pose proof (queue_only_trans _ _ _ Q1 Q2) as (S12 & N12 & T12 & M12).
  unfold _push_frame, bind, try_except, ret, modify. rewrite E1, E2.
  assert (Hend : forall w2',
    w2' = on_self (fun s => set_stats (set_last_updated timestamp (stats s)) s) w2 ->
    stats (self w2') = set_last_updated timestamp (stats (self w))
    /\ camera_id (self w2') = camera_id (self w)
    /\ should_run (self w2') = should_run (self w)
    /\ net w2' = net w /\ ticks w2' = ticks w
    /\ maxsize (fq w2') = maxsize (fq w)
    /\ (meddling w = [] ->
        meddling w2' = [] /\ items (fq w2') = [(frame_data, timestamp)])).
  { intros w2' ->. unfold fq in *. cbn. rewrite S12. cbn.
    repeat split; auto.
    - destruct (A1 H) as [A1a A1b].
      destruct (A2 A1a A1b) as (_ & A2a & _). exact A2a.
    - destruct (A1 H) as [A1a A1b].
      destruct (A2 A1a A1b) as (_ & _ & A2b).
      rewrite A2b. reflexivity. }
  destruct r as [[]|e|]; [| |contradiction].
  - eexists. split; [reflexivity|]. apply Hend. reflexivity.
  - subst e. cbn. eexists. split; [reflexivity|]. apply Hend. reflexivity.
Qed.

End PushFacts.

(** ** The length prefix *)

Module WireFacts.
Import Wire.
Local Open Scope Z_scope.

Lemma byte_val_range b : 0 <= byte_val b < 256.
Proof.
  unfold byte_val. pose proof (Byte.to_N_bounded b). lia.
Qed.

Lemma byte_val_of z : byte_val (byte_of z) = z mod 256.
Proof.
  unfold byte_val, byte_of.
  pose proof (Z.mod_pos_bound z 256 ltac:(lia)) as B.
  destruct (Byte.of_N (Z.to_N (z mod 256))) as [b|] eqn:E.
  - apply Byte.to_of_N in E. rewrite E. lia.
  - apply Byte.of_N_None_iff in E. lia.
Qed.

Lemma testbit_byte z i :
  0 <= i -> Z.testbit (z mod 256) i = if i <? 8 then Z.testbit z i else false.
Proof.
  intros Hi. change 256 with (2 ^ 8).
  destruct (Z.ltb_spec i 8).
  - apply Z.mod_pow2_bits_low. lia.
  - apply Z.mod_pow2_bits_high. lia.
Qed.

(** [unpack] undoes [pack] on every 32-bit value. *)
Lemma unpack_pack n :
  0 <= n < 2 ^ 32 -> unpack_be32 (pack_be32 n) = Some n.
Proof.
  intros Hn. unfold unpack_be32, pack_be32. f_equal.
  rewrite !byte_val_of.
  apply Z.bits_inj'. intros i Hi.
  rewrite !Z.lor_spec, !Z.shiftl_spec by lia.
  assert (Hhigh : 32 <= i -> Z.testbit n i = false).
  { intros H32. destruct (Z.eq_dec n 0) as [->|Hnz]; [apply Z.bits_0|].
    apply Z.bits_above_log2; [lia|].
    assert (2 ^ 32 <= 2 ^ i) by (apply Z.pow_le_mono_r; lia).
    apply Z.log2_lt_pow2; lia. }
  destruct (Z.ltb_spec i 8); [|destruct (Z.ltb_spec i 16);
    [|destruct (Z.ltb_spec i 24)]].
  - rewrite (Z.testbit_neg_r _ (i - 24)), (Z.testbit_neg_r _ (i - 16)),
      (Z.testbit_neg_r _ (i - 8)) by lia.
    rewrite testbit_byte by lia.
    destruct (Z.ltb_spec i 8); [|lia]. reflexivity.
  - rewrite (Z.testbit_neg_r _ (i - 24)), (Z.testbit_neg_r _ (i - 16)) by lia.
    rewrite !testbit_byte by lia.
    destruct (Z.ltb_spec (i - 8) 8); [|lia].
    destruct (Z.ltb_spec i 8); [lia|].
    rewrite Z.shiftr_spec by lia. rewrite orb_false_r. cbn.
    f_equal. lia.
  - rewrite (Z.testbit_neg_r _ (i - 24)) by lia.
    rewrite !testbit_byte by lia.
    destruct (Z.ltb_spec (i - 16) 8); [|lia].
    destruct (Z.ltb_spec (i - 8) 8); [lia|].
    destruct (Z.ltb_spec i 8); [lia|].
    rewrite Z.shiftr_spec by lia. rewrite !orb_false_r. cbn.
    f_equal. lia.
  - rewrite !testbit_byte by lia.
    destruct (Z.ltb_spec (i - 16) 8); [lia|].
    destruct (Z.ltb_spec (i - 8) 8); [lia|].
    destruct (Z.ltb_spec i 8); [lia|].
    rewrite !orb_false_r.
    destruct (Z.ltb_spec (i - 24) 8).
    + rewrite Z.shiftr_spec by lia. f_equal. lia.
    + symmetry. apply Hhigh. lia.
Qed.

Lemma pack_length n : length (pack_be32 n) = 4%nat.
Proof. reflexivity. Qed.

End WireFacts.

(** ** [_recvall] *)

Module SockFacts.
Import Sock.

(** The recursion on the wire is the loop of [_recvall]: one
    [recv_into] into the unfilled part of the buffer per turn. *)
Lemma recvall_loop_turn w k data :
  recvall_loop w (S k) data =
  match recv_into (S k) w with
  | (TimedOut, w') => (NoData, w')
  | (Failed, w') => (Raised, w')
  | (Got [], w') => (NoData, w')
  | (Got (b :: bs), w') =>
      recvall_loop w' (S k - length (b :: bs)) (data ++ b :: bs)
  end.
Proof.
  destruct w as [|[bs| |] rest]; try reflexivity.
  destruct bs as [|b bs]; [reflexivity|].
  cbn [recvall_loop recv_into].
  destruct (Nat.leb_spec (length (b :: bs)) (S k)) as [Hle|Hgt]; [reflexivity|].
  cbn [firstn length] in *. rewrite length_firstn.
  replace (S k - S (Nat.min k (length bs))) with 0 by lia.
  reflexivity.
Qed.

(** While the wire delivers, [_recvall] returns exactly the next
    [need] bytes and leaves the rest of the stream in place. *)
Lemma recvall_loop_pending : forall w need data,
  need <= length (pending w) ->
  exists w', recvall_loop w need data = (Data (data ++ firstn need (pending w)), w')
    /\ pending w' = skipn need (pending w).
Proof.
  induction w as [|ev rest IH]; intros need data Hn.
  - cbn in Hn. assert (need = 0) as -> by lia. cbn.
    exists []. rewrite app_nil_r. auto.
  - destruct need as [|k].
    { cbn. eexists. rewrite app_nil_r. split; reflexivity. }
    destruct ev as [bs| |]; [|cbn in Hn; lia|cbn in Hn; lia].
    destruct bs as [|b bs]; [cbn in Hn; lia|].
    cbn [recvall_loop pending].
    cbn [pending] in Hn. rewrite length_app in Hn.
    destruct (Nat.leb_spec (length (b :: bs)) (S k)) as [Hle|Hgt].
    + destruct (IH (S k - length (b :: bs)) (data ++ b :: bs)) as (w' & E & P);
        [lia|].
      exists w'. rewrite E. split.
      * rewrite firstn_app, <- app_assoc.
        rewrite (firstn_all2 (n := S k) (b :: bs)) by lia. reflexivity.
      * rewrite P. rewrite skipn_app.
        rewrite (skipn_all2 (n := S k) (b :: bs)) by lia. reflexivity.
    + eexists. split.
      * rewrite firstn_app.
        replace (S k - length (b :: bs)) with 0 by lia.
        rewrite firstn_0, app_nil_r. reflexivity.
      * rewrite skipn_app.
        replace (S k - length (b :: bs)) with 0 by lia.
        rewrite skipn_0.
        assert (Hs : skipn (S k) (b :: bs) <> []).
        { intros Hs. apply (f_equal (@length _)) in Hs.
          rewrite length_skipn in Hs. cbn [length] in *. lia. }
        cbn [pending].
        destruct (skipn (S k) (b :: bs)) as [|c cs]; [contradiction|].
        reflexivity.
Qed.

Lemma recvall_pending w n :
  n <= length (pending w) ->
  exists w', recvall w n = (Data (firstn n (pending w)), w')
    /\ pending w' = skipn n (pending w).
Proof. intros H. apply (recvall_loop_pending w n [] H). Qed.

(** Every call leaves a wire that is no heavier, and a call that
    returns bytes it asked for has taken them off the wire. *)
Lemma recvall_loop_weight : forall w need data r w',
  recvall_loop w need data = (r, w') ->
  weight w' <= weight w
  /\ match r with
     | Data bs => weight w' + need <= weight w /\ length bs = length data + need
     | _ => True
     end.
Proof.
  induction w as [|ev rest IH]; intros need data r w' E.
  - destruct need; cbn in E; inversion E; subst; cbn; auto with lia.
  - destruct need as [|k].
    { cbn in E. inversion E; subst. split; [lia|]. split; lia. }
    destruct ev as [bs| |]; cbn [recvall_loop] in E.
    + destruct bs as [|b bs].
      { inversion E; subst. cbn. split; [lia|exact I]. }
      destruct (Nat.leb_spec (length (b :: bs)) (S k)) as [Hle|Hgt].
      * apply IH in E. destruct E as [E1 E2]. cbn [weight].
        split; [lia|]. destruct r; auto.
        rewrite length_app in E2. lia.
      * inversion E; subst. cbn [weight].
        rewrite length_skipn, length_app. cbn [length] in *.
        rewrite length_firstn. lia.
    + inversion E; subst. cbn. split; [lia|exact I].
    + inversion E; subst. cbn. split; [lia|exact I].
Qed.

Lemma recvall_weight w n r w' :
  recvall w n = (r, w') ->
  weight w' <= weight w
  /\ match r with
     | Data bs => weight w' + n <= weight w /\ length bs = n
     | _ => True
     end.
Proof.
  intros E. apply recvall_loop_weight in E. exact E.
Qed.

End SockFacts.

(** ** The frame loop *)

Module LoopFacts.
Import Py Queue Sock Server PushFacts.

Lemma unpack_be32_length4 bs :
  length bs = 4 -> exists n, Wire.unpack_be32 bs = Some n.
Proof.
  intros H. do 4 (destruct bs as [|? bs]; [discriminate|]).
  destruct bs; [|discriminate]. eexists. reflexivity.
Qed.

Lemma truthy_data bs n : length bs = n -> 0 < n -> truthy (Some bs) = true.
Proof. intros <- H. destruct bs; [cbn in H; lia|reflexivity]. Qed.

Section WithClock.
Variable clock : nat -> Q.

(** One turn of the loop always comes back to the [while]; it never
    lets an exception out, and when it asks for another turn it has
    taken at least the header off the wire. *)
Lemma frame_turn_total fc ws w :
  exists c fc' ws' w',
    frame_turn clock fc ws w = (Return (c, fc', ws'), w')
    /\ weight (net w') <= weight (net w)
    /\ (c = Continue -> weight (net w') < weight (net w))
    /\ should_run (self w') = should_run (self w)
    /\ camera_id (self w') = camera_id (self w)
    /\ stats_camera_id (stats (self w')) = stats_camera_id (stats (self w))
    /\ latency_ms (stats (self w')) = latency_ms (stats (self w)).
Proof.
  unfold frame_turn, try_except. unfold bind at 1. unfold _recvall at 1.
  destruct (recvall (net w) 4) as [r n] eqn:E.
  pose proof (SockFacts.recvall_weight _ _ _ _ E) as [Wle Wd].
  destruct r as [hdr| |].
  - destruct Wd as [Wd Hlen].
    rewrite (truthy_data hdr 4 Hlen ltac:(lia)).
    change (default [] (Some hdr)) with hdr. cbn [negb].
    destruct (unpack_be32_length4 hdr Hlen) as [L HL].
    unfold unpack. rewrite HL. unfold bind at 1. unfold ret at 1.
    destruct ((L <=? 0)%Z || (MAX_FRAME <? L)%Z) eqn:Range.
    + do 4 eexists. split; [reflexivity|]. cbn. repeat split; auto; lia.
    + unfold bind at 1. unfold _recvall at 1. cbn [net set_net].
      destruct (recvall n (Z.to_nat L)) as [r2 n2] eqn:E2.
      pose proof (SockFacts.recvall_weight _ _ _ _ E2) as [Wle2 Wd2].
      destruct r2 as [body| |].
      * destruct Wd2 as [Wd2 Hlen2].
        assert (0 < Z.to_nat L) by lia.
        rewrite (truthy_data body _ Hlen2 ltac:(lia)).
        change (default [] (Some body)) with body. cbn [negb].
        unfold bind at 1. unfold time at 1. cbn [ticks self net meddling].
        set (w1 := mkWorld (self w) n2 (S (ticks w)) (meddling w)).
        destruct (push_frame_spec body (clock (ticks w)) w1)
          as (w2 & E3 & St & Cid & Run & Net & Tk & _).
        unfold bind at 1.
        match goal with
        | |- context [_push_frame body _ ?x] => change x with w1
        end.
        change (ticks (set_net n2 (set_net n w))) with (ticks w).
        rewrite E3.
        destruct (Qle_bool 1 (clock (ticks w) - ws)) eqn:Win.
        -- do 4 eexists. split; [reflexivity|]. cbn.
           rewrite Net, St, Cid, Run. cbn. repeat split; auto; lia.
        -- do 4 eexists. split; [reflexivity|]. cbn.
           rewrite Net, St, Cid, Run. cbn. repeat split; auto; lia.
      * do 4 eexists. split; [reflexivity|]. cbn.
        repeat split; auto; try lia; discriminate.
      * do 4 eexists. split; [reflexivity|]. cbn.
        repeat split; auto; try lia; discriminate.
  - do 4 eexists. split; [reflexivity|]. cbn.
    repeat split; auto; try lia; discriminate.
  - do 4 eexists. split; [reflexivity|]. cbn.
    repeat split; auto; try lia; discriminate.
Qed.

(** The loop ends on every wire once it is given more fuel than the
    wire weighs, and then the amount of fuel does not matter. *)
Lemma frame_loop_total fuel : forall fc ws w,
  weight (net w) < fuel ->
  exists w', frame_loop clock fuel fc ws w = (Return tt, w')
    /\ (forall fuel', weight (net w) < fuel' ->
        frame_loop clock fuel' fc ws w = (Return tt, w')).
Proof.
  induction fuel as [|fuel IH]; intros fc ws w Hf; [lia|].
  destruct (frame_turn_total fc ws w)
    as (c & fc' & ws' & w' & E & Wle & Wlt & _).
  destruct (should_run (self w)) eqn:Run.
  - destruct c.
    + exists w'. split.
      * cbn [frame_loop]. unfold bind, gets, ret. rewrite Run. cbn. rewrite E.
        reflexivity.
      * intros [|fuel'] Hf'; [lia|].
        cbn [frame_loop]. unfold bind, gets, ret. rewrite Run. cbn. rewrite E.
        reflexivity.
    + specialize (Wlt eq_refl).
      destruct (IH fc' ws' w') as (w'' & E' & Any); [lia|].
      exists w''. split.
      * cbn [frame_loop]. unfold bind, gets, ret. rewrite Run. cbn. rewrite E.
        exact E'.
      * intros [|fuel'] Hf'; [lia|].
        cbn [frame_loop]. unfold bind, gets, ret. rewrite Run. cbn. rewrite E.
        apply Any. lia.
  - exists w. split.
    + cbn [frame_loop]. unfold bind, gets, ret. rewrite Run. reflexivity.
    + intros [|fuel'] Hf'; [lia|].
      cbn [frame_loop]. unfold bind, gets, ret. rewrite Run. reflexivity.
Qed.

(** Reading a header that a client packed. *)
Lemma read_header w L rest :
  (0 <= L < 2 ^ 32)%Z ->
  pending (net w) = Wire.pack_be32 L ++ rest ->
  exists n, recvall (net w) 4 = (Data (Wire.pack_be32 L), n)
    /\ pending n = rest
    /\ Wire.unpack_be32 (Wire.pack_be32 L) = Some L.
Proof.
  intros HL P.
  destruct (SockFacts.recvall_pending (net w) 4) as (n & E & Pn).
  { rewrite P, length_app. cbn. lia. }
  exists n. rewrite E, Pn, P. repeat split.
  apply WireFacts.unpack_pack. exact HL.
Qed.

(** A header whose length fails the test of line 154: the turn asks
    for the next one, and the wire stands right after the four header
    bytes. *)
Lemma frame_turn_skip fc ws w L rest :
  (0 <= L < 2 ^ 32)%Z ->
  (L <= 0 \/ MAX_FRAME < L)%Z ->
  pending (net w) = Wire.pack_be32 L ++ rest ->
  exists w', frame_turn clock fc ws w = (Return (Continue, fc, ws), w')
    /\ pending (net w') = rest
    /\ self w' = self w /\ ticks w' = ticks w /\ meddling w' = meddling w.
Proof.
  intros HL Bad P.
  destruct (read_header w L rest HL P) as (n & E & Pn & U).
  unfold frame_turn, try_except. unfold bind at 1. unfold _recvall at 1.
  rewrite E. cbn [truthy Wire.pack_be32 negb].
  change (default [] (Some ?x)) with x.
  unfold unpack. fold (Wire.pack_be32 L). rewrite U.
  unfold bind at 1. unfold ret at 1.
  replace ((L <=? 0)%Z || (MAX_FRAME <? L)%Z) with true
    by (symmetry; apply orb_true_iff; lia).
  exists (set_net n w). split; [reflexivity|]. cbn. auto.
Qed.

(** A header in range followed by its payload: the payload is pushed,
    stamped with the reading of the clock, and the FPS window is
    brought up to date. *)
Lemma frame_turn_frame fc ws w L payload rest :
  (0 < L <= MAX_FRAME)%Z ->
  Z.of_nat (length payload) = L ->
  pending (net w) = Wire.pack_be32 L ++ payload ++ rest ->
  let now := clock (ticks w) in
  let elapsed := (now - ws)%Q in
  exists w', frame_turn clock fc ws w
             = (Return (if Qle_bool 1 elapsed then (Continue, 0, now)
                        else (Continue, S fc, ws)), w')
    /\ pending (net w') = rest
    /\ ticks w' = S (ticks w)
    /\ stats (self w')
       = (if Qle_bool 1 elapsed
          then set_fps (inject_Z (Z.of_nat (S fc)) / elapsed)%Q
          else fun s => s) (set_last_updated now (stats (self w)))
    /\ camera_id (self w') = camera_id (self w)
    /\ should_run (self w') = should_run (self w)
    /\ maxsize (fq w') = maxsize (fq w)
    /\ (meddling w = [] ->
        meddling w' = [] /\ items (fq w') = [(payload, now)]).
Proof.
  intros HL Hlen P now elapsed.
  assert (HL32 : (0 <= L < 2 ^ 32)%Z) by (unfold MAX_FRAME in HL; lia).
  destruct (read_header w L _ HL32 P) as (n & E & Pn & U).
  destruct (SockFacts.recvall_pending n (Z.to_nat L)) as (n2 & E2 & Pn2).
  { rewrite Pn, length_app. lia. }
  rewrite Pn in E2, Pn2.
  rewrite firstn_app in E2. rewrite skipn_app in Pn2.
  replace (Z.to_nat L - length payload) with 0 in * by lia.
  rewrite firstn_0, app_nil_r in E2. rewrite skipn_0 in Pn2.
  rewrite firstn_all2 in E2 by lia. rewrite skipn_all2 in Pn2 by lia.
  cbn [app] in Pn2.
  assert (Hne : truthy (Some payload) = true).
  { apply (truthy_data payload (Z.to_nat L)); lia. }
  unfold frame_turn, try_except. unfold bind at 1. unfold _recvall at 1.
  rewrite E. cbn [truthy Wire.pack_be32 negb].
  change (default [] (Some ?x)) with x.
  unfold unpack. fold (Wire.pack_be32 L). rewrite U.
  unfold bind at 1. unfold ret at 1.
  replace ((L <=? 0)%Z || (MAX_FRAME <? L)%Z) with false
    by (symmetry; apply orb_false_iff; lia).
  unfold bind at 1. unfold _recvall at 1. cbn [net set_net].
  rewrite E2, Hne. cbn [negb].
  change (default [] (Some payload)) with payload.
  unfold bind at 1. unfold time at 1. cbn [ticks self net meddling].
  set (w1 := mkWorld (self w) n2 (S (ticks w)) (meddling w)).
  destruct (push_frame_spec payload (clock (ticks w)) w1)
    as (w2 & E3 & St & Cid & Run & Net & Tk & Mx & Alone).
  unfold bind at 1.
  match goal with
  | |- context [_push_frame payload _ ?x] => change x with w1
  end.
  change (ticks (set_net n2 (set_net n w))) with (ticks w).
  rewrite E3. fold now. fold elapsed.
  destruct (Qle_bool 1 elapsed) eqn:Win.
  - eexists. split; [reflexivity|]. cbn.
    rewrite Net, St, Cid, Run, Tk. cbn. repeat split; auto.
    + destruct (Alone H) as [A _]; exact A.
    + destruct (Alone H) as [_ A]. exact A.
  - eexists. split; [reflexivity|]. cbn.
    rewrite Net, St, Cid, Run, Tk. cbn. repeat split; auto.
    + destruct (Alone H) as [A _]; exact A.
    + destruct (Alone H) as [_ A]. exact A.
Qed.

(** Frames that all arrive less than a second after [window_start]:
    the loop takes one turn for each, counts them, and leaves the
    window and the recorded fps alone. *)
Lemma frames_within_window frames : forall w fc ws fuel rest,
  should_run (self w) = true ->
  Forall Scenario.valid_frame frames ->
  pending (net w) = Scenario.encode_frames frames ++ rest ->
  (forall i, i < length frames -> (clock (ticks w + i) - ws < 1)%Q) ->
  exists w',
    frame_loop clock (length frames + fuel) fc ws w
      = frame_loop clock fuel (fc + length frames) ws w'
    /\ pending (net w') = rest
    /\ ticks w' = ticks w + length frames
    /\ should_run (self w') = true
    /\ fps (stats (self w')) = fps (stats (self w))
    /\ camera_id (self w') = camera_id (self w).
Proof.
  induction frames as [|p ps IH]; intros w fc ws fuel rest Run Val P Early.
  - exists w. cbn in *. rewrite !Nat.add_0_r. repeat split; auto.
  - inversion Val as [|? ? Vp Vps]; subst.
    unfold Scenario.encode_frames in P. cbn [map concat] in P.
    unfold Scenario.encode_frame at 1 in P. rewrite <- !app_assoc in P.
    destruct (frame_turn_frame fc ws w _ p _ Vp eq_refl P)
      as (w1 & E & Pn & Tk & St & Cid & Run1 & _).
    assert (Hno : Qle_bool 1 (clock (ticks w) - ws) = false).
    { specialize (Early 0 ltac:(cbn; lia)). rewrite Nat.add_0_r in Early.
      destruct (Qle_bool 1 (clock (ticks w) - ws)) eqn:B; [|reflexivity].
      apply Qle_bool_iff in B. apply Qlt_not_le in Early. contradiction. }
    rewrite Hno in E, St.
    destruct (IH w1 (S fc) ws fuel rest) as (w' & E' & Pn' & Tk' & Run' & F' & C');
      [congruence|exact Vps|exact Pn| |].
    { intros i Hi. rewrite Tk. replace (S (ticks w) + i) with (ticks w + S i) by lia.
      apply Early. cbn. lia. }
    exists w'. split; [|split; [exact Pn'|split; [|split; [exact Run'|split]]]].
    + cbn [length Nat.add frame_loop]. unfold bind at 1. unfold gets at 1.
      rewrite Run. cbn [negb]. unfold bind at 1. rewrite E.
      rewrite E'. f_equal. lia.
    + rewrite Tk', Tk. cbn. lia.
    + rewrite F', St. reflexivity.
    + congruence.
Qed.

End WithClock.
End LoopFacts.

(** ** The metadata handshake *)

Module HandshakeFacts.
Import Py Queue Sock Server PushFacts LoopFacts.

Lemma dict_get_lookup kvs key d :
  dict_get kvs key d = default d (dict_lookup kvs key).
Proof.
  induction kvs as [|[k v] kvs IH]; cbn; [reflexivity|].
  destruct (String.eqb k key); [reflexivity|exact IH].
Qed.

Lemma dict_has_lookup kvs key :
  dict_has kvs key = bool_decide (is_Some (dict_lookup kvs key)).
Proof.
  induction kvs as [|[k v] kvs IH]; cbn; [reflexivity|].
  destruct (String.eqb k key); cbn; [reflexivity|exact IH].
Qed.

Section WithLoads.
Variable loads : list byte -> loaded.

Lemma read_metadata_spec w len payload rest :
  (0 < len < 1024)%Z ->
  Z.of_nat (length payload) = len ->
  pending (net w) = Wire.pack_be32 len ++ payload ++ rest ->
  exists w', read_metadata loads w = (Return tt, w')
    /\ pending (net w') = rest
    /\ self w' = after_metadata loads payload (self w)
    /\ ticks w' = ticks w /\ meddling w' = meddling w.
Proof.
  intros HL Hlen P.
  assert (HL32 : (0 <= len < 2 ^ 32)%Z) by lia.
  destruct (read_header w len _ HL32 P) as (n & E & Pn & U).
  destruct (SockFacts.recvall_pending n (Z.to_nat len)) as (n2 & E2 & Pn2).
  { rewrite Pn, length_app. lia. }
  rewrite Pn in E2, Pn2.
  rewrite firstn_app in E2. rewrite skipn_app in Pn2.
  replace (Z.to_nat len - length payload) with 0 in * by lia.
  rewrite firstn_0, app_nil_r in E2. rewrite skipn_0 in Pn2.
  rewrite firstn_all2 in E2 by lia. rewrite skipn_all2 in Pn2 by lia.
  cbn [app] in Pn2.
  assert (Hne : truthy (Some payload) = true).
  { apply (truthy_data payload (Z.to_nat len)); lia. }
  unfold read_metadata, after_metadata.
  unfold try_except at 1. unfold bind at 1. unfold _recvall at 1.
  rewrite E. cbn [truthy Wire.pack_be32].
  change (default [] (Some ?x)) with x.
  unfold unpack. fold (Wire.pack_be32 len). rewrite U.
  unfold bind at 1. unfold ret at 1.
  replace ((0 <? len)%Z && (len <? 1024)%Z) with true
    by (symmetry; apply andb_true_iff; lia).
  unfold bind at 1. unfold _recvall at 1. cbn [net set_net].
  rewrite E2, Hne.
  change (default [] (Some payload)) with payload.
  unfold json_loads, try_except, bind, raise, ret, gets, lift, modify, py_get.
  destruct (loads payload) as [| |v]; cbn.
  - eexists. split; [reflexivity|]. cbn. auto.
  - eexists. split; [reflexivity|]. cbn. auto.
  - destruct v; cbn; (eexists; split; [reflexivity|]; cbn; auto).
Qed.

(** The handshake never fails and never ends the session: whatever
    the socket delivers, it returns normally, and it leaves the flag,
    the queue, the clock and the other threads' agenda alone. *)
Lemma read_metadata_total w :
  exists w', read_metadata loads w = (Return tt, w')
    /\ should_run (self w') = should_run (self w)
    /\ frame_queue (self w') = frame_queue (self w)
    /\ ticks w' = ticks w /\ meddling w' = meddling w.
Proof.
  unfold read_metadata, try_except at 1. unfold bind at 1. unfold _recvall at 1.
  destruct (recvall (net w) 4) as [[hdr| |] n];
    try (eexists; split; [reflexivity|cbn; auto]).
  destruct (truthy (Some hdr));
    [|eexists; split; [reflexivity|cbn; auto]].
  change (default [] (Some hdr)) with hdr.
  unfold bind at 1. unfold unpack at 1.
  destruct (Wire.unpack_be32 hdr) as [len|];
    [|eexists; split; [reflexivity|cbn; auto]].
  unfold ret at 1.
  destruct ((0 <? len)%Z && (len <? 1024)%Z);
    [|eexists; split; [reflexivity|cbn; auto]].
  unfold bind at 1. unfold _recvall at 1. cbn [net set_net].
  destruct (recvall n (Z.to_nat len)) as [[body| |] n2];
    try (eexists; split; [reflexivity|cbn; auto]).
  destruct (truthy (Some body));
    [|eexists; split; [reflexivity|cbn; auto]].
  change (default [] (Some body)) with body.
  unfold json_loads, try_except, bind, raise, ret, gets, lift, modify, py_get.
  destruct (loads body) as [| |v];
    try (eexists; split; [reflexivity|cbn; auto]).
  destruct v; eexists; (split; [reflexivity|cbn; auto]).
Qed.

End WithLoads.
End HandshakeFacts.

(** ** The viewer's side *)

Module ViewerFacts.
Import Py Server Viewer.

Section WithPIL.
Variable clock : nat -> Q.
Variable decodes : list byte -> bool.

(** [_display_frame] swallows whatever goes wrong in it. *)
Lemma display_frame_returns frame_data timestamp a :
  exists a', _display_frame clock decodes frame_data timestamp a = (Return tt, a').
Proof.
  unfold _display_frame, try_except, bind, ret, raise, modify, app_time.
  destruct (decodes frame_data); cbn; eexists; reflexivity.
Qed.

(** [_poll_frames] takes the oldest frame of the selected camera's
    queue, if there is one. *)
Lemma poll_frames_pops a id c :
  active_camera a = Some (id, c) ->
  fst (_poll_frames clock decodes a)
  = match Queue.items (cam_queue c) with
    | [] => Return None
    | f :: _ => Return (Some f)
    end.
Proof.
  intros Act. unfold _poll_frames, try_except. unfold bind at 1.
  unfold gets. rewrite Act. unfold bind at 1.
  unfold app_get_nowait, Queue.get_nowait.
  destruct (Queue.items (cam_queue c)) as [|f rest]; [reflexivity|].
  unfold bind.
  match goal with
  | |- context [_display_frame clock decodes ?d ?t ?x] =>
      destruct (display_frame_returns d t x) as [a' ->]
  end.
  reflexivity.
Qed.

Lemma py_max_0_nonneg x : (0 <= py_max x 0)%Q.
Proof.
  unfold py_max. destruct (Qle_bool 0 x) eqn:B.
  - apply Qle_bool_iff. exact B.
  - apply Qle_refl.
Qed.

(** What [_display_frame] writes for the selected camera. *)
Lemma display_frame_latency frame_data timestamp a id c :
  active_camera a = Some (id, c) ->
  exists a' c',
    _display_frame clock decodes frame_data timestamp a = (Return tt, a')
    /\ cameras a' !! id = Some c'
    /\ latency_ms (cam_stats c')
       = (if decodes frame_data
          then py_max ((clock (app_ticks a) - timestamp) * 1000)%Q 0%Q
          else latency_ms (cam_stats c)).
Proof.
  intros Act.
  assert (Hc : cameras a !! id = Some c).
  { unfold active_camera in Act. destruct (active_camera_id a) as [i|]; [|discriminate].
    destruct (String.eqb i ""); [discriminate|].
    destruct (cameras a !! i) eqn:L; [|discriminate].
    inversion Act; subst. exact L. }
  unfold _display_frame, try_except, bind, ret, raise, modify, app_time.
  destruct (decodes frame_data); cbn.
  - assert (Act' : active_camera
        (mkApp (cameras a) (active_camera_id a) (current_image_ts a) (S (app_ticks a)))
        = Some (id, c)) by exact Act.
    rewrite Act'. do 2 eexists. split; [reflexivity|]. cbn.
    rewrite lookup_insert_eq. split; reflexivity.
  - exists a, c. auto.
Qed.

End WithPIL.
End ViewerFacts.

(** ** The thread after [stop] *)

Module LifecycleFacts.
Import Server Lifecycle.

(** The thread itself never touches the flag. *)
Lemma thread_step_flag r e :
  should_run (srv (thread_step r e)) = should_run (srv e).
Proof.
  unfold thread_step.
  destruct (thread e); try reflexivity;
    destruct r; try reflexivity;
    destruct (should_run (srv e)) eqn:R; cbn; auto.
Qed.

(** A thread that has ended stays so. *)
Lemma thread_run_dead rs : forall e,
  is_alive (thread e) = false -> thread (thread_run rs e) = thread e.
Proof.
  induction rs as [|r rs IH]; intros e D; [reflexivity|].
  cbn. assert (E : thread_step r e = e).
  { unfold thread_step. destruct (thread e); try discriminate; reflexivity. }
  unfold thread_run in IH. rewrite E. apply IH. exact D.
Qed.

(** With the flag down, three moves of the thread are enough for it
    to leave [_run_server], however its blocking calls come back. *)
Lemma thread_exits_within_three e r1 r2 r3 :
  should_run (srv e) = false ->
  is_alive (thread (thread_step r3 (thread_step r2 (thread_step r1 e)))) = false.
Proof.
  intros Off.
  destruct e as [s p acc cl]. cbn in Off.
  destruct p; destruct r1; cbn; rewrite ?Off; cbn;
    try reflexivity;
    destruct r2; cbn; rewrite ?Off; cbn; try reflexivity;
    destruct r3; cbn; rewrite ?Off; cbn; try reflexivity;
    destruct s; cbn in *; rewrite ?Off; reflexivity.
Qed.

End LifecycleFacts.

(** ** The session as a whole *)

Module SessionFacts.
Import Py Sock Server LoopFacts HandshakeFacts.

(** A socket that refuses the options ends the session at once:
    [OSError] leaves [_handle_client] and nothing has been written. *)
Lemma handle_client_refused clock loads k w :
  _handle_client clock loads k false w = (Raise OSError, w).
Proof. reflexivity. Qed.

(** Once the options are accepted, [_handle_client] returns normally
    on every wire, run flag and interference: no exception leaves it,
    and the fuel given to its frame loop is always enough. *)
Lemma handle_client_total clock loads k w :
  exists w', _handle_client clock loads k true w = (Return tt, w').
Proof.
  unfold _handle_client, socket_options. unfold bind at 1. unfold ret at 1.
  unfold bind at 1. unfold modify at 1.
  unfold bind at 1. unfold time at 1. cbn [on_self self net ticks meddling].
  match goal with
  | |- context [bind (read_metadata loads) _ ?x] =>
      destruct (read_metadata_total loads x) as (w1 & E1 & _)
  end.
  unfold bind at 1. rewrite E1.
  destruct (frame_loop_total clock (loop_fuel w1) 0 (clock (ticks w)) w1)
    as (w2 & E2 & _); [unfold loop_fuel; lia|].
  unfold bind at 1. rewrite E2.
  eexists. reflexivity.
Qed.

End SessionFacts.

(** ** More on [_recvall] and on one turn of the frame loop *)

Module TurnFacts.
Import Py Queue Sock Server PushFacts LoopFacts Life.

(** When the wire does not deliver [need] bytes, [_recvall] does not
    return bytes. *)
Lemma recvall_loop_short : forall w need data r w',
  length (pending w) < need ->
  recvall_loop w need data = (r, w') ->
  r = NoData \/ r = Raised.
Proof.
  induction w as [|ev rest IH]; intros need data r w' Hn E.
  - destruct need; [cbn in Hn; lia|]. cbn in E. inversion E; auto.
  - destruct need as [|k]; [lia|].
    destruct ev as [bs| |]; cbn [recvall_loop] in E;
      [|inversion E; auto|inversion E; auto].
    destruct bs as [|b bs]; [inversion E; auto|].
    cbn [pending] in Hn. rewrite length_app in Hn.
    destruct (Nat.leb_spec (length (b :: bs)) (S k)) as [Hle|Hgt]; [|lia].
    eapply IH; [|exact E]. lia.
Qed.

(** [_push_frame] changes the queue and [last_updated], nothing else
    of the server. *)
Lemma push_frame_self frame_data timestamp w :
  exists w', _push_frame frame_data timestamp w = (Return tt, w')
    /\ self w' = set_stats (set_last_updated timestamp (stats (self w)))
                   (set_frame_queue (fq w') (self w))
    /\ net w' = net w /\ ticks w' = ticks w.
Proof.
  destruct (drain_spec (drain_fuel w) w (drain_fuel_enough w))
    as (w1 & E1 & Q1 & _).
  destruct (q_put_nowait_spec (frame_data, timestamp) w1)
    as (r & w2 & E2 & Q2 & Hr & _).
  pose proof (queue_only_trans _ _ _ Q1 Q2) as (S12 & N12 & T12 & _).
  unfold _push_frame, bind, try_except, ret, modify. rewrite E1, E2.
  assert (Hend : forall w2',
    w2' = on_self (fun s => set_stats (set_last_updated timestamp (stats s)) s) w2 ->
    self w2' = set_stats (set_last_updated timestamp (stats (self w)))
                 (set_frame_queue (fq w2') (self w))
    /\ net w2' = net w /\ ticks w2' = ticks w).
  { intros w2' ->. unfold fq in *. cbn. rewrite S12. cbn.
    destruct (self w). cbn. auto. }
  destruct r as [[]|e|]; [| |contradiction].
  - eexists. split; [reflexivity|]. apply Hend. reflexivity.
  - subst e. cbn. eexists. split; [reflexivity|]. apply Hend. reflexivity.
Qed.

Lemma server_kept_refl s : server_kept s s.
Proof. unfold server_kept. destruct s. reflexivity. Qed.

Lemma server_kept_trans s1 s2 s3 :
  server_kept s1 s2 -> server_kept s2 s3 -> server_kept s1 s3.
Proof.
  unfold server_kept. intros A B. rewrite B, A. destruct s1. reflexivity.
Qed.

Lemma server_kept_set_stats s s' st :
  server_kept s s' -> server_kept s (set_stats st s').
Proof.
  unfold server_kept. intros H. destruct s, s'. cbn in *.
  inversion H; subst. reflexivity.
Qed.

Lemma server_kept_fields s s' :
  server_kept s s' ->
  host s' = host s /\ port s' = port s /\ camera_id s' = camera_id s
  /\ should_run s' = should_run s /\ client_socket s' = client_socket s
  /\ client_output_stream s' = client_output_stream s.
Proof. unfold server_kept. intros ->. cbn. auto 10. Qed.

Section WithClock.
Variable clock : nat -> Q.

(** What one turn of the frame loop can do, whatever the wire holds:
    it comes back to the [while], changes nothing of the server but
    its queue and statistics, keeps the identity and the latency in
    the statistics, and leaves the recorded fps as it was or sets it to
    a positive value. *)
Lemma frame_turn_effect fc ws w :
  exists c fc' ws' w',
    frame_turn clock fc ws w = (Return (c, fc', ws'), w')
    /\ weight (net w') <= weight (net w)
    /\ (c = Continue -> weight (net w') < weight (net w))
    /\ server_kept (self w) (self w')
    /\ stats_camera_id (stats (self w')) = stats_camera_id (stats (self w))
    /\ latency_ms (stats (self w')) = latency_ms (stats (self w))
    /\ (fps (stats (self w')) = fps (stats (self w))
        \/ (0 < fps (stats (self w')))%Q).
Proof.
  unfold frame_turn, try_except. unfold bind at 1. unfold _recvall at 1.
  destruct (recvall (net w) 4) as [r n] eqn:E.
  pose proof (SockFacts.recvall_weight _ _ _ _ E) as [Wle Wd].
  assert (Same : forall n', server_kept (self w) (self (set_net n' w)))
    by (intros; apply server_kept_refl).
  destruct r as [hdr| |].
  - destruct Wd as [Wd Hlen].
    rewrite (truthy_data hdr 4 Hlen ltac:(lia)).
    change (default [] (Some hdr)) with hdr. cbn [negb].
    destruct (unpack_be32_length4 hdr Hlen) as [L HL].
    unfold unpack. rewrite HL. unfold bind at 1. unfold ret at 1.
    destruct ((L <=? 0)%Z || (MAX_FRAME <? L)%Z) eqn:Range.
    + do 4 eexists. split; [reflexivity|]. cbn.
      repeat split; auto using server_kept_refl; lia.
    + unfold bind at 1. unfold _recvall at 1. cbn [net set_net].
      destruct (recvall n (Z.to_nat L)) as [r2 n2] eqn:E2.
      pose proof (SockFacts.recvall_weight _ _ _ _ E2) as [Wle2 Wd2].
      destruct r2 as [body| |].
      * destruct Wd2 as [Wd2 Hlen2].
        assert (0 < Z.to_nat L) by lia.
        rewrite (truthy_data body _ Hlen2 ltac:(lia)).
        change (default [] (Some body)) with body. cbn [negb].
        unfold bind at 1. unfold time at 1. cbn [ticks self net meddling].
        set (w1 := mkWorld (self w) n2 (S (ticks w)) (meddling w)).
        destruct (push_frame_self body (clock (ticks w)) w1)
          as (w2 & E3 & Sf & Net & Tk).
        unfold bind at 1.
        match goal with
        | |- context [_push_frame body _ ?x] => change x with w1
        end.
        change (ticks (set_net n2 (set_net n w))) with (ticks w).
        rewrite E3.
        assert (K2 : server_kept (self w) (self w2)).
        { unfold server_kept. rewrite Sf at 1. cbn.
          rewrite Sf. cbn. destruct (self w). reflexivity. }
        destruct (Qle_bool 1 (clock (ticks w) - ws)) eqn:Win.
        -- do 4 eexists. split; [reflexivity|]. cbn.
           rewrite Net. cbn.
           split; [lia|]. split; [intros; lia|].
           split; [apply server_kept_set_stats; exact K2|].
           rewrite Sf. cbn. split; [reflexivity|]. split; [reflexivity|].
           right. apply Qle_bool_iff in Win.
           apply Qlt_shift_div_l.
           ++ eapply Qlt_le_trans; [|exact Win]. reflexivity.
           ++ rewrite Qmult_0_l. unfold Qlt. cbn. lia.
        -- do 4 eexists. split; [reflexivity|]. cbn.
           rewrite Net. cbn.
           split; [lia|]. split; [intros; lia|]. split; [exact K2|].
           rewrite Sf. cbn. auto.
      * do 4 eexists. split; [reflexivity|]. cbn.
        repeat split; auto using server_kept_refl; try lia; discriminate.
      * do 4 eexists. split; [reflexivity|]. cbn.
        repeat split; auto using server_kept_refl; try lia; discriminate.
  - do 4 eexists. split; [reflexivity|]. cbn.
    repeat split; auto using server_kept_refl; try lia; discriminate.
  - do 4 eexists. split; [reflexivity|]. cbn.
    repeat split; auto using server_kept_refl; try lia; discriminate.
Qed.

(** The same for the whole loop. *)
Lemma frame_loop_effect fuel : forall fc ws w,
  weight (net w) < fuel ->
  exists w', frame_loop clock fuel fc ws w = (Return tt, w')
    /\ server_kept (self w) (self w')
    /\ stats_camera_id (stats (self w')) = stats_camera_id (stats (self w))
    /\ latency_ms (stats (self w')) = latency_ms (stats (self w))
    /\ (fps (stats (self w')) = fps (stats (self w))
        \/ (0 < fps (stats (self w')))%Q).
Proof.
  induction fuel as [|fuel IH]; intros fc ws w Hf; [lia|].
  destruct (frame_turn_effect fc ws w)
    as (c & fc' & ws' & w1 & E & Wle & Wlt & K & Id & Lat & F).
  cbn [frame_loop]. unfold bind at 1. unfold gets at 1.
  destruct (should_run (self w)) eqn:Run; cbn [negb].
  - unfold bind at 1. rewrite E. destruct c.
    + exists w1. split; [reflexivity|]. auto.
    + specialize (Wlt eq_refl).
      destruct (IH fc' ws' w1) as (w2 & E2 & K2 & Id2 & Lat2 & F2); [lia|].
      exists w2. split; [exact E2|].
      split; [eauto using server_kept_trans|].
      split; [congruence|]. split; [congruence|].
      destruct F2 as [F2|F2]; [|right; exact F2].
      rewrite F2. exact F.
  - exists w. split; [reflexivity|].
    repeat split; auto using server_kept_refl.
Qed.

End WithClock.
End TurnFacts.

(** ** More on the session as a whole *)

Module SessionMore.
Import Py Queue Sock Server PushFacts LoopFacts HandshakeFacts Life TurnFacts.

Section WithLibraries.
Variable clock : nat -> Q.
Variable loads : list byte -> loaded.

(** Whatever the socket delivers, the handshake either leaves the
    server as it is or sets its two identities to one same value. *)
Lemma read_metadata_effect w :
  exists w', read_metadata loads w = (Return tt, w')
    /\ weight (net w') <= weight (net w)
    /\ ticks w' = ticks w /\ meddling w' = meddling w
    /\ (self w' = self w
        \/ exists v, self w' = set_stats (set_stats_camera_id v (stats (self w)))
                                 (set_camera_id v (self w))).
Proof.
  unfold read_metadata, try_except at 1. unfold bind at 1. unfold _recvall at 1.
  destruct (recvall (net w) 4) as [r n] eqn:E.
  pose proof (SockFacts.recvall_weight _ _ _ _ E) as [Wle _].
  destruct r as [hdr| |];
    try (eexists; split; [reflexivity|cbn; auto]).
  destruct (truthy (Some hdr));
    [|eexists; split; [reflexivity|cbn; auto]].
  change (default [] (Some hdr)) with hdr.
  unfold bind at 1. unfold unpack at 1.
  destruct (Wire.unpack_be32 hdr) as [len|];
    [|eexists; split; [reflexivity|cbn; auto]].
  unfold ret at 1.
  destruct ((0 <? len)%Z && (len <? 1024)%Z);
    [|eexists; split; [reflexivity|cbn; auto]].
  unfold bind at 1. unfold _recvall at 1. cbn [net set_net].
  destruct (recvall n (Z.to_nat len)) as [r2 n2] eqn:E2.
  pose proof (SockFacts.recvall_weight _ _ _ _ E2) as [Wle2 _].
  assert (W2 : weight n2 <= weight (net w)) by lia.
  destruct r2 as [body| |];
    try (eexists; split; [reflexivity|cbn; auto]).
  destruct (truthy (Some body));
    [|eexists; split; [reflexivity|cbn; auto]].
  change (default [] (Some body)) with body.
  unfold json_loads, try_except, bind, raise, ret, gets, lift, modify, py_get.
  destruct (loads body) as [| |v];
    try (eexists; split; [reflexivity|cbn; auto]).
  destruct v; eexists; (split; [reflexivity|cbn; auto]).
  repeat split; auto. right. eexists. reflexivity.
Qed.

(** What a whole session does to the server, on every wire, once the
    socket has accepted the options. *)
Lemma handle_client_effect k w :
  exists w', _handle_client clock loads k true w = (Return tt, w')
    /\ client_output_stream (self w') = None
    /\ host (self w') = host (self w) /\ port (self w') = port (self w)
    /\ should_run (self w') = should_run (self w)
    /\ client_socket (self w') = client_socket (self w)
    /\ latency_ms (stats (self w')) = latency_ms (stats (self w))
    /\ (fps (stats (self w')) = fps (stats (self w))
        \/ (0 < fps (stats (self w')))%Q)
    /\ (stats_camera_id (stats (self w)) = camera_id (self w) ->
        stats_camera_id (stats (self w')) = camera_id (self w')).
Proof.
  unfold _handle_client, socket_options. unfold bind at 1. unfold ret at 1.
  unfold bind at 1. unfold modify at 1.
  unfold bind at 1. unfold time at 1. cbn [on_self self net ticks meddling].
  set (w0 := mkWorld (set_client_output_stream (Some k) (self w)) (net w)
                     (S (ticks w)) (meddling w)).
  destruct (read_metadata_effect w0) as (w1 & E1 & _ & _ & _ & Sf1).
  unfold bind at 1. rewrite E1.
  destruct (frame_loop_effect clock (loop_fuel w1) 0 (clock (ticks w)) w1)
    as (w2 & E2 & K & Id & Lat & F); [unfold loop_fuel; lia|].
  unfold bind at 1. rewrite E2.
  eexists. split; [reflexivity|]. unfold modify. cbn [on_self self].
  apply server_kept_fields in K.
  destruct K as (Kh & Kp & Kc & Kr & Ks & _).
  destruct Sf1 as [Sf1|[v Sf1]]; rewrite Sf1 in *; cbn in *;
    repeat split; auto; try congruence.
Qed.

(** With the run flag down, the session is the handshake alone: no
    header of a frame is read, and the queue is not touched. *)
Lemma handle_client_stopped k w :
  should_run (self w) = false ->
  exists w', _handle_client clock loads k true w = (Return tt, w')
    /\ frame_queue (self w') = frame_queue (self w)
    /\ fps (stats (self w')) = fps (stats (self w))
    /\ last_updated (stats (self w')) = last_updated (stats (self w))
    /\ ticks w' = S (ticks w) /\ meddling w' = meddling w
    /\ net w'
       = net (snd (read_metadata loads
                     (mkWorld (set_client_output_stream (Some k) (self w))
                        (net w) (S (ticks w)) (meddling w)))).
Proof.
  intros Off.
  unfold _handle_client, socket_options. unfold bind at 1. unfold ret at 1.
  unfold bind at 1. unfold modify at 1.
  unfold bind at 1. unfold time at 1. cbn [on_self self net ticks meddling].
  set (w0 := mkWorld (set_client_output_stream (Some k) (self w)) (net w)
                     (S (ticks w)) (meddling w)).
  destruct (read_metadata_effect w0) as (w1 & E1 & _ & Tk & Md & Sf1).
  unfold bind at 1. rewrite E1.
  assert (Off1 : should_run (self w1) = false).
  { destruct Sf1 as [Sf1|[v Sf1]]; rewrite Sf1; exact Off. }
  unfold bind at 1. unfold loop_fuel. cbn [frame_loop].
  unfold bind at 1. unfold gets at 1. rewrite Off1. cbn [negb]. unfold ret at 1.
  eexists. split; [reflexivity|].
  unfold modify. cbn [on_self self ticks meddling net snd].
  destruct Sf1 as [Sf1|[v Sf1]]; rewrite Sf1; cbn; auto 10.
Qed.

End WithLibraries.
End SessionMore.

(** ** Streams that end short, and streams of several frames *)

Module StreamFacts.
Import Py Queue Sock Server PushFacts LoopFacts HandshakeFacts Life TurnFacts.
Import Scenario.

Section WithLibraries.
Variable clock : nat -> Q.
Variable loads : list byte -> loaded.

(** Fewer than four bytes before the stream breaks: the turn ends the
    session and leaves the server alone. *)
Lemma frame_turn_no_header fc ws w :
  length (pending (net w)) < 4 ->
  exists w', frame_turn clock fc ws w = (Return (Break, fc, ws), w')
    /\ self w' = self w /\ ticks w' = ticks w /\ meddling w' = meddling w.
Proof.
  intros Short.
  unfold frame_turn, try_except. unfold bind at 1. unfold _recvall at 1.
  destruct (recvall (net w) 4) as [r n] eqn:E.
  destruct (recvall_loop_short _ _ _ _ _ Short E) as [-> | ->];
    eexists; (split; [reflexivity|]); cbn; auto.
Qed.

(** A header in range whose payload does not arrive whole: the turn
    ends the session, nothing is pushed and the clock is not read. *)
Lemma frame_turn_short fc ws w L partial :
  (0 < L <= MAX_FRAME)%Z ->
  pending (net w) = Wire.pack_be32 L ++ partial ->
  length partial < Z.to_nat L ->
  exists w', frame_turn clock fc ws w = (Return (Break, fc, ws), w')
    /\ self w' = self w /\ ticks w' = ticks w /\ meddling w' = meddling w.
Proof.
  intros HL P Short.
  assert (HL32 : (0 <= L < 2 ^ 32)%Z) by (unfold MAX_FRAME in HL; lia).
  destruct (read_header w L _ HL32 P) as (n & E & Pn & U).
  unfold frame_turn, try_except. unfold bind at 1. unfold _recvall at 1.
  rewrite E. cbn [truthy Wire.pack_be32 negb].
  change (default [] (Some ?x)) with x.
  unfold unpack. fold (Wire.pack_be32 L). rewrite U.
  unfold bind at 1. unfold ret at 1.
  replace ((L <=? 0)%Z || (MAX_FRAME <? L)%Z) with false
    by (symmetry; apply orb_false_iff; lia).
  unfold bind at 1. unfold _recvall at 1. cbn [net set_net].
  destruct (recvall n (Z.to_nat L)) as [r n2] eqn:E2.
  rewrite <- Pn in Short.
  destruct (recvall_loop_short _ _ _ _ _ Short E2) as [-> | ->];
    eexists; (split; [reflexivity|]); cbn; auto.
Qed.

(** A metadata header whose length is not in (0, 1024): the four
    bytes are used up, the server is left as it is, and the wire stands
    right after them. *)
Lemma read_metadata_skip w len rest :
  (0 <= len < 2 ^ 32)%Z ->
  (len <= 0 \/ 1024 <= len)%Z ->
  pending (net w) = Wire.pack_be32 len ++ rest ->
  exists w', read_metadata loads w = (Return tt, w')
    /\ pending (net w') = rest
    /\ self w' = self w /\ ticks w' = ticks w /\ meddling w' = meddling w.
Proof.
  intros HL Out P.
  destruct (read_header w len rest HL P) as (n & E & Pn & U).
  unfold read_metadata, try_except at 1. unfold bind at 1. unfold _recvall at 1.
  rewrite E. cbn [truthy Wire.pack_be32].
  change (default [] (Some ?x)) with x.
  unfold unpack. fold (Wire.pack_be32 len). rewrite U.
  unfold bind at 1. unfold ret at 1.
  replace ((0 <? len)%Z && (len <? 1024)%Z) with false
    by (symmetry; apply andb_false_iff; lia).
  exists (set_net n w). split; [reflexivity|]. cbn. auto.
Qed.

(** A run of valid frames with the thread alone at the queue: the
    loop takes one turn for each and ends up holding the last one,
    stamped with the reading of the clock taken for it. *)
Lemma frames_delivered frames : forall w fc ws fuel last rest,
  should_run (self w) = true ->
  meddling w = [] ->
  Forall valid_frame frames -> valid_frame last ->
  pending (net w) = encode_frames frames ++ encode_frame last ++ rest ->
  exists fc' ws' w',
    frame_loop clock (S (length frames) + fuel) fc ws w
      = frame_loop clock fuel fc' ws' w'
    /\ items (fq w') = [(last, clock (ticks w + length frames))]
    /\ last_updated (stats (self w')) = clock (ticks w + length frames)
    /\ pending (net w') = rest
    /\ ticks w' = S (ticks w + length frames)
    /\ should_run (self w') = true /\ meddling w' = [].
Proof.
  induction frames as [|p ps IH]; intros w fc ws fuel last rest Run Alone Val Vl P.
  - cbn [encode_frames map concat app length] in *.
    unfold encode_frame in P. rewrite <- app_assoc in P.
    destruct (frame_turn_frame clock fc ws w _ last rest Vl eq_refl P)
      as (w1 & E & Pn & Tk & St & _ & Run1 & _ & A1).
    destruct (A1 Alone) as [M1 I1].
    rewrite Nat.add_0_r.
    assert (Lu : last_updated (stats (self w1)) = clock (ticks w)).
    { rewrite St. destruct (Qle_bool 1 (clock (ticks w) - ws)); reflexivity. }
    destruct (Qle_bool 1 (clock (ticks w) - ws));
      do 3 eexists;
      (split; [|split; [exact I1|split; [exact Lu|split; [exact Pn|
         split; [exact Tk|split; [congruence|exact M1]]]]]]);
      cbn [Nat.add frame_loop]; unfold bind at 1; unfold gets at 1;
      rewrite Run; cbn [negb]; unfold bind at 1; rewrite E; reflexivity.
  - inversion Val as [|? ? Vp Vps]; subst.
    unfold encode_frames in P. cbn [map concat] in P.
    unfold encode_frame at 1 in P. rewrite <- !app_assoc in P.
    destruct (frame_turn_frame clock fc ws w _ p _ Vp eq_refl P)
      as (w1 & E & Pn & Tk & St & _ & Run1 & _ & A1).
    destruct (A1 Alone) as [M1 _].
    assert (Run1' : should_run (self w1) = true) by congruence.
    destruct (Qle_bool 1 (clock (ticks w) - ws)) eqn:Win.
    + destruct (IH w1 0 (clock (ticks w)) fuel last rest Run1' M1 Vps Vl Pn)
        as (fc' & ws' & w' & E' & I' & L' & Pn' & Tk' & R' & M').
      exists fc', ws', w'.
      rewrite Tk in I', L', Tk'.
      replace (S (ticks w) + length ps) with (ticks w + length (p :: ps))
        in I', L', Tk' by (cbn; lia).
      repeat split; auto.
      cbn [length Nat.add frame_loop]. unfold bind at 1. unfold gets at 1.
      rewrite Run. cbn [negb]. unfold bind at 1. rewrite E. exact E'.
    + destruct (IH w1 (S fc) ws fuel last rest Run1' M1 Vps Vl Pn)
        as (fc' & ws' & w' & E' & I' & L' & Pn' & Tk' & R' & M').
      exists fc', ws', w'.
      rewrite Tk in I', L', Tk'.
      replace (S (ticks w) + length ps) with (ticks w + length (p :: ps))
        in I', L', Tk' by (cbn; lia).
      repeat split; auto.
      cbn [length Nat.add frame_loop]. unfold bind at 1. unfold gets at 1.
      rewrite Run. cbn [negb]. unfold bind at 1. rewrite E. exact E'.
Qed.

(** The same run, after which fewer than four bytes arrive before
    the stream breaks: the loop ends there, whatever fuel it was given
    beyond the weight of the wire, and the last frame is the one in the
    queue. *)
Lemma frames_then_close frames w fc ws last tail :
  should_run (self w) = true ->
  meddling w = [] ->
  Forall valid_frame frames -> valid_frame last ->
  pending (net w) = encode_frames frames ++ encode_frame last ++ tail ->
  length tail < 4 ->
  exists w', frame_loop clock (loop_fuel w) fc ws w = (Return tt, w')
    /\ items (fq w') = [(last, clock (ticks w + length frames))]
    /\ server_kept (self w) (self w')
    /\ stats_camera_id (stats (self w')) = stats_camera_id (stats (self w)).
Proof.
  intros Run Md Vf Vl P Ht.
  destruct (frame_loop_effect clock (loop_fuel w) fc ws w)
    as (w2 & E2 & K & Id & _); [unfold loop_fuel; lia|].
  exists w2. split; [exact E2|]. split; [|split; [exact K|exact Id]].
  destruct (frame_loop_total clock (loop_fuel w) fc ws w)
    as (w2' & E2' & Any); [unfold loop_fuel; lia|].
  assert (w2' = w2) by congruence. subst w2'.
  destruct (frames_delivered frames w fc ws (S (weight (net w))) last tail
              Run Md Vf Vl P)
    as (fc' & ws' & w1 & E1 & I1 & _ & Pn1 & _ & Run1 & _).
  rewrite (Any (S (length frames) + S (weight (net w)))) in E1 by lia.
  destruct (frame_turn_no_header fc' ws' w1) as (w1' & Et & Sf & _);
    [rewrite Pn1; exact Ht|].
  cbn [frame_loop] in E1. unfold bind at 1 in E1. unfold gets at 1 in E1.
  rewrite Run1 in E1. cbn [negb] in E1. unfold bind at 1 in E1.
  rewrite Et in E1. unfold ret in E1. inversion E1; subst.
  unfold fq. rewrite Sf. exact I1.
Qed.

End WithLibraries.
End StreamFacts.

(** * The claims *)

Import Py Sock Server Lifecycle Viewer Scenario.
Import PushFacts LoopFacts HandshakeFacts ViewerFacts LifecycleFacts.
Import TurnFacts SessionMore StreamFacts.

(** C3.  From every state of the frame queue and for any two frames A
    and B, [_push_frame(A)] then [_push_frame(B)] then one
    [get_nowait] returns B, and a second [get_nowait] right after
    raises [queue.Empty], no other thread being at the queue
    meanwhile.  Each push returns normally (it neither blocks nor
    raises [queue.Full]) and leaves exactly the frame it was given in
    the queue. *)
Theorem C3_latest_frame_wins
    (s : VideoServer) (n : wire) (t : nat) (A B : list byte) (tA tB : Q) :
  exists w1 w2 q3,
    _push_frame A tA (mkWorld s n t []) = (Return tt, w1)
    /\ Queue.items (fq w1) = [(A, tA)]
    /\ _push_frame B tB w1 = (Return tt, w2)
    /\ Queue.items (fq w2) = [(B, tB)]
    /\ Queue.get_nowait (fq w2) = (Return (B, tB), q3)
    /\ Queue.get_nowait q3 = (Raise QueueEmpty, q3).
Proof.
  destruct (push_frame_spec A tA (mkWorld s n t []))
    as (w1 & E1 & _ & _ & _ & _ & _ & _ & A1).
  destruct (A1 eq_refl) as [M1 I1].
  destruct (push_frame_spec B tB w1) as (w2 & E2 & _ & _ & _ & _ & _ & _ & A2).
  destruct (A2 M1) as [M2 I2].
  exists w1, w2, (Queue.mk (Queue.maxsize (fq w2)) []).
  repeat split; auto.
  unfold Queue.get_nowait. rewrite I2. reflexivity.
Qed.

(** C10.  [_push_frame] is total: from every state, and whatever
    other threads do to the queue between its queue operations (so
    also when [get_nowait] meets an empty queue or [put_nowait] a full
    one), it returns normally.  It always sets [stats.last_updated] to
    the timestamp it was given, and leaves [fps], [latency_ms] and the
    camera identity as they were. *)
Theorem C10_push_frame_total
    (w : world) (frame_data : list byte) (timestamp : Q) :
  exists w',
    _push_frame frame_data timestamp w = (Return tt, w')
    /\ last_updated (stats (self w')) = timestamp
    /\ fps (stats (self w')) = fps (stats (self w))
    /\ latency_ms (stats (self w')) = latency_ms (stats (self w))
    /\ stats_camera_id (stats (self w')) = stats_camera_id (stats (self w))
    /\ camera_id (self w') = camera_id (self w).
Proof.
  destruct (push_frame_spec frame_data timestamp w)
    as (w' & E & St & Cid & _).
  exists w'. rewrite St. cbn. repeat split; auto.
Qed.

(** The two absorbed exceptions do occur.  The viewer empties the
    queue between [empty()] and [get_nowait()]: [queue.Empty] is
    raised and the loop breaks. *)
Example push_frame_meets_empty :
  let w := mkWorld (set_frame_queue (Queue.mk 1 [(A5, 0%Q)]) fresh_server) [] 0
                   [[]; [Queue.OtherGet]] in
  fst (q_get_nowait (snd (q_empty w))) = Raise QueueEmpty
  /\ fst (_push_frame [x42] 1%Q w) = Return tt
  /\ Queue.items (fq (snd (_push_frame [x42] 1%Q w))) = [([x42], 1%Q)].
Proof. vm_compute. auto. Qed.

(** Another producer fills the queue between the drain and
    [put_nowait()]: [queue.Full] is raised, the new frame is dropped,
    and [last_updated] is set all the same. *)
Example push_frame_meets_full :
  let w := mkWorld fresh_server [] 0 [[]; [Queue.OtherPut (A5, 0%Q)]] in
  fst (q_put_nowait ([x42], 1%Q) (snd (q_empty w))) = Raise QueueFull
  /\ fst (_push_frame [x42] 1%Q w) = Return tt
  /\ Queue.items (fq (snd (_push_frame [x42] 1%Q w))) = [(A5, 0%Q)]
  /\ last_updated (stats (self (snd (_push_frame [x42] 1%Q w)))) = 1%Q.
Proof. vm_compute. auto. Qed.

(** C4.  For every length L with 0 < L <= 5242880, when the socket
    delivers the four bytes of L, most significant first, followed by L
    payload bytes, in whatever pieces, one turn of the frame loop reads
    exactly those bytes and pushes them, unchanged, as the frame, with
    no other thread at the queue meanwhile; the bytes that follow stay
    on the wire, and while the run flag is set the loop goes on with
    them.  The length test lets L = 5242880 through, and every length
    below. *)
Theorem C4_frame_roundtrip
    (clock : nat -> Q) (w : world) (frame_count : nat) (window_start : Q)
    (L : Z) (payload rest : list byte) :
  (0 < L <= 5242880)%Z ->
  Z.of_nat (length payload) = L ->
  pending (net w) = Wire.pack_be32 L ++ payload ++ rest ->
  meddling w = [] ->
  exists fc' ws' w',
    frame_turn clock frame_count window_start w
      = (Return (Continue, fc', ws'), w')
    /\ Queue.items (fq w') = [(payload, clock (ticks w))]
    /\ pending (net w') = rest
    /\ (should_run (self w) = true ->
        forall fuel,
          frame_loop clock (S fuel) frame_count window_start w
          = frame_loop clock fuel fc' ws' w').
Proof.
  intros HL Hlen P Alone.
  destruct (frame_turn_frame clock frame_count window_start w L payload rest)
    as (w' & E & Pn & _ & _ & _ & _ & _ & Q); auto.
  destruct (Q Alone) as [_ Items].
  destruct (Qle_bool 1 (clock (ticks w) - window_start));
    do 3 eexists; (split; [exact E|]); repeat split; auto;
    intros Run fuel; cbn [frame_loop]; unfold bind, gets;
    rewrite Run; cbn [negb]; rewrite E; reflexivity.
Qed.

Lemma C4_frame_roundtrip_witness :
  (0 < 5 <= 5242880)%Z
  /\ exists fc' ws' w',
       frame_turn seconds 0 0 (alone fresh_server [Seg (encode_frame A5)])
         = (Return (Continue, fc', ws'), w')
       /\ Queue.items (fq w') = [(A5, seconds 0)]
       /\ pending (net w') = []
       /\ (should_run fresh_server = true ->
           forall fuel,
             frame_loop seconds (S fuel) 0 0
               (alone fresh_server [Seg (encode_frame A5)])
             = frame_loop seconds fuel fc' ws' w').
Proof.
  split; [lia|].
  apply (C4_frame_roundtrip seconds (alone fresh_server [Seg (encode_frame A5)])
           0 0 5 A5 []); [lia|reflexivity|reflexivity|reflexivity].
Defined.

(** The bound itself passes the test of line 154, and the next value
    does not. *)
Example frame_length_bound :
  ((5242880 <=? 0) || (MAX_FRAME <? 5242880) = false
   /\ (5242881 <=? 0) || (MAX_FRAME <? 5242881) = true)%Z.
Proof. split; reflexivity. Qed.

(** C1.  When the frame loop reads a header whose length L is above
    5242880, it neither drains the L bytes announced nor ends the
    session: the turn answers [Continue] with the wire standing on the
    first payload byte, and the loop goes on to read its next header
    there. *)
Theorem C1_oversize_header_not_drained
    (clock : nat -> Q) (w : world) (frame_count : nat) (window_start : Q)
    (L : Z) (rest : list byte) (fuel : nat) :
  (5242880 < L < 2 ^ 32)%Z ->
  should_run (self w) = true ->
  pending (net w) = Wire.pack_be32 L ++ rest ->
  exists w',
    frame_turn clock frame_count window_start w
      = (Return (Continue, frame_count, window_start), w')
    /\ pending (net w') = rest
    /\ self w' = self w
    /\ frame_loop clock (S fuel) frame_count window_start w
       = frame_loop clock fuel frame_count window_start w'.
Proof.
  intros HL Run P.
  destruct (frame_turn_skip clock frame_count window_start w L rest)
    as (w' & E & Pn & Sf & _); [lia|unfold MAX_FRAME; lia|exact P|].
  exists w'. repeat split; auto.
  cbn [frame_loop]. unfold bind, gets. rewrite Run. cbn. rewrite E.
  reflexivity.
Qed.

Lemma C1_oversize_header_not_drained_witness :
  (5242880 < 5242881 < 2 ^ 32)%Z
  /\ exists w',
       frame_turn seconds 0 0
         (alone fresh_server [Seg (Wire.pack_be32 5242881 ++ encode_frame [x58])])
         = (Return (Continue, 0, 0%Q), w')
       /\ pending (net w') = encode_frame [x58]
       /\ self w' = fresh_server
       /\ frame_loop seconds 3 0 0
            (alone fresh_server [Seg (Wire.pack_be32 5242881 ++ encode_frame [x58])])
          = frame_loop seconds 2 0 0 w'.
Proof.
  split; [lia|].
  apply (C1_oversize_header_not_drained seconds
           (alone fresh_server [Seg (Wire.pack_be32 5242881 ++ encode_frame [x58])])
           0 0 5242881 (encode_frame [x58]) 2); [lia|reflexivity|reflexivity].
Defined.

(** What comes of it: a client announces 5242881 bytes and starts its
    payload with 00 00 00 01 58.  The server takes the first four
    payload bytes for a header and hands the fifth to the viewer as a
    frame. *)
Example oversize_header_desynchronises :
  let n := [Seg (Wire.pack_be32 0 ++ Wire.pack_be32 5242881
                 ++ [x00; x00; x00; x01; x58])] in
  let w' := snd (_handle_client seconds no_json 0 true (alone fresh_server n)) in
  Queue.items (fq w') = [([x58], seconds 1)].
Proof. vm_compute. reflexivity. Qed.

(** C8.  The socket has accepted its options, the first header
    announces a length in (0, 1024) and as many bytes follow.  Then the
    handshake returns normally whatever the bytes are.  If they decode
    to a JSON object with a [camera_id] field, the server's identity
    and the identity in its statistics both become that field's value.
    If they are not UTF-8, not JSON, not an object, or an object
    without the field, both identities stay as they were.  In every
    case nothing else of the server is touched, the run flag and the
    queue least of all, no clock is read, and the session goes on:
    [_handle_client] enters the frame loop on the wire that follows
    the metadata.  So when the flag is up, the thread is alone at the
    queue and the client goes on with a run of frames in range and then
    closes, the session ends normally with the last of them in the
    queue, under the identity the handshake left. *)
Theorem C8_handshake_identity
    (clock : nat -> Q) (loads : list byte -> loaded) (w : world) (k : nat)
    (len : Z) (payload rest : list byte) :
  (0 < len < 1024)%Z ->
  Z.of_nat (length payload) = len ->
  pending (net w) = Wire.pack_be32 len ++ payload ++ rest ->
  stats_camera_id (stats (self w)) = camera_id (self w) ->
  let w0 := mkWorld (set_client_output_stream (Some k) (self w))
                    (net w) (S (ticks w)) (meddling w) in
  let retained w' :=
    camera_id (self w') = camera_id (self w)
    /\ stats_camera_id (stats (self w')) = stats_camera_id (stats (self w)) in
  exists w',
    read_metadata loads w0 = (Return tt, w')
    /\ pending (net w') = rest
    /\ match loads payload with
       | Parsed (PyDict kvs) =>
           match dict_lookup kvs "camera_id" with
           | Some v =>
               camera_id (self w') = v
               /\ stats_camera_id (stats (self w')) = v
           | None => retained w'
           end
       | _ => retained w'
       end
    /\ self w'
       = set_stats (set_stats_camera_id (stats_camera_id (stats (self w')))
                      (stats (self w)))
           (set_camera_id (camera_id (self w'))
              (set_client_output_stream (Some k) (self w)))
    /\ ticks w' = S (ticks w) /\ meddling w' = meddling w
    /\ _handle_client clock loads k true w
       = bind (frame_loop clock (loop_fuel w') 0 (clock (ticks w)))
              (fun _ => modify (on_self (set_client_output_stream None))) w'
    /\ (forall frames last tail,
          should_run (self w) = true -> meddling w = [] ->
          Forall valid_frame frames -> valid_frame last ->
          rest = encode_frames frames ++ encode_frame last ++ tail ->
          length tail < 4 ->
          exists w2,
            _handle_client clock loads k true w = (Return tt, w2)
            /\ Queue.items (fq w2)
               = [(last, clock (S (ticks w) + length frames))]
            /\ camera_id (self w2) = camera_id (self w')
            /\ stats_camera_id (stats (self w2))
               = stats_camera_id (stats (self w'))).
Proof.
  intros HL Hlen P Inv w0 retained.
  destruct (read_metadata_spec loads w0 len payload rest HL Hlen P)
    as (w' & E & Pn & Sf & Tk & Md).
  assert (Eq : _handle_client clock loads k true w
               = bind (frame_loop clock (loop_fuel w') 0 (clock (ticks w)))
                   (fun _ => modify (on_self (set_client_output_stream None))) w').
  { unfold _handle_client, socket_options. unfold bind at 1. unfold ret at 1.
    unfold bind at 1. unfold modify at 1.
    unfold bind at 1. unfold time at 1. cbn [on_self self net ticks meddling].
    unfold bind at 1. fold w0. rewrite E. reflexivity. }
  assert (Only : self w'
       = set_stats (set_stats_camera_id (stats_camera_id (stats (self w')))
                      (stats (self w)))
           (set_camera_id (camera_id (self w'))
              (set_client_output_stream (Some k) (self w)))).
  { rewrite Sf. unfold after_metadata. cbn [self w0].
    destruct (self w) as [h p q st cid run cs cos]. destruct st as [f l u sid].
    cbn in Inv. subst sid.
    destruct (loads payload) as [| |v]; try reflexivity.
    destruct v; reflexivity. }
  exists w'. split; [exact E|]. split; [exact Pn|]. split; [|split; [exact Only|]].
  - unfold retained. rewrite Sf. unfold after_metadata.
    destruct (loads payload) as [| |v]; cbn; auto.
    destruct v; cbn; auto.
    rewrite dict_get_lookup.
    destruct (dict_lookup kvs "camera_id"); cbn; auto.
  - split; [exact Tk|]. split; [exact Md|]. split; [exact Eq|].
    intros frames last tail Run Alone Vf Vl Hrest Ht.
    assert (Run' : should_run (self w') = true) by (rewrite Only; exact Run).
    destruct (frames_then_close clock frames w' 0 (clock (ticks w)) last tail)
      as (w2 & E2 & I2 & K & Id2);
      [exact Run'|rewrite Md; exact Alone|exact Vf|exact Vl
      |rewrite Pn; exact Hrest|exact Ht|].
    apply server_kept_fields in K. destruct K as (_ & _ & Kc & _).
    eexists. split; [rewrite Eq; unfold bind at 1; rewrite E2; reflexivity|].
    unfold modify, fq. cbn [on_self self].
    split; [|split; [exact Kc|exact Id2]].
    unfold fq in I2. rewrite Tk in I2. exact I2.
Qed.

Lemma C8_handshake_identity_witness :
  (0 < 21 < 1024)%Z
  /\ exists w',
       read_metadata cam42_parser
         (mkWorld (set_client_output_stream (Some 0) fresh_server)
            [Seg (encode_frame cam42_json ++ encode_frame A5)] 1 [])
         = (Return tt, w')
       /\ pending (net w') = encode_frame A5
       /\ (camera_id (self w') = PyStr "Cam42"
           /\ stats_camera_id (stats (self w')) = PyStr "Cam42")
       /\ should_run (self w') = true
       /\ exists w2,
            _handle_client seconds cam42_parser 0 true
              (alone fresh_server [Seg (encode_frame cam42_json ++ encode_frame A5)])
            = (Return tt, w2)
            /\ Queue.items (fq w2) = [(A5, seconds 1)]
            /\ camera_id (self w2) = PyStr "Cam42"
            /\ stats_camera_id (stats (self w2)) = PyStr "Cam42".
Proof.
  split; [lia|].
  destruct (C8_handshake_identity seconds cam42_parser
              (alone fresh_server [Seg (encode_frame cam42_json ++ encode_frame A5)])
              0 21 cam42_json (encode_frame A5))
    as (w' & E & Pn & Id & Only & _ & _ & _ & Del);
    [lia|reflexivity|reflexivity|reflexivity|].
  exists w'. split; [exact E|]. split; [exact Pn|]. split; [exact Id|].
  split; [rewrite Only; reflexivity|].
  destruct (Del [] A5 []) as (w2 & E2 & I2 & C2 & S2);
    [reflexivity|reflexivity|constructor|unfold valid_frame; cbn; lia
    |reflexivity|cbn; lia|].
  exists w2. split; [exact E2|]. split; [exact I2|].
  destruct Id as [Ic Is]. split; congruence.
Defined.

(** The two runs of the specification's example: the identity moves
    to Cam42, or stays when the bytes are not JSON, and the frame that
    follows reaches the queue either way. *)
Example handshake_then_frame :
  let n := [Seg (encode_frame cam42_json ++ encode_frame A5)] in
  let good := snd (_handle_client seconds cam42_parser 0 true (alone fresh_server n)) in
  let bad := snd (_handle_client seconds no_json 0 true (alone fresh_server n)) in
  stats_camera_id (stats (self good)) = PyStr "Cam42"
  /\ Queue.items (fq good) = [(A5, seconds 1)]
  /\ stats_camera_id (stats (self bad)) = PyStr "Camera 1"
  /\ Queue.items (fq bad) = [(A5, seconds 1)].
Proof. vm_compute. auto. Qed.

(** C2.  A client connects, sends no handshake, and sends the header
    00 00 00 05 followed by "AAAAA", then closes.  The server reads
    that header as the length of the metadata, takes "AAAAA" for the
    metadata, and finds nothing left for the frame loop: no frame
    reaches the queue and the viewer's poll finds it empty, whatever
    the JSON library makes of "AAAAA". *)
Theorem C2_unannounced_frame_is_eaten
    (clock : nat -> Q) (loads : list byte -> loaded)
    (decodes : list byte -> bool) (t_import : Q) (host : string) (port : Z)
    (t : nat) :
  let a := on_camera "Camera 1"
             (session clock loads 0 [Seg (encode_frame A5)] t)
             (first_client (app_init t_import host port)) in
  fst (_poll_frames clock decodes a) = Return None
  /\ (forall c, cameras a !! "Camera 1"%string = Some c ->
      Queue.items (cam_queue c) = []).
Proof.
  cbv zeta.
  assert (Hq : forall s,
    should_run s = true ->
    frame_queue (self (snd (_handle_client clock loads 0 true
      (mkWorld s [Seg (encode_frame A5)] t [])))) = frame_queue s).
  { intros s Run. destruct s. cbn in Run. subst.
    vm_compute.
    destruct (loads _) as [| |v]; try reflexivity.
    destruct v; reflexivity. }
  assert (Ha : first_client (app_init t_import host port)
    = mkApp (<["Camera 1"%string :=
               mkCamera
                 (mkEndpoint
                    (set_client_socket (Some 0)
                       (set_should_run true
                          (VideoServer_new host port (Queue.mk 1 [])
                             (FrameStats_new t_import (PyStr "Camera 1"))
                             (PyStr "Camera 1"))))
                    (InClient 0) 1 [])
                 host port]> ∅)
            (Some "Camera 1"%string) 0 0).
  { vm_compute. reflexivity. }
  rewrite Ha. unfold on_camera, set_cameras. cbn [cameras active_camera_id].
  rewrite lookup_insert_eq, insert_insert_eq.
  unfold session, on_server. cbn [server srv cam_host cam_port thread accepted closed].
  split.
  - erewrite poll_frames_pops.
    2:{ unfold active_camera. cbn [cameras active_camera_id].
        rewrite lookup_insert_eq. reflexivity. }
    unfold cam_queue. cbn [server srv].
    rewrite Hq by reflexivity. reflexivity.
  - intros c Hc. cbn [cameras] in Hc.
    rewrite lookup_insert_eq in Hc. inversion Hc; subst.
    unfold cam_queue. cbn [server srv].
    rewrite Hq by reflexivity. reflexivity.
Qed.

(** The same client, had it first sent a header of length 0 where
    the metadata could have been, gets its frame through. *)
Example frame_after_empty_handshake :
  let a := on_camera "Camera 1"
             (session seconds no_json 0
                [Seg (Wire.pack_be32 0 ++ encode_frame A5)] 0)
             (first_client (app_init 0 "0.0.0.0" 5000)) in
  fst (_poll_frames seconds (fun _ => true) a) = Return (Some (A5, seconds 1)).
Proof. vm_compute. reflexivity. Qed.

(** C5, as the code has it.  Each frame pushed adds one to the
    counter.  When [frames] arrive less than a second after
    [window_start] and one more, [last], arrives T >= 1 seconds after
    it, then: after [frames] the counter has grown by their number and
    the recorded fps is untouched; after [last] the recorded fps is the
    counter divided by T, the counter is back to 0 and the window
    starts at the time of that push.  So N frames that all fall in one
    window record exactly N/T at its end. *)
Theorem C5_fps_of_one_window
    (clock : nat -> Q) (w : world) (frame_count : nat) (window_start : Q)
    (frames : list (list byte)) (last rest : list byte) (fuel : nat) :
  should_run (self w) = true ->
  Forall valid_frame frames -> valid_frame last ->
  pending (net w) = encode_frames frames ++ encode_frame last ++ rest ->
  (forall i, i < length frames ->
     (clock (ticks w + i)%nat - window_start < 1)%Q) ->
  let N := S (length frames) in
  let now := clock (ticks w + length frames) in
  let T := (now - window_start)%Q in
  (1 <= T)%Q ->
  exists w1 w2,
    frame_loop clock (N + fuel) frame_count window_start w
      = frame_loop clock (S fuel) (frame_count + length frames) window_start w1
    /\ fps (stats (self w1)) = fps (stats (self w))
    /\ frame_loop clock (S fuel) (frame_count + length frames) window_start w1
       = frame_loop clock fuel 0 now w2
    /\ fps (stats (self w2))
       = (inject_Z (Z.of_nat (frame_count + N)) / T)%Q
    /\ last_updated (stats (self w2)) = now.
Proof.
  intros Run Val Vl P Early N now T HT.
  destruct (frames_within_window clock frames w frame_count window_start
              (S fuel) (encode_frame last ++ rest) Run Val P Early)
    as (w1 & E1 & Pn1 & Tk1 & Run1 & F1 & _).
  unfold encode_frame in Pn1. rewrite <- app_assoc in Pn1.
  destruct (frame_turn_frame clock (frame_count + length frames) window_start
              w1 _ last rest Vl eq_refl Pn1)
    as (w2 & E2 & _ & _ & St2 & _).
  rewrite Tk1 in E2, St2. fold now in E2, St2. fold T in E2, St2.
  assert (B : Qle_bool 1 T = true) by (apply Qle_bool_iff; exact HT).
  rewrite B in E2, St2.
  exists w1, w2. split; [|split; [exact F1|split; [|split]]].
  - unfold N. replace (S (length frames) + fuel) with (length frames + S fuel)
      by lia. exact E1.
  - cbn [frame_loop]. unfold bind at 1. unfold gets at 1.
    rewrite Run1. cbn [negb]. unfold bind at 1. rewrite E2. reflexivity.
  - rewrite St2. cbn. unfold N.
    replace (frame_count + S (length frames))
      with (S (frame_count + length frames)) by lia.
    reflexivity.
  - rewrite St2. reflexivity.
Qed.

Lemma C5_fps_of_one_window_witness :
  (1 <= half_past 2 - 0)%Q
  /\ exists w1 w2,
       frame_loop half_past (2 + 1) 0 0
         (mkWorld fresh_server [Seg (encode_frames [A5; A5])] 1 [])
         = frame_loop half_past 2 (0 + 1) 0 w1
       /\ fps (stats (self w1)) = fps (stats fresh_server)
       /\ frame_loop half_past 2 (0 + 1) 0 w1
          = frame_loop half_past 1 0 (half_past 2) w2
       /\ fps (stats (self w2))
          = (inject_Z (Z.of_nat (0 + 2)) / (half_past 2 - 0))%Q
       /\ last_updated (stats (self w2)) = half_past 2.
Proof.
  assert (H : (1 <= half_past 2 - 0)%Q) by (vm_compute; discriminate).
  split; [exact H|].
  apply (C5_fps_of_one_window half_past
           (mkWorld fresh_server [Seg (encode_frames [A5; A5])] 1 [])
           0 0 [A5] A5 [] 1).
  - reflexivity.
  - constructor; [unfold valid_frame; cbn; lia|constructor].
  - unfold valid_frame; cbn; lia.
  - reflexivity.
  - intros i Hi. assert (i = 0) as -> by (cbn in Hi; lia).
    vm_compute. reflexivity.
  - exact H.
Defined.

(** C5, the claim as worded, fails: three frames arrive 1/2, 3/2 and
    5/2 seconds after the session began, so N = 3 and T = 5/2.  The
    window that ends with the third push holds one frame and lasted one
    second: the fps recorded there is 1, and the one recorded before it
    was 4/3; N/T is 6/5. *)
Lemma C5_counterexample :
  let n := [Seg (Wire.pack_be32 0 ++ encode_frames [A5; A5; A5])] in
  let w' := snd (_handle_client half_past no_json 0 true (alone fresh_server n)) in
  let w2 := snd (_handle_client half_past no_json 0 true
                   (alone fresh_server
                      [Seg (Wire.pack_be32 0 ++ encode_frames [A5; A5])])) in
  (last_updated (stats (self w')) == 5 # 2)%Q
  /\ (fps (stats (self w2)) == 4 # 3)%Q
  /\ (fps (stats (self w')) == 1)%Q
  /\ ~ (Qabs (fps (stats (self w2)) - 3 / (5 # 2)) <= 1 # 10)%Q
  /\ ~ (Qabs (fps (stats (self w')) - 3 / (5 # 2)) <= 1 # 10)%Q.
Proof.
  vm_compute. repeat split; try reflexivity;
    intros H; apply H; reflexivity.
Qed.

(** C6, as the code has it.  A turn of the ingestion loop, push
    included, leaves [latency_ms] as it was.  The latency is written by
    [_display_frame], for the selected camera, when the payload
    decodes: it is max((now - timestamp) * 1000, 0) with [now] read at
    display time, and so it is never negative; when the payload does
    not decode the latency is left alone. *)
Theorem C6_latency_recorded_at_display
    (clock : nat -> Q) (decodes : list byte -> bool)
    (w : world) (frame_count : nat) (window_start : Q)
    (a : ViewerApp) (id : string) (c : camera)
    (frame_data : list byte) (timestamp : Q) :
  active_camera a = Some (id, c) ->
  (exists r w',
     frame_turn clock frame_count window_start w = (Return r, w')
     /\ latency_ms (stats (self w')) = latency_ms (stats (self w)))
  /\ (exists a' c',
       _display_frame clock decodes frame_data timestamp a = (Return tt, a')
       /\ cameras a' !! id = Some c'
       /\ latency_ms (cam_stats c')
          = (if decodes frame_data
             then py_max ((clock (app_ticks a) - timestamp) * 1000)%Q 0%Q
             else latency_ms (cam_stats c))
       /\ (decodes frame_data = true -> (0 <= latency_ms (cam_stats c'))%Q)).
Proof.
  intros Act. split.
  - destruct (frame_turn_total clock frame_count window_start w)
      as (ctl & fc' & ws' & w' & E & _ & _ & _ & _ & _ & Lat).
    eauto.
  - destruct (display_frame_latency clock decodes frame_data timestamp a id c Act)
      as (a' & c' & E & L & Lat).
    exists a', c'. repeat split; auto.
    intros D. rewrite Lat, D. apply py_max_0_nonneg.
Qed.

Lemma C6_latency_recorded_at_display_witness :
  active_camera (first_client (app_init 0 "0.0.0.0" 5000)) <> None
  /\ (exists r w',
        frame_turn seconds 0 0 (alone fresh_server [Seg (encode_frame A5)])
          = (Return r, w')
        /\ latency_ms (stats (self w')) = latency_ms (stats fresh_server))
  /\ (exists a' c',
        _display_frame seconds (fun _ => true) A5 1
          (first_client (app_init 0 "0.0.0.0" 5000)) = (Return tt, a')
        /\ cameras a' !! "Camera 1"%string = Some c'
        /\ latency_ms (cam_stats c') = py_max ((seconds 0 - 1) * 1000)%Q 0%Q
        /\ (true = true -> (0 <= latency_ms (cam_stats c'))%Q)).
Proof.
  split; [vm_compute; discriminate|].
  refine (C6_latency_recorded_at_display seconds (fun _ => true)
            (alone fresh_server [Seg (encode_frame A5)]) 0 0
            (first_client (app_init 0 "0.0.0.0" 5000)) "Camera 1"
            _ A5 1 _).
  vm_compute. reflexivity.
Defined.

(** C6, the claim as worded, fails.  A first frame is pushed at
    time 1 and displayed 7 ms later, which records a latency of 7.  On
    the next connection a frame is pushed at time 2: its age at push
    time is 0, yet the latency still reads 7, because the push does not
    write it. *)
Lemma C6_counterexample :
  let a1 := first_client (app_init 0 "0.0.0.0" 5000) in
  let a2 := on_camera "Camera 1"
              (session seconds no_json 0
                 [Seg (Wire.pack_be32 0 ++ encode_frame A5)] 0) a1 in
  let a3 := snd (_poll_frames (fun _ => 1007 # 1000) (fun _ => true) a2) in
  let a4 := on_camera "Camera 1"
              (session seconds no_json 1
                 [Seg (Wire.pack_be32 0 ++ encode_frame A5)] 1) a3 in
  exists c3 c4,
    cameras a3 !! "Camera 1"%string = Some c3
    /\ cameras a4 !! "Camera 1"%string = Some c4
    /\ (latency_ms (cam_stats c3) == 7)%Q
    /\ Queue.items (cam_queue c4) = [(A5, 2%Q)]
    /\ last_updated (cam_stats c4) = 2%Q
    /\ (latency_ms (cam_stats c4) == 7)%Q
    /\ ~ (latency_ms (cam_stats c4) == py_max ((2 - 2) * 1000) 0)%Q.
Proof.
  vm_compute. do 2 eexists.
  split; [reflexivity|]. split; [reflexivity|].
  vm_compute. repeat split; discriminate.
Qed.

(** C7, as the code has it.  When the name is already registered the
    dialog's [add_camera] never adds: it leaves the application, and so
    the registered endpoint with its host and port, exactly as it was,
    and shows an error.  The error is the duplicate-name one whenever
    the other fields pass their own tests, which come first: a name and
    a host that are not empty, and a port that is an integer between
    1024 and 65535.  Otherwise it is the error of the first of those
    tests that fails, in this order: the port is not an integer, the
    name is empty, the host is empty, the port is out of range. *)
Theorem C7_duplicate_name_rejected
    (t_import : Q) (a : ViewerApp) (name host : string) (port : option Z)
    (c : camera) :
  cameras a !! name = Some c ->
  snd (add_camera t_import name host port a) = a
  /\ fst (add_camera t_import name host port a) <> Destroyed
  /\ (forall p, port = Some p -> name <> ""%string -> host <> ""%string ->
      (1024 <= p <= 65535)%Z ->
      fst (add_camera t_import name host port a)
      = ErrorLabel ("Camera '" ++ name ++ "' already exists")%string)
  /\ (port = None ->
      fst (add_camera t_import name host port a)
      = ErrorLabel "Invalid port number")
  /\ (forall p, port = Some p -> name = ""%string ->
      fst (add_camera t_import name host port a)
      = ErrorLabel "Please enter a camera name")
  /\ (forall p, port = Some p -> name <> ""%string -> host = ""%string ->
      fst (add_camera t_import name host port a)
      = ErrorLabel "Please enter a host/IP address")
  /\ (forall p, port = Some p -> name <> ""%string -> host <> ""%string ->
      (p < 1024 \/ 65535 < p)%Z ->
      fst (add_camera t_import name host port a)
      = ErrorLabel "Port must be between 1024 and 65535").
Proof.
  intros Hc.
  assert (Dup : bool_decide (is_Some (cameras a !! name)) = true).
  { apply bool_decide_eq_true. rewrite Hc. eauto. }
  assert (Old :
    snd (add_camera t_import name host port a) = a
    /\ fst (add_camera t_import name host port a) <> Destroyed
    /\ (forall p, port = Some p -> name <> ""%string -> host <> ""%string ->
        (1024 <= p <= 65535)%Z ->
        fst (add_camera t_import name host port a)
        = ErrorLabel ("Camera '" ++ name ++ "' already exists")%string)).
  { unfold add_camera. rewrite Dup.
    destruct port as [p|]; cbn.
    - destruct (String.eqb_spec name ""); cbn.
      { repeat split; try discriminate. intros; congruence. }
      destruct (String.eqb_spec host ""); cbn.
      { repeat split; try discriminate. intros; congruence. }
      destruct ((p <? 1024)%Z || (65535 <? p)%Z) eqn:R; cbn.
      { repeat split; try discriminate. intros q Hq _ _ Hr.
        inversion Hq; subst. apply orb_true_iff in R. lia. }
      repeat split; discriminate.
    - repeat split; try discriminate. }
  destruct Old as (Same & Not & Label).
  split; [exact Same|]. split; [exact Not|]. split; [exact Label|].
  unfold add_camera. repeat split.
  - intros ->. reflexivity.
  - intros p -> ->. reflexivity.
  - intros p -> Nm ->. cbn.
    destruct (String.eqb_spec name ""); [contradiction|reflexivity].
  - intros p -> Nm Hs R. cbn.
    destruct (String.eqb_spec name ""); [contradiction|].
    destruct (String.eqb_spec host ""); [contradiction|].
    replace ((p <? 1024)%Z || (65535 <? p)%Z) with true; [reflexivity|].
    symmetry. apply orb_true_iff. lia.
Qed.

Lemma C7_duplicate_name_rejected_witness :
  is_Some (cameras (app_init 0 "0.0.0.0" 5000) !! "Camera 1"%string)
  /\ snd (add_camera 0 "Camera 1" "10.0.0.7" (Some 5001%Z)
            (app_init 0 "0.0.0.0" 5000))
     = app_init 0 "0.0.0.0" 5000
  /\ fst (add_camera 0 "Camera 1" "10.0.0.7" (Some 5001%Z)
            (app_init 0 "0.0.0.0" 5000)) <> Destroyed
  /\ (forall p, Some 5001%Z = Some p ->
      "Camera 1"%string <> ""%string -> "10.0.0.7"%string <> ""%string ->
      (1024 <= p <= 65535)%Z ->
      fst (add_camera 0 "Camera 1" "10.0.0.7" (Some 5001%Z)
             (app_init 0 "0.0.0.0" 5000))
      = ErrorLabel ("Camera '" ++ "Camera 1" ++ "' already exists")%string).
Proof.
  split; [vm_compute; eauto|].
  refine (let H := C7_duplicate_name_rejected 0 (app_init 0 "0.0.0.0" 5000)
                     "Camera 1" "10.0.0.7" (Some 5001%Z) _ _ in
          conj (proj1 H) (conj (proj1 (proj2 H)) (proj1 (proj2 (proj2 H))))).
  vm_compute. reflexivity.
Defined.

(** C7, the claim as worded, fails: with a registered name and a port
    below 1024 the error shown is the one about the port, not the one
    about the name. *)
Lemma C7_counterexample :
  let a := app_init 0 "0.0.0.0" 5000 in
  is_Some (cameras a !! "Camera 1"%string)
  /\ fst (add_camera 0 "Camera 1" "0.0.0.0" (Some 80%Z) a)
     = ErrorLabel "Port must be between 1024 and 65535"
  /\ fst (add_camera 0 "Camera 1" "0.0.0.0" (Some 80%Z) a)
     <> ErrorLabel ("Camera '" ++ "Camera 1" ++ "' already exists")%string.
Proof.
  vm_compute. repeat split; [eauto|discriminate].
Qed.

(** The test lives in the dialog only: [_add_camera] itself rebinds
    the name to a new, idle endpoint. *)
Example add_camera_helper_rebinds :
  let a := first_client (app_init 0 "0.0.0.0" 5000) in
  (server <$> cameras a !! "Camera 1"%string)
    <> (server <$> cameras (_add_camera 0 "Camera 1" "0.0.0.0" 5000 a)
                     !! "Camera 1"%string).
Proof. vm_compute. discriminate. Qed.

(** C9, as the code has it.  [stop] clears the run flag, closes the
    client socket the server holds, if any, and forgets it; it leaves
    the thread where it is and returns.  From then on the thread leaves
    [_run_server] within three of its own moves, however its blocking
    calls come back: at the latest it accepts a last client, comes back
    from it, and finds the flag down.  A second [stop] changes nothing,
    and [stop] on a server whose flag is down and which holds no socket
    changes nothing either. *)
Theorem C9_stop_signals_and_closes (e : endpoint) (rs : list comes_back) :
  should_run (srv (stop e)) = false
  /\ client_socket (srv (stop e)) = None
  /\ (forall k, client_socket (srv e) = Some k -> is_closed k (stop e) = true)
  /\ thread (stop e) = thread e
  /\ (3 <= length rs -> is_alive (thread (thread_run rs (stop e))) = false)
  /\ stop (stop e) = stop e
  /\ (should_run (srv e) = false -> client_socket (srv e) = None -> stop e = e).
Proof.
  assert (Off : should_run (srv (stop e)) = false).
  { destruct e as [s p acc cl]. destruct s as [h po q st ci ru [k|] co];
      reflexivity. }
  split; [exact Off|].
  split. { destruct e as [s p acc cl]. destruct s as [h po q st ci ru [k|] co];
             reflexivity. }
  split. { intros k Hk. destruct e as [s p acc cl].
           destruct s as [h po q st ci ru cs co]. cbn in Hk. subst cs.
           unfold stop, is_closed. cbn. rewrite Nat.eqb_refl. reflexivity. }
  split. { destruct e as [s p acc cl]. destruct s as [h po q st ci ru [k|] co];
             reflexivity. }
  split.
  { intros Len.
    destruct rs as [|r1 [|r2 [|r3 rs]]]; cbn in Len; try lia.
    cbn [thread_run fold_left].
    pose proof (thread_exits_within_three (stop e) r1 r2 r3 Off) as D.
    fold (thread_run rs (thread_step r3 (thread_step r2 (thread_step r1 (stop e))))).
    rewrite thread_run_dead by exact D. exact D. }
  split.
  { unfold stop. destruct e as [s p acc cl]. destruct s. cbn.
    destruct client_socket0; reflexivity. }
  intros Run Cs. unfold stop. destruct e as [s p acc cl]. destruct s.
  cbn in *. subst. reflexivity.
Qed.

(** C9, the claim as worded, fails: a server is started, its thread
    accepts a client and is inside the session when [stop] is called.
    When [stop] has returned the socket is closed and the flag is down,
    but the thread is still alive, inside the session; the accept loop
    has not exited. *)
Lemma C9_counterexample :
  let e := thread_run [Succeeds; Succeeds; Succeeds]
             (start (endpoint_new
                (VideoServer_new "0.0.0.0" 5000 (Queue.mk 1 [])
                   (FrameStats_new 0 (PyStr "Camera 1")) (PyStr "Camera 1")))) in
  thread e = InClient 0
  /\ client_socket (srv e) = Some 0
  /\ is_closed 0 (stop e) = true
  /\ thread (stop e) = InClient 0
  /\ is_alive (thread (stop e)) = true
  /\ thread (stop e) <> Exited.
Proof. vm_compute. repeat split; discriminate. Qed.

(** * Beyond the claims *)

(** ** Properties of the server beyond the claims *)

(** X1.  [_recvall(sock, n)] returns bytes exactly when the socket
    delivers at least [n] bytes before a timeout, an error, a 0-byte
    read or the peer's close.  It then returns the next [n] bytes of
    the stream, in order, however the transport cut them into reads,
    and leaves the bytes after them on the wire; otherwise it returns
    [None] or lets the transport's error out.  What it returns is never
    shorter or longer than [n]. *)
Theorem X1_recvall_exact (w : wire) (n : nat) :
  (n <= length (pending w) ->
   exists w', recvall w n = (Data (firstn n (pending w)), w')
              /\ pending w' = skipn n (pending w))
  /\ (length (pending w) < n ->
      fst (recvall w n) = NoData \/ fst (recvall w n) = Raised)
  /\ (forall bs w', recvall w n = (Data bs, w') -> length bs = n).
Proof.
  split; [|split].
  - intros H. apply SockFacts.recvall_pending. exact H.
  - intros H. destruct (recvall w n) as [r w'] eqn:E. cbn.
    eapply recvall_loop_short; [exact H|exact E].
  - intros bs w' E.
    pose proof (SockFacts.recvall_weight _ _ _ _ E) as [_ [_ L]]. exact L.
Qed.

(** X2.  How a session ends.  On a socket that accepts its options
    and whose reads come to an end, [_handle_client] returns normally,
    whatever the reads, the run flag and the interference at the queue:
    no exception leaves it and its loop ends.  When it has returned,
    [_client_output_stream] is [None] again, and the host, the port,
    the run flag, [_client_socket] and the recorded latency are as they
    were.  On a socket that refuses an option, as one that [stop] has
    closed meanwhile does, [OSError] leaves [_handle_client] at once:
    nothing of the server has been written, [_client_output_stream]
    has not been set, the clock has not been read and nothing has been
    received. *)
Theorem X2_session_returns_or_escapes
    (clock : nat -> Q) (loads : list byte -> loaded) (k : nat) (w : world) :
  (exists w',
     _handle_client clock loads k true w = (Return tt, w')
     /\ client_output_stream (self w') = None
     /\ host (self w') = host (self w) /\ port (self w') = port (self w)
     /\ should_run (self w') = should_run (self w)
     /\ client_socket (self w') = client_socket (self w)
     /\ latency_ms (stats (self w')) = latency_ms (stats (self w)))
  /\ _handle_client clock loads k false w = (Raise OSError, w).
Proof.
  split; [|apply SessionFacts.handle_client_refused].
  destruct (handle_client_effect clock loads k w)
    as (w' & E & A & B & C & D & F & G & _).
  exists w'. auto 10.
Qed.

(** X3.  A session never records an fps of zero or below: when it has
    ended, by returning or by the [OSError] of a refused socket option,
    the recorded fps is the one found at its start or a positive
    number. *)
Theorem X3_recorded_fps_positive
    (clock : nat -> Q) (loads : list byte -> loaded) (k : nat)
    (options_accepted : bool) (w : world) :
  let w' := snd (_handle_client clock loads k options_accepted w) in
  fps (stats (self w')) = fps (stats (self w))
  \/ (0 < fps (stats (self w')))%Q.
Proof.
  destruct options_accepted; [|left; reflexivity].
  destruct (handle_client_effect clock loads k w)
    as (w' & E & _ & _ & _ & _ & _ & _ & F & _).
  cbv zeta. rewrite E. exact F.
Qed.

(** X4.  The identity held by the server and the one held in its
    statistics stay equal: if they are equal when a session starts, as
    [_add_camera] makes them, they are equal when it has ended,
    whatever the client sent for metadata and whether or not the socket
    accepted its options. *)
Theorem X4_identities_stay_equal
    (clock : nat -> Q) (loads : list byte -> loaded) (k : nat)
    (options_accepted : bool) (w : world) :
  stats_camera_id (stats (self w)) = camera_id (self w) ->
  let w' := snd (_handle_client clock loads k options_accepted w) in
  stats_camera_id (stats (self w')) = camera_id (self w').
Proof.
  intros Inv.
  destruct options_accepted; [|exact Inv].
  destruct (handle_client_effect clock loads k w)
    as (w' & E & _ & _ & _ & _ & _ & _ & _ & I).
  cbv zeta. rewrite E. apply I. exact Inv.
Qed.

Lemma X4_identities_stay_equal_witness :
  stats_camera_id (stats fresh_server) = camera_id fresh_server
  /\ let w' := snd (_handle_client seconds cam42_parser 0 true
                      (alone fresh_server [Seg (encode_frame cam42_json)])) in
     stats_camera_id (stats (self w')) = camera_id (self w').
Proof.
  split; [reflexivity|].
  apply (X4_identities_stay_equal seconds cam42_parser 0 true
           (alone fresh_server [Seg (encode_frame cam42_json)])).
  reflexivity.
Defined.

(** X5.  A client accepted after the run flag went down, on a socket
    that accepts its options, gets its handshake read and nothing
    more: the session returns without reading a frame header, so the
    wire stands where the handshake left it, the queue, the recorded
    fps and [last_updated] are as they were, and the clock was read
    once. *)
Theorem X5_stopped_session_reads_no_frame
    (clock : nat -> Q) (loads : list byte -> loaded) (k : nat) (w : world) :
  should_run (self w) = false ->
  exists w',
    _handle_client clock loads k true w = (Return tt, w')
    /\ frame_queue (self w') = frame_queue (self w)
    /\ fps (stats (self w')) = fps (stats (self w))
    /\ last_updated (stats (self w')) = last_updated (stats (self w))
    /\ ticks w' = S (ticks w)
    /\ net w'
       = net (snd (read_metadata loads
                     (mkWorld (set_client_output_stream (Some k) (self w))
                        (net w) (S (ticks w)) (meddling w)))).
Proof.
  intros Off.
  destruct (handle_client_stopped clock loads k w Off)
    as (w' & E & Q & F & L & T & _ & N).
  exists w'. auto 10.
Qed.

Lemma X5_stopped_session_reads_no_frame_witness :
  should_run (set_should_run false fresh_server) = false
  /\ exists w',
       _handle_client seconds no_json 0 true
         (alone (set_should_run false fresh_server)
            [Seg (Wire.pack_be32 0 ++ encode_frame A5)])
       = (Return tt, w')
       /\ frame_queue (self w') = frame_queue (set_should_run false fresh_server)
       /\ fps (stats (self w')) = fps (stats (set_should_run false fresh_server))
       /\ last_updated (stats (self w'))
          = last_updated (stats (set_should_run false fresh_server))
       /\ ticks w' = 1
       /\ pending (net w') = encode_frame A5.
Proof.
  split; [reflexivity|].
  destruct (X5_stopped_session_reads_no_frame seconds no_json 0
              (alone (set_should_run false fresh_server)
                 [Seg (Wire.pack_be32 0 ++ encode_frame A5)]))
    as (w' & E & HQ & F & L & T & N); [reflexivity|].
  exists w'. split; [exact E|]. split; [exact HQ|]. split; [exact F|].
  split; [exact L|]. split; [exact T|].
  rewrite N. vm_compute. reflexivity.
Defined.

(** X6.  When a header announces a length in range and the stream
    breaks before that many payload bytes have arrived, the turn ends
    the session: the bytes received so far are dropped, nothing is
    pushed, the statistics are not touched and the clock is not
    read. *)
Theorem X6_short_payload_ends_session
    (clock : nat -> Q) (w : world) (frame_count : nat) (window_start : Q)
    (L : Z) (partial : list byte) :
  (0 < L <= 5242880)%Z ->
  pending (net w) = Wire.pack_be32 L ++ partial ->
  length partial < Z.to_nat L ->
  exists w',
    frame_turn clock frame_count window_start w
      = (Return (Break, frame_count, window_start), w')
    /\ self w' = self w /\ ticks w' = ticks w.
Proof.
  intros HL P Short.
  destruct (frame_turn_short clock frame_count window_start w L partial HL P Short)
    as (w' & E & Sf & Tk & _).
  exists w'. auto.
Qed.

Lemma X6_short_payload_ends_session_witness :
  (0 < 5 <= 5242880)%Z
  /\ exists w',
       frame_turn seconds 0 0
         (alone fresh_server [Seg (Wire.pack_be32 5 ++ [x41; x41]); SockTimeout])
       = (Return (Break, 0, 0%Q), w')
       /\ self w' = fresh_server /\ ticks w' = 0.
Proof.
  split; [lia|].
  apply (X6_short_payload_ends_session seconds
           (alone fresh_server [Seg (Wire.pack_be32 5 ++ [x41; x41]); SockTimeout])
           0 0 5 [x41; x41]); [lia|reflexivity|cbn; lia].
Defined.

(** X7.  When a client sends a run of frames with lengths in range,
    and the thread is alone at the queue, the frame loop takes one turn
    for each frame, in the order sent, and ends up with exactly the
    last one in the queue, stamped with the clock reading taken for it;
    [last_updated] is that reading, and the wire stands right after the
    run. *)
Theorem X7_last_frame_of_a_run
    (clock : nat -> Q) (w : world) (frame_count : nat) (window_start : Q)
    (frames : list (list byte)) (last rest : list byte) (fuel : nat) :
  should_run (self w) = true ->
  meddling w = [] ->
  Forall valid_frame frames -> valid_frame last ->
  pending (net w) = encode_frames frames ++ encode_frame last ++ rest ->
  exists fc' ws' w',
    frame_loop clock (S (length frames) + fuel) frame_count window_start w
      = frame_loop clock fuel fc' ws' w'
    /\ Queue.items (fq w') = [(last, clock (ticks w + length frames))]
    /\ last_updated (stats (self w')) = clock (ticks w + length frames)
    /\ pending (net w') = rest.
Proof.
  intros Run Alone Val Vl P.
  destruct (frames_delivered clock frames w frame_count window_start fuel
              last rest Run Alone Val Vl P)
    as (fc' & ws' & w' & E & I & L & Pn & _).
  exists fc', ws', w'. auto.
Qed.

Lemma X7_last_frame_of_a_run_witness :
  valid_frame [x42]
  /\ exists fc' ws' w',
       frame_loop seconds (S (length [A5; A5]) + 1) 0 0
         (alone fresh_server [Seg (encode_frames [A5; A5; [x42]])])
       = frame_loop seconds 1 fc' ws' w'
       /\ Queue.items (fq w') = [([x42], seconds (0 + length [A5; A5]))]
       /\ last_updated (stats (self w')) = seconds (0 + length [A5; A5])
       /\ pending (net w') = [].
Proof.
  assert (V : forall p, length p = 5 \/ length p = 1 -> valid_frame p).
  { intros p [H|H]; unfold valid_frame; rewrite H; lia. }
  split; [apply V; right; reflexivity|].
  apply (X7_last_frame_of_a_run seconds
           (alone fresh_server [Seg (encode_frames [A5; A5; [x42]])])
           0 0 [A5; A5] [x42] [] 1).
  - reflexivity.
  - reflexivity.
  - repeat constructor; apply V; left; reflexivity.
  - apply V; right; reflexivity.
  - reflexivity.
Defined.

(** X8.  A header that announces 0 bytes is passed over in step: the
    turn uses up the four bytes of the header, pushes nothing, leaves
    the server and the counters of the window as they are, reads no
    clock and tells the loop to go on, so a frame that follows is
    delivered as if the empty one had not been sent. *)
Theorem X8_empty_frame_is_skipped
    (clock : nat -> Q) (w : world) (frame_count : nat) (window_start : Q)
    (payload rest : list byte) (fuel : nat) :
  should_run (self w) = true ->
  meddling w = [] ->
  valid_frame payload ->
  pending (net w) = Wire.pack_be32 0 ++ encode_frame payload ++ rest ->
  (exists w1,
     frame_turn clock frame_count window_start w
       = (Return (Continue, frame_count, window_start), w1)
     /\ self w1 = self w /\ ticks w1 = ticks w
     /\ pending (net w1) = encode_frame payload ++ rest)
  /\ exists fc' ws' w',
       frame_loop clock (2 + fuel) frame_count window_start w
         = frame_loop clock fuel fc' ws' w'
       /\ Queue.items (fq w') = [(payload, clock (ticks w))]
       /\ pending (net w') = rest.
Proof.
  intros Run Alone V P.
  destruct (frame_turn_skip clock frame_count window_start w 0 _
              ltac:(lia) ltac:(lia) P)
    as (w1 & E1 & P1 & S1 & T1 & M1).
  split; [exists w1; auto|].
  unfold encode_frame in P1. rewrite <- app_assoc in P1.
  destruct (frame_turn_frame clock frame_count window_start w1 _ payload rest
              V eq_refl P1)
    as (w2 & E2 & P2 & _ & _ & _ & _ & _ & A2).
  destruct (A2 ltac:(congruence)) as [_ I2].
  rewrite T1 in E2, I2.
  assert (Run1 : should_run (self w1) = true) by congruence.
  destruct (Qle_bool 1 (clock (ticks w) - window_start));
    do 3 eexists; (split; [|split; [exact I2|exact P2]]);
    cbn [Nat.add frame_loop]; unfold bind at 1; unfold gets at 1;
    rewrite Run; cbn [negb]; unfold bind at 1; rewrite E1;
    unfold bind at 1; unfold gets at 1; rewrite Run1; cbn [negb];
    unfold bind at 1; rewrite E2; reflexivity.
Qed.

Lemma X8_empty_frame_is_skipped_witness :
  valid_frame A5
  /\ exists fc' ws' w',
       frame_loop seconds (2 + 1) 0 0
         (alone fresh_server [Seg (Wire.pack_be32 0 ++ encode_frame A5)])
       = frame_loop seconds 1 fc' ws' w'
       /\ Queue.items (fq w') = [(A5, seconds 0)]
       /\ pending (net w') = [].
Proof.
  assert (V : valid_frame A5) by (unfold valid_frame; cbn; lia).
  split; [exact V|].
  apply (X8_empty_frame_is_skipped seconds
           (alone fresh_server [Seg (Wire.pack_be32 0 ++ encode_frame A5)])
           0 0 A5 [] 1); [reflexivity|reflexivity|exact V|reflexivity].
Defined.

(** X9.  A first header whose length is 0, or 1024 and above, is not
    taken for metadata: the handshake uses up those four bytes and no
    more, leaves the server and its identity as they are, and frame
    parsing starts at the byte that follows. *)
Theorem X9_handshake_out_of_range
    (loads : list byte -> loaded) (w : world) (len : Z) (rest : list byte) :
  (len = 0 \/ 1024 <= len < 2 ^ 32)%Z ->
  pending (net w) = Wire.pack_be32 len ++ rest ->
  exists w',
    read_metadata loads w = (Return tt, w')
    /\ pending (net w') = rest
    /\ self w' = self w.
Proof.
  intros Out P.
  destruct (read_metadata_skip loads w len rest) as (w' & E & Pn & Sf & _);
    [lia|lia|exact P|].
  exists w'. auto.
Qed.

Lemma X9_handshake_out_of_range_witness :
  (2000 = 0 \/ 1024 <= 2000 < 2 ^ 32)%Z
  /\ exists w',
       read_metadata cam42_parser
         (alone fresh_server [Seg (Wire.pack_be32 2000 ++ cam42_json)])
       = (Return tt, w')
       /\ pending (net w') = cam42_json
       /\ self w' = fresh_server.
Proof.
  split; [right; lia|].
  apply (X9_handshake_out_of_range cam42_parser
           (alone fresh_server [Seg (Wire.pack_be32 2000 ++ cam42_json)])
           2000 cam42_json); [right; lia|reflexivity].
Defined.

(** ** The control channel *)

Module ControlFacts.
Import Py Server Lifecycle Viewer Control.

(** What [send_control_command] does in each of its cases. *)
Lemma send_control_command_cases command room l :
  send_control_command command room l =
  match client_output_stream (srv (ep l)) with
  | None => (Return tt, l)
  | Some k =>
      if is_closed k (ep l)
      then (Return tt, mkLink (ep l) (sent l) (printed l ++ [OSError]))
      else if length (encode_line command) <=? room
      then (Return tt, mkLink (ep l) (sent l ++ [(k, encode_line command)])
                              (printed l))
      else (Return tt,
            mkLink (ep l)
                   (match firstn room (encode_line command) with
                    | [] => sent l
                    | part => sent l ++ [(k, part)]
                    end)
                   (printed l ++ [OSError]))
  end.
Proof.
  unfold send_control_command, bind, gets, try_except, sendall, modify, any_exn.
  destruct (client_output_stream (srv (ep l))) as [k|]; [|reflexivity].
  destruct (is_closed k (ep l)); [reflexivity|].
  destruct (length (encode_line command) <=? room); reflexivity.
Qed.

(** A command line that the transport takes whole, on an open
    socket. *)
Lemma send_to_active_whole room command d id c k :
  active_camera (app d) = Some (id, c) ->
  client_output_stream (srv (server c)) = Some k ->
  is_closed k (server c) = false ->
  length (encode_line command) <= room (issued d) ->
  send_to_active room command d
  = mkDesk (app d) (image_settings d)
           (out d ++ [(id, k, encode_line command)]) (stdout d) (S (issued d)).
Proof.
  intros Act St Open Room.
  unfold send_to_active. rewrite Act.
  rewrite send_control_command_cases. cbn [ep srv]. rewrite St.
  cbn [ep]. rewrite Open.
  destruct (Nat.leb_spec (length (encode_line command)) (room (issued d))); [|lia].
  cbn. rewrite app_nil_r. reflexivity.
Qed.

End ControlFacts.

Import Control ControlFacts.

(** X10.  While a session is under way a control command goes out
    whole on that session's socket: the turns of the frame loop leave
    [_client_output_stream] on the client, and when the socket is open
    and the transport takes the whole line, [send_control_command]
    writes the command's bytes followed by one newline there, writes
    nothing else and prints nothing. *)
Theorem X10_command_goes_out_during_session
    (clock : nat -> Q) (w : world) (frame_count : nat) (window_start : Q)
    (k : nat) (command : string) (room : nat)
    (thread : pc) (accepted : nat) (closed : list nat)
    (sent : list (nat * list byte)) (printed : list exn) :
  client_output_stream (self w) = Some k ->
  existsb (Nat.eqb k) closed = false ->
  length (encode_line command) <= room ->
  let s' := self (snd (frame_turn clock frame_count window_start w)) in
  let e := mkEndpoint s' thread accepted closed in
  send_control_command command room (mkLink e sent printed)
  = (Return tt, mkLink e (sent ++ [(k, encode_line command)]) printed).
Proof.
  intros St Open Room.
  destruct (frame_turn_effect clock frame_count window_start w)
    as (c & fc' & ws' & w' & E & _ & _ & K & _).
  cbv zeta. rewrite E. cbn [snd].
  apply server_kept_fields in K. destruct K as (_ & _ & _ & _ & _ & K).
  rewrite send_control_command_cases. cbn [ep srv].
  rewrite K, St. unfold is_closed. cbn [Lifecycle.closed]. rewrite Open.
  destruct (Nat.leb_spec (length (encode_line command)) room); [|lia].
  reflexivity.
Qed.

Lemma X10_command_goes_out_during_session_witness :
  client_output_stream (set_client_output_stream (Some 0) fresh_server) = Some 0
  /\ let s' := self (snd (frame_turn seconds 0 0
                 (alone (set_client_output_stream (Some 0) fresh_server)
                    [Seg (encode_frame A5)]))) in
     let e := mkEndpoint s' (InClient 0) 1 [] in
     send_control_command "FLASH:ON" 64 (mkLink e [] [])
     = (Return tt, mkLink e ([] ++ [(0, encode_line "FLASH:ON")]) []).
Proof.
  split; [reflexivity|].
  apply (X10_command_goes_out_during_session seconds
           (alone (set_client_output_stream (Some 0) fresh_server)
              [Seg (encode_frame A5)])
           0 0 0 "FLASH:ON" 64 (InClient 0) 1 [] [] []);
    [reflexivity|reflexivity|cbn; lia].
Defined.

(** X11.  Once [_handle_client] has returned, whatever the session
    was, a control command is dropped in silence: nothing is written on
    any socket, nothing is printed, and no exception is raised.  It is
    dropped all the same after a session that the socket ended by
    refusing an option, when no session was under way before:
    [_client_output_stream] was [None] then and has not been set. *)
Theorem X11_no_command_after_session
    (clock : nat -> Q) (loads : list byte -> loaded) (k : nat) (w : world)
    (command : string) (room : nat)
    (thread : pc) (accepted : nat) (closed : list nat)
    (sent : list (nat * list byte)) (printed : list exn) :
  let after options_accepted :=
    mkEndpoint (self (snd (_handle_client clock loads k options_accepted w)))
               thread accepted closed in
  send_control_command command room (mkLink (after true) sent printed)
  = (Return tt, mkLink (after true) sent printed)
  /\ (client_output_stream (self w) = None ->
      send_control_command command room (mkLink (after false) sent printed)
      = (Return tt, mkLink (after false) sent printed)).
Proof.
  cbv zeta. split.
  - destruct (handle_client_effect clock loads k w) as (w' & E & Off & _).
    rewrite E. cbn [snd].
    rewrite send_control_command_cases. cbn [ep srv]. rewrite Off. reflexivity.
  - intros Off. rewrite SessionFacts.handle_client_refused. cbn [snd].
    rewrite send_control_command_cases. cbn [ep srv]. rewrite Off. reflexivity.
Qed.

(** X12.  [stop] closes the client's socket but leaves
    [_client_output_stream] on it.  So a control command issued after
    [stop], while the session it interrupted has not yet returned, is
    tried on the closed socket: nothing is written, the failure is
    printed, and no exception is raised. *)
Theorem X12_command_after_stop_is_lost
    (e : endpoint) (k : nat) (command : string) (room : nat)
    (sent : list (nat * list byte)) (printed : list exn) :
  client_socket (srv e) = Some k ->
  client_output_stream (srv e) = Some k ->
  client_output_stream (srv (stop e)) = Some k
  /\ send_control_command command room (mkLink (stop e) sent printed)
     = (Return tt, mkLink (stop e) sent (printed ++ [OSError])).
Proof.
  intros Cs Os.
  assert (A : client_output_stream (srv (stop e)) = Some k
              /\ is_closed k (stop e) = true).
  { destruct e as [s p acc cl]. destruct s as [h po q st ci ru cs co].
    cbn in *. subst. unfold stop, is_closed. cbn.
    rewrite Nat.eqb_refl. auto. }
  destruct A as [A1 A2]. split; [exact A1|].
  rewrite send_control_command_cases. cbn [ep]. rewrite A1, A2. reflexivity.
Qed.

Lemma X12_command_after_stop_is_lost_witness :
  let e := mkEndpoint
             (set_client_output_stream (Some 0)
                (set_client_socket (Some 0) fresh_server))
             (InClient 0) 1 [] in
  client_socket (srv e) = Some 0
  /\ client_output_stream (srv (stop e)) = Some 0
  /\ send_control_command "ZOOM:2.00" 64 (mkLink (stop e) [] [])
     = (Return tt, mkLink (stop e) [] ([] ++ [OSError])).
Proof.
  cbv zeta. split; [reflexivity|].
  apply (X12_command_after_stop_is_lost
           (mkEndpoint
              (set_client_output_stream (Some 0)
                 (set_client_socket (Some 0) fresh_server))
              (InClient 0) 1 [])
           0 "ZOOM:2.00" 64 [] []); reflexivity.
Defined.

(** X13.  [send_control_command] never raises and never touches the
    server.  It writes on no socket but the one in
    [_client_output_stream], at most once, and what it writes there is
    a prefix of the command's bytes followed by a newline: the whole
    line when nothing is printed, a proper prefix or nothing when a
    failure is printed. *)
Theorem X13_command_written_at_most_once
    (command : string) (room : nat) (l : link) :
  exists l',
    send_control_command command room l = (Return tt, l')
    /\ ep l' = ep l
    /\ (sent l' = sent l
        \/ exists k part,
             client_output_stream (srv (ep l)) = Some k
             /\ sent l' = sent l ++ [(k, part)]
             /\ part = firstn (length part) (encode_line command)
             /\ (printed l' = printed l -> part = encode_line command)
             /\ (printed l' = printed l ++ [OSError] ->
                 length part < length (encode_line command)))
    /\ (printed l' = printed l \/ printed l' = printed l ++ [OSError]).
Proof.
  rewrite send_control_command_cases.
  destruct (client_output_stream (srv (ep l))) as [k|] eqn:St.
  - destruct (is_closed k (ep l)).
    + eexists. split; [reflexivity|]. cbn. auto.
    + destruct (Nat.leb_spec (length (encode_line command)) room) as [Hle|Hgt].
      * eexists. split; [reflexivity|]. cbn. split; [reflexivity|].
        split; [|auto]. right. exists k, (encode_line command).
        repeat split; auto.
        -- rewrite firstn_all. reflexivity.
        -- intros Hp. exfalso.
           apply (f_equal (@length _)) in Hp. rewrite length_app in Hp.
           cbn in Hp. lia.
      * eexists. split; [reflexivity|]. cbn. split; [reflexivity|].
        split; [|auto].
        destruct (firstn room (encode_line command)) as [|b part] eqn:F; [auto|].
        right. exists k, (b :: part). repeat split; auto.
        -- rewrite <- F. rewrite length_firstn.
           replace (Nat.min room (length (encode_line command))) with room by lia.
           reflexivity.
        -- intros Hp. exfalso.
           apply (f_equal (@length _)) in Hp. rewrite length_app in Hp.
           cbn in Hp. lia.
        -- intros _. rewrite <- F. rewrite length_firstn. lia.
  - exists l. destruct l. cbn. auto.
Qed.

(** X14.  [_reset_controls] puts the image settings back to their
    defaults and, when the selected camera has a client on an open
    socket that takes each line whole, sends that client four lines,
    in this order: ZOOM:1.0, EXPOSURE:0, FOCUS:0.5, FLASH:OFF.  It
    sends nothing to any other camera and leaves the registry
    alone. *)
Theorem X14_reset_controls_sends_four
    (room : nat -> nat) (d : desk) (id : string) (c : camera) (k : nat) :
  active_camera (app d) = Some (id, c) ->
  client_output_stream (srv (server c)) = Some k ->
  is_closed k (server c) = false ->
  (forall n, 11 <= room n) ->
  _reset_controls room d
  = mkDesk (app d) ImageSettings_new
           (out d ++ [(id, k, encode_line "ZOOM:1.0");
                      (id, k, encode_line "EXPOSURE:0");
                      (id, k, encode_line "FOCUS:0.5");
                      (id, k, encode_line "FLASH:OFF")])
           (stdout d) (4 + issued d).
Proof.
  intros Act St Open Room.
  unfold _reset_controls. cbn [app]. rewrite Act.
  rewrite (send_to_active_whole room "ZOOM:1.0" _ id c k);
    [|exact Act|exact St|exact Open
     |cbn; pose proof (Room (issued d)); lia].
  rewrite (send_to_active_whole room "EXPOSURE:0" _ id c k);
    [|exact Act|exact St|exact Open
     |cbn; pose proof (Room (S (issued d))); lia].
  rewrite (send_to_active_whole room "FOCUS:0.5" _ id c k);
    [|exact Act|exact St|exact Open
     |cbn; pose proof (Room (S (S (issued d)))); lia].
  rewrite (send_to_active_whole room "FLASH:OFF" _ id c k);
    [|exact Act|exact St|exact Open
     |cbn; pose proof (Room (S (S (S (issued d))))); lia].
  cbn [app image_settings out stdout issued].
  rewrite <- !app_assoc. reflexivity.
Qed.

Lemma X14_reset_controls_sends_four_witness :
  let a := on_camera "Camera 1"
             (on_server (set_client_output_stream (Some 0)))
             (first_client (app_init 0 "0.0.0.0" 5000)) in
  let d := mkDesk a (mkSettings (3 # 2) 1 (1 # 2) "blur" 90) [] [] 0 in
  (forall n : nat, 11 <= 64)
  /\ _reset_controls (fun _ => 64) d
     = mkDesk a ImageSettings_new
              ([] ++ [("Camera 1"%string, 0, encode_line "ZOOM:1.0");
                      ("Camera 1"%string, 0, encode_line "EXPOSURE:0");
                      ("Camera 1"%string, 0, encode_line "FOCUS:0.5");
                      ("Camera 1"%string, 0, encode_line "FLASH:OFF")])
              [] (4 + 0).
Proof.
  cbv zeta. split; [intros; lia|].
  refine (X14_reset_controls_sends_four (fun _ => 64)
            (mkDesk _ (mkSettings (3 # 2) 1 (1 # 2) "blur" 90) [] [] 0)
            "Camera 1" _ 0 _ _ _ _).
  - vm_compute. reflexivity.
  - reflexivity.
  - reflexivity.
  - intros; lia.
Defined.

(** ** [start], [stop] and the thread, in any order *)

Module LifeFacts.
Import Server Lifecycle Life LifecycleFacts.

Lemma stop_thread e : thread (stop e) = thread e.
Proof.
  destruct e as [s p acc cl]. destruct s as [h po q st ci ru [k|] co];
    reflexivity.
Qed.

Lemma stop_flag e : should_run (srv (stop e)) = false.
Proof.
  destruct e as [s p acc cl]. destruct s as [h po q st ci ru [k|] co];
    reflexivity.
Qed.

Lemma stop_stop e : stop (stop e) = stop e.
Proof.
  destruct e as [s p acc cl]. destruct s as [h po q st ci ru [k|] co];
    reflexivity.
Qed.

(** While the flag is up, a thread waiting in [accept] that only
    meets timeouts goes round the loop and stays as it is. *)
Lemma timeouts_go_round n : forall e,
  should_run (srv e) = true ->
  thread e = InAccept \/ thread e = LoopHead ->
  let e' := thread_run (repeat TimesOut n) e in
  srv e' = srv e /\ accepted e' = accepted e /\ closed e' = closed e
  /\ (thread e' = InAccept \/ thread e' = LoopHead).
Proof.
  induction n as [|n IH]; intros e Run Th; [cbn; auto|].
  cbn [repeat thread_run fold_left].
  fold (thread_run (repeat TimesOut n) (thread_step TimesOut e)).
  assert (Step : srv (thread_step TimesOut e) = srv e
                 /\ accepted (thread_step TimesOut e) = accepted e
                 /\ closed (thread_step TimesOut e) = closed e
                 /\ (thread (thread_step TimesOut e) = InAccept
                     \/ thread (thread_step TimesOut e) = LoopHead)).
  { unfold thread_step. destruct Th as [-> | ->]; [cbn; auto|].
    rewrite Run. cbn. auto. }
  destruct Step as (S1 & S2 & S3 & S4).
  destruct (IH (thread_step TimesOut e)) as (A & B & C & D);
    [congruence|exact S4|].
  cbv zeta. repeat split; congruence || exact D.
Qed.

Lemma tidy_new h p q st cid :
  tidy (endpoint_new (VideoServer_new h p q st cid)).
Proof.
  unfold tidy, endpoint_new. cbn. repeat split; intros; try lia;
    try discriminate; contradiction.
Qed.

Lemma tidy_act a e : tidy e -> tidy (act a e).
Proof.
  intros (T1 & T2 & T3 & T4).
  destruct e as [s p acc cl]. cbn in *.
  destruct a as [r| |]; cbn.
  - unfold thread_step. cbn.
    destruct p as [| | | |k0|]; cbn.
    + repeat split; auto.
    + destruct r; cbn; repeat split; intros; cbn in *; auto; try discriminate;
        destruct (T1 k H) as [?|?]; auto; discriminate.
    + destruct (should_run s); cbn; repeat split; intros; cbn in *; auto;
        try discriminate;
        destruct (T1 k H) as [?|?]; auto; discriminate.
    + destruct r; cbn.
      * repeat split; intros; cbn in *.
        -- destruct (Nat.eq_dec k acc) as [->|Ne]; [auto|].
           destruct (T1 k ltac:(lia)) as [?|?]; [auto|discriminate].
        -- inversion H; subst. lia.
        -- destruct s. cbn in H. inversion H; subst. lia.
        -- specialize (T4 k H). lia.
      * repeat split; intros; cbn in *; auto; try discriminate.
        destruct (T1 k H) as [?|?]; auto; discriminate.
      * repeat split; intros; cbn in *; auto; try discriminate.
        destruct (T1 k H) as [?|?]; auto; discriminate.
    + assert (K0 : k0 < acc) by (apply T2; reflexivity).
      destruct r; cbn; repeat split; intros; cbn in *; auto; try discriminate;
        try (destruct (T1 k H) as [?|Hk]; [left; right; assumption|
             inversion Hk; subst; left; left; reflexivity]);
        try (destruct H as [<-|H]; [exact K0|auto]).
    + repeat split; auto.
  - unfold start. cbn. destruct (is_alive p) eqn:Al; cbn.
    + repeat split; auto.
    + repeat split; intros; cbn in *; auto; try discriminate.
      destruct (T1 k H) as [?|Hk]; [auto|]. subst p. discriminate.
  - unfold stop. destruct s as [h po q st ci ru [k0|] co]; cbn in *.
    + repeat split; intros; cbn in *; auto; try discriminate.
      * destruct (T1 k H) as [?|?]; auto.
      * destruct H as [<-|H]; [apply T3; reflexivity|auto].
    + repeat split; intros; cbn in *; auto; discriminate.
Qed.

Lemma tidy_acts l : forall e, tidy e -> tidy (acts l e).
Proof.
  induction l as [|a l IH]; intros e T; [exact T|].
  cbn. unfold acts in IH. apply IH. apply tidy_act. exact T.
Qed.

End LifeFacts.

Import Life LifeFacts Panel.

(** X15.  [start] called while the thread is still alive does
    nothing, not even raise the flag.  So [stop] followed at once by
    [start] does not restart the server: the flag stays down, the old
    thread leaves its loop within three of its moves, and no thread is
    left listening. *)
Theorem X15_start_after_stop_does_not_restart
    (e : endpoint) (rs : list comes_back) :
  is_alive (thread e) = true ->
  start (stop e) = stop e
  /\ should_run (srv (start (stop e))) = false
  /\ (3 <= length rs ->
      is_alive (thread (thread_run rs (start (stop e)))) = false).
Proof.
  intros Al.
  assert (E : start (stop e) = stop e).
  { unfold start. rewrite stop_thread, Al. reflexivity. }
  rewrite E. split; [reflexivity|]. split; [apply stop_flag|].
  intros Len.
  destruct rs as [|r1 [|r2 [|r3 rs]]]; cbn in Len; try lia.
  cbn [thread_run fold_left].
  pose proof (thread_exits_within_three (stop e) r1 r2 r3 (stop_flag e)) as D.
  fold (thread_run rs (thread_step r3 (thread_step r2 (thread_step r1 (stop e))))).
  rewrite thread_run_dead by exact D. exact D.
Qed.

Lemma X15_start_after_stop_does_not_restart_witness :
  let e := thread_run [Succeeds; Succeeds]
             (start (endpoint_new fresh_server)) in
  is_alive (thread e) = true
  /\ start (stop e) = stop e
  /\ should_run (srv (start (stop e))) = false
  /\ (3 <= length [TimesOut; Succeeds; Succeeds] ->
      is_alive (thread (thread_run [TimesOut; Succeeds; Succeeds]
                          (start (stop e)))) = false).
Proof.
  cbv zeta. split; [reflexivity|].
  apply (X15_start_after_stop_does_not_restart
           (thread_run [Succeeds; Succeeds] (start (endpoint_new fresh_server)))
           [TimesOut; Succeeds; Succeeds]).
  reflexivity.
Defined.

(** X16.  While the run flag is up, timeouts of [accept] never end
    the accept loop: after any number of them in a row the thread is
    still alive, at the head of the loop or back in [accept], and the
    server, the count of accepted clients and the closed sockets are as
    they were. *)
Theorem X16_timeouts_keep_listening (e : endpoint) (n : nat) :
  should_run (srv e) = true ->
  thread e = InAccept ->
  let e' := thread_run (repeat TimesOut n) e in
  is_alive (thread e') = true
  /\ srv e' = srv e /\ accepted e' = accepted e /\ closed e' = closed e.
Proof.
  intros Run Th.
  destruct (timeouts_go_round n e Run (or_introl Th)) as (A & B & C & D).
  cbv zeta. repeat split; auto.
  destruct D as [-> | ->]; reflexivity.
Qed.

Lemma X16_timeouts_keep_listening_witness :
  let e := thread_run [Succeeds; Succeeds]
             (start (endpoint_new fresh_server)) in
  thread e = InAccept
  /\ let e' := thread_run (repeat TimesOut 7) e in
     is_alive (thread e') = true
     /\ srv e' = srv e /\ accepted e' = accepted e /\ closed e' = closed e.
Proof.
  cbv zeta. split; [reflexivity|].
  apply (X16_timeouts_keep_listening
           (thread_run [Succeeds; Succeeds] (start (endpoint_new fresh_server)))
           7); reflexivity.
Defined.

(** X17.  No client socket is left open behind.  Starting from a new
    server, after any sequence of moves of its thread and of calls to
    [start] and [stop], every socket that was accepted has been closed,
    unless it is the socket of the session under way; and neither
    [_client_socket] nor the thread names a socket that was never
    accepted. *)
Theorem X17_no_socket_left_open
    (l : list action) (host : string) (port : Z) (frame_queue : Queue.t)
    (stats : FrameStats) (camera_id : Py.pyvalue) :
  let e := acts l (endpoint_new
                     (VideoServer_new host port frame_queue stats camera_id)) in
  (forall k, k < accepted e -> In k (closed e) \/ thread e = InClient k)
  /\ (forall k, thread e = InClient k -> k < accepted e)
  /\ (forall k, client_socket (srv e) = Some k -> k < accepted e).
Proof.
  pose proof (tidy_acts l _ (tidy_new host port frame_queue stats camera_id))
    as (T1 & T2 & T3 & _).
  cbv zeta. auto.
Qed.

(** X18.  [_stop_server] stops every registered server and none
    other: afterwards each camera is still registered under its name
    with the same host, port, queue, statistics and thread, its run
    flag is down and it holds no client socket; no name is added; and
    stopping all a second time changes nothing. *)
Theorem X18_stop_server_stops_all (a : ViewerApp) (name : string) :
  (forall c, cameras a !! name = Some c ->
     exists c', cameras (_stop_server a) !! name = Some c'
       /\ should_run (srv (server c')) = false
       /\ client_socket (srv (server c')) = None
       /\ thread (server c') = thread (server c)
       /\ cam_host c' = cam_host c /\ cam_port c' = cam_port c
       /\ cam_queue c' = cam_queue c /\ cam_stats c' = cam_stats c)
  /\ (cameras a !! name = None -> cameras (_stop_server a) !! name = None)
  /\ active_camera_id (_stop_server a) = active_camera_id a
  /\ _stop_server (_stop_server a) = _stop_server a.
Proof.
  split; [|split; [|split]].
  - intros c Hc. unfold _stop_server, set_cameras. cbn [cameras].
    rewrite lookup_fmap, Hc. cbn.
    eexists. split; [reflexivity|]. cbn.
    destruct c as [e h p]. destruct e as [s th acc cl].
    destruct s as [h0 po q st ci ru [k|] co]; cbn; auto 10.
  - intros Hc. unfold _stop_server, set_cameras. cbn [cameras].
    rewrite lookup_fmap, Hc. reflexivity.
  - reflexivity.
  - unfold _stop_server, set_cameras. cbn [cameras active_camera_id
      current_image_ts app_ticks]. f_equal.
    apply map_eq. intros i. rewrite !lookup_fmap.
    destruct (cameras a !! i) as [c|]; [|reflexivity]. cbn.
    rewrite stop_stop. reflexivity.
Qed.

(** ** Polling, selecting and adding cameras *)

Module PanelFacts.
Import Py Server Lifecycle Viewer Panel ViewerFacts.

Lemma active_camera_inv a id c :
  active_camera a = Some (id, c) ->
  active_camera_id a = Some id /\ String.eqb id "" = false
  /\ cameras a !! id = Some c.
Proof.
  unfold active_camera. destruct (active_camera_id a) as [i|]; [|discriminate].
  destruct (String.eqb i "") eqn:Ne; [discriminate|].
  destruct (cameras a !! i) eqn:L; [|discriminate].
  intros H. inversion H; subst. auto.
Qed.

Lemma active_camera_intro a id c :
  active_camera_id a = Some id -> String.eqb id "" = false ->
  cameras a !! id = Some c -> active_camera a = Some (id, c).
Proof.
  intros A N L. unfold active_camera. rewrite A, N, L. reflexivity.
Qed.

Lemma on_server_same_queue c :
  on_server (set_frame_queue (cam_queue c)) c = c.
Proof.
  destruct c as [e h p]. destruct e as [s th acc cl]. destruct s. reflexivity.
Qed.

Section WithPIL.
Variable clock : nat -> Q.
Variable decodes : list byte -> bool.

(** Nothing selected, or nothing queued: the poll leaves everything
    as it is. *)
Lemma poll_frames_idle a :
  active_camera a = None
  \/ (exists id c, active_camera a = Some (id, c)
                   /\ Queue.items (cam_queue c) = []) ->
  _poll_frames clock decodes a = (Return None, a).
Proof.
  intros [No|(id & c & Act & Em)].
  - unfold _poll_frames, try_except, bind, gets. rewrite No. reflexivity.
  - destruct (active_camera_inv a id c Act) as (_ & _ & L).
    unfold _poll_frames, try_except. unfold bind at 1. unfold gets.
    rewrite Act. unfold bind at 1. unfold app_get_nowait, Queue.get_nowait.
    rewrite Em. cbn. unfold ret. f_equal.
    rewrite on_server_same_queue, insert_id by exact L.
    destruct a. reflexivity.
Qed.

(** A frame in the selected camera's queue: the poll takes the oldest
    one, hands it to [_display_frame], and touches no other camera. *)
Lemma poll_frames_takes a id c f rest :
  active_camera a = Some (id, c) ->
  Queue.items (cam_queue c) = f :: rest ->
  let c1 := on_server (set_frame_queue
                         (Queue.mk (Queue.maxsize (cam_queue c)) rest)) c in
  let now := clock (app_ticks a) in
  _poll_frames clock decodes a
  = (Return (Some f),
     if decodes (fst f)
     then mkApp (<[id := on_server
                           (fun s => set_stats
                              (set_latency_ms
                                 (py_max ((now - snd f) * 1000)%Q 0%Q) (stats s)) s)
                           c1]> (cameras a))
                (active_camera_id a) now (S (app_ticks a))
     else mkApp (<[id := c1]> (cameras a))
                (active_camera_id a) (current_image_ts a) (app_ticks a)).
Proof.
  intros Act HQ c1 now.
  destruct (active_camera_inv a id c Act) as (Aid & Ne & L).
  unfold _poll_frames, try_except. unfold bind at 1. unfold gets.
  rewrite Act. unfold bind at 1. unfold app_get_nowait, Queue.get_nowait.
  rewrite HQ. fold c1. cbn [fst snd].
  set (a1 := set_cameras (<[id := c1]> (cameras a)) a).
  assert (Act1 : forall cs tk,
    active_camera (mkApp (cameras a1) (active_camera_id a1) cs tk)
    = Some (id, c1)).
  { intros. apply active_camera_intro; cbn; auto.
    apply lookup_insert_eq. }
  unfold _display_frame, try_except, bind, ret, raise, modify, app_time.
  destruct (decodes (fst f)); cbn [any_exn].
  - rewrite Act1. cbn [cameras set_cameras active_camera_id a1
      current_image_ts app_ticks].
    rewrite insert_insert_eq. reflexivity.
  - reflexivity.
Qed.

End WithPIL.
End PanelFacts.

Import PanelFacts.

(** X19.  A poll that finds nothing to take changes nothing: when no
    camera is selected, when the selected name is empty or not
    registered, or when the selected camera's queue is empty,
    [_poll_frames] returns without a frame and leaves the whole
    application, the registry included, exactly as it was. *)
Theorem X19_poll_with_nothing_to_take
    (clock : nat -> Q) (decodes : list byte -> bool) (a : ViewerApp) :
  active_camera a = None
  \/ (exists id c, active_camera a = Some (id, c)
                   /\ Queue.items (cam_queue c) = []) ->
  _poll_frames clock decodes a = (Return None, a).
Proof. apply poll_frames_idle. Qed.

Lemma X19_poll_with_nothing_to_take_witness :
  _poll_frames seconds (fun _ => true) (first_client (app_init 0 "0.0.0.0" 5000))
  = (Return None, first_client (app_init 0 "0.0.0.0" 5000)).
Proof.
  apply (X19_poll_with_nothing_to_take seconds (fun _ => true)
           (first_client (app_init 0 "0.0.0.0" 5000))).
  right. do 2 eexists. split; vm_compute; reflexivity.
Defined.

(** X20.  A poll takes from the selected camera only, and one frame
    at a time: it returns the oldest frame of that camera's queue,
    leaves the rest of that queue in place, keeps the selection, and
    leaves the entry of every other camera, queue included, as it
    was. *)
Theorem X20_poll_takes_from_selected_only
    (clock : nat -> Q) (decodes : list byte -> bool) (a : ViewerApp)
    (id : string) (c : camera) (f : Queue.frame) (rest : list Queue.frame) :
  active_camera a = Some (id, c) ->
  Queue.items (cam_queue c) = f :: rest ->
  let a' := snd (_poll_frames clock decodes a) in
  fst (_poll_frames clock decodes a) = Return (Some f)
  /\ (exists c', cameras a' !! id = Some c'
                 /\ Queue.items (cam_queue c') = rest
                 /\ Queue.maxsize (cam_queue c') = Queue.maxsize (cam_queue c))
  /\ (forall other, other <> id -> cameras a' !! other = cameras a !! other)
  /\ active_camera_id a' = active_camera_id a.
Proof.
  intros Act HQ. cbv zeta.
  rewrite (poll_frames_takes clock decodes a id c f rest Act HQ).
  cbn [fst snd]. split; [reflexivity|].
  destruct (decodes (fst f)); cbn [cameras active_camera_id].
  - split; [|split; [|reflexivity]].
    + rewrite lookup_insert_eq. eexists. split; [reflexivity|].
      destruct c as [e h p]. destruct e as [s th acc cl]. destruct s.
      cbn. auto.
    + intros other Ne. apply lookup_insert_ne. congruence.
  - split; [|split; [|reflexivity]].
    + rewrite lookup_insert_eq. eexists. split; [reflexivity|].
      destruct c as [e h p]. destruct e as [s th acc cl]. destruct s.
      cbn. auto.
    + intros other Ne. apply lookup_insert_ne. congruence.
Qed.

Lemma X20_poll_takes_from_selected_only_witness :
  let a := on_camera "Camera 1"
             (on_server (set_frame_queue (Queue.mk 1 [(A5, 0%Q)])))
             (first_client (app_init 0 "0.0.0.0" 5000)) in
  (exists c, active_camera a = Some ("Camera 1"%string, c)
             /\ Queue.items (cam_queue c) = [(A5, 0%Q)])
  /\ fst (_poll_frames seconds (fun _ => true) a) = Return (Some (A5, 0%Q)).
Proof.
  cbv zeta. split.
  - eexists. split; vm_compute; reflexivity.
  - refine (proj1 (X20_poll_takes_from_selected_only seconds (fun _ => true)
                     (on_camera "Camera 1"
                        (on_server (set_frame_queue (Queue.mk 1 [(A5, 0%Q)])))
                        (first_client (app_init 0 "0.0.0.0" 5000)))
                     "Camera 1" _ (A5, 0%Q) [] _ _));
      vm_compute; reflexivity.
Defined.

(** X21.  A frame that cannot be decoded is taken from the queue and
    dropped in silence: the poll returns normally, the frame is gone
    from the queue, and the statistics of the camera, the time of the
    last displayed image and the viewer's clock are as they were. *)
Theorem X21_undecodable_frame_is_dropped
    (clock : nat -> Q) (decodes : list byte -> bool) (a : ViewerApp)
    (id : string) (c : camera) (f : Queue.frame) (rest : list Queue.frame) :
  active_camera a = Some (id, c) ->
  Queue.items (cam_queue c) = f :: rest ->
  decodes (fst f) = false ->
  _poll_frames clock decodes a
  = (Return (Some f),
     mkApp (<[id := on_server
                       (set_frame_queue
                          (Queue.mk (Queue.maxsize (cam_queue c)) rest)) c]>
              (cameras a))
           (active_camera_id a) (current_image_ts a) (app_ticks a)).
Proof.
  intros Act HQ Bad.
  rewrite (poll_frames_takes clock decodes a id c f rest Act HQ).
  rewrite Bad. reflexivity.
Qed.

Lemma X21_undecodable_frame_is_dropped_witness :
  let a := on_camera "Camera 1"
             (on_server (set_frame_queue (Queue.mk 1 [(A5, 0%Q)])))
             (first_client (app_init 0 "0.0.0.0" 5000)) in
  (exists c, active_camera a = Some ("Camera 1"%string, c)
             /\ Queue.items (cam_queue c) = [(A5, 0%Q)])
  /\ _poll_frames seconds (fun _ => false) a
     = (Return (Some (A5, 0%Q)), first_client (app_init 0 "0.0.0.0" 5000)).
Proof.
  cbv zeta. split.
  - eexists. split; vm_compute; reflexivity.
  - refine (eq_trans
              (X21_undecodable_frame_is_dropped seconds (fun _ => false)
                 (on_camera "Camera 1"
                    (on_server (set_frame_queue (Queue.mk 1 [(A5, 0%Q)])))
                    (first_client (app_init 0 "0.0.0.0" 5000)))
                 "Camera 1" _ (A5, 0%Q) [] _ _ _) _);
      vm_compute; reflexivity.
Defined.

(** X22.  [_switch_camera] never touches the registry; a name that is
    not registered leaves the selection as it was; a registered name
    becomes the camera that polling and the status bar read, unless it
    is the empty string, which they treat as no selection at all. *)
Theorem X22_switch_camera_selects_registered (id : string) (a : ViewerApp) :
  cameras (_switch_camera id a) = cameras a
  /\ (cameras a !! id = None -> _switch_camera id a = a)
  /\ (forall c, cameras a !! id = Some c ->
        active_camera (_switch_camera id a)
        = if String.eqb id "" then None else Some (id, c)).
Proof.
  unfold _switch_camera.
  destruct (cameras a !! id) as [c|] eqn:E.
  - rewrite bool_decide_eq_true_2 by eauto.
    split; [reflexivity|]. split; [discriminate|].
    intros c' [= <-]. unfold active_camera. cbn. rewrite E. reflexivity.
  - rewrite bool_decide_eq_false_2 by (intros [? ?]; discriminate).
    split; [reflexivity|]. split; [reflexivity|]. discriminate.
Qed.

(** X23.  The dialog adds a camera exactly when the port is an
    integer between 1024 and 65535, name and host are not empty and
    the name is not registered yet.  When it does not add, the
    application is unchanged; and whether it adds or not, a camera that
    was registered keeps its entry as it was. *)
Theorem X23_add_camera_accepts_iff
    (t_import : Q) (name host : string) (port : option Z) (a : ViewerApp) :
  (fst (add_camera t_import name host port a) = Destroyed
   <-> exists p, port = Some p /\ name <> ""%string /\ host <> ""%string
                 /\ (1024 <= p <= 65535)%Z /\ cameras a !! name = None)
  /\ (fst (add_camera t_import name host port a) <> Destroyed ->
      snd (add_camera t_import name host port a) = a)
  /\ (forall other c, cameras a !! other = Some c ->
      cameras (snd (add_camera t_import name host port a)) !! other = Some c).
Proof.
  unfold add_camera.
  destruct port as [p|]; cbn.
  2:{ split; [split; [discriminate|intros (p & ? & _); discriminate]|].
      split; auto. }
  destruct (String.eqb_spec name ""); cbn.
  { split; [split; [discriminate|intros (q & _ & ? & _); contradiction]|].
    split; auto. }
  destruct (String.eqb_spec host ""); cbn.
  { split; [split; [discriminate|intros (q & _ & _ & ? & _); contradiction]|].
    split; auto. }
  destruct ((p <? 1024)%Z || (65535 <? p)%Z) eqn:R; cbn.
  { split; [split; [discriminate|]|split; auto].
    intros (q & [= <-] & _ & _ & ? & _). apply orb_true_iff in R. lia. }
  apply orb_false_iff in R. destruct R as [R1 R2].
  destruct (cameras a !! name) as [c0|] eqn:E.
  { rewrite bool_decide_eq_true_2 by eauto. cbn.
    split; [split; [discriminate|intros (q & _ & _ & _ & _ & ?); discriminate]|].
    split; auto. }
  rewrite bool_decide_eq_false_2 by (intros [? ?]; discriminate). cbn.
  split; [split; [intros _; exists p; repeat split; auto; lia|reflexivity]|].
  split; [intros H; contradiction H; reflexivity|].
  intros other c Hc.
  assert (Ne : name <> other) by (intros ->; congruence).
  unfold start_camera, _add_camera. cbn.
  rewrite lookup_insert_eq. cbn.
  rewrite lookup_insert_ne by exact Ne.
  rewrite lookup_insert_ne by exact Ne. exact Hc.
Qed.

(** X24.  A camera the dialog has just added is listening and
    empty-handed: its entry holds the host and port that were typed,
    its thread is started and its flag set, it has no client, its
    queue is empty with room for one frame, its statistics are the
    initial ones and its identity is the name typed.  The selection is
    not moved to it. *)
Theorem X24_added_camera_listens
    (t_import : Q) (name host : string) (p : Z) (a : ViewerApp) :
  fst (add_camera t_import name host (Some p) a) = Destroyed ->
  let a' := snd (add_camera t_import name host (Some p) a) in
  (exists c, cameras a' !! name = Some c
     /\ cam_host c = host /\ cam_port c = p
     /\ thread (server c) = Binding
     /\ should_run (srv (server c)) = true
     /\ client_socket (srv (server c)) = None
     /\ cam_queue c = Queue.mk 1 []
     /\ cam_stats c = FrameStats_new t_import (PyStr name)
     /\ camera_id (srv (server c)) = PyStr name)
  /\ active_camera_id a' = active_camera_id a.
Proof.
  unfold add_camera.
  destruct (String.eqb name ""); [discriminate|].
  destruct (String.eqb host ""); [discriminate|].
  destruct ((p <? 1024)%Z || (65535 <? p)%Z); [discriminate|].
  destruct (bool_decide (is_Some (cameras a !! name))); [discriminate|].
  intros _. cbn [snd].
  unfold start_camera, _add_camera. cbn.
  rewrite lookup_insert_eq. cbn.
  split; [|reflexivity].
  eexists. rewrite lookup_insert_eq. split; [reflexivity|].
  cbn. repeat split.
Qed.

Lemma X24_added_camera_listens_witness :
  fst (add_camera 0 "Porch" "0.0.0.0" (Some 5001%Z) (app_init 0 "0.0.0.0" 5000))
  = Destroyed
  /\ active_camera_id
       (snd (add_camera 0 "Porch" "0.0.0.0" (Some 5001%Z)
               (app_init 0 "0.0.0.0" 5000)))
     = Some "Camera 1"%string.
Proof.
  split; [vm_compute; reflexivity|].
  refine (eq_trans
            (proj2 (X24_added_camera_listens 0 "Porch" "0.0.0.0" 5001%Z
                      (app_init 0 "0.0.0.0" 5000) _)) _);
    vm_compute; reflexivity.
Defined.

(** X27.  A camera that has just been added and selected shows
    "Waiting for stream" whatever the clock reads: its rate is still
    0, and the status bar shows a stream only for a positive rate. *)
Theorem X27_new_camera_shows_waiting
    (clock : nat -> Q) (t_import : Q) (name host : string) (p : Z)
    (a : ViewerApp) :
  fst (add_camera t_import name host (Some p) a) = Destroyed ->
  fst (_refresh_stats clock
         (_switch_camera name (snd (add_camera t_import name host (Some p) a))))
  = Return Waiting.
Proof.
  unfold add_camera.
  destruct (String.eqb name "") eqn:Nm; [discriminate|].
  destruct (String.eqb host ""); [discriminate|].
  destruct ((p <? 1024)%Z || (65535 <? p)%Z); [discriminate|].
  destruct (bool_decide (is_Some (cameras a !! name))); [discriminate|].
  intros _. cbn [snd].
  unfold start_camera, _add_camera. cbn.
  rewrite lookup_insert_eq. cbn.
  unfold _switch_camera. cbn.
  rewrite lookup_insert_eq.
  rewrite bool_decide_eq_true_2 by eauto.
  unfold _refresh_stats, bind, gets, active_camera. cbn.
  rewrite Nm, lookup_insert_eq. cbn.
  rewrite andb_false_r. reflexivity.
Qed.

Lemma X27_new_camera_shows_waiting_witness :
  fst (add_camera 0 "Porch" "0.0.0.0" (Some 5001%Z) (app_init 0 "0.0.0.0" 5000))
  = Destroyed
  /\ fst (_refresh_stats seconds
            (_switch_camera "Porch"
               (snd (add_camera 0 "Porch" "0.0.0.0" (Some 5001%Z)
                       (app_init 0 "0.0.0.0" 5000)))))
     = Return Waiting.
Proof.
  split; [vm_compute; reflexivity|].
  apply (X27_new_camera_shows_waiting seconds 0 "Porch" "0.0.0.0" 5001%Z
           (app_init 0 "0.0.0.0" 5000)).
  vm_compute. reflexivity.
Defined.

(** ** [sorted(set(ips))] *)

Module LocalIpFacts.
Import LocalIp.

Lemma sorted_set_In (ips : list string) (x : string) :
  In x (sorted_set ips) <-> In x ips.
Proof.
  unfold sorted_set. split; intros H.
  - apply (Permutation_in x (Permutation_sym (StringSort.Permuted_sort _))) in H.
    apply list_elem_of_In. apply list_elem_of_In in H.
    apply (proj1 (elem_of_remove_dups _ _) H).
  - apply (Permutation_in x (StringSort.Permuted_sort _)).
    apply list_elem_of_In. apply list_elem_of_In in H.
    apply (proj2 (elem_of_remove_dups _ _) H).
Qed.

Lemma sorted_set_NoDup (ips : list string) : List.NoDup (sorted_set ips).
Proof.
  unfold sorted_set.
  apply (Permutation_NoDup (StringSort.Permuted_sort _)).
  apply NoDup_ListNoDup, NoDup_remove_dups.
Qed.

Lemma sorted_set_Sorted (ips : list string) :
  Sorted (fun x y => String.leb x y = true) (sorted_set ips).
Proof. unfold sorted_set. apply StringSort.Sorted_sort. Qed.

Lemma sorted_set_nil (ips : list string) : sorted_set ips = [] -> ips = [].
Proof.
  intros E. destruct ips as [|x ips]; [reflexivity|].
  assert (H : In x (sorted_set (x :: ips))) by (apply sorted_set_In; left; reflexivity).
  rewrite E in H. destruct H.
Qed.

(** What [get_local_ip_addresses] returns once the list of found
    addresses is known. *)
Lemma fallback_spec (ips : list string) :
  exists l,
    match sorted_set ips with
    | [] => Return ["127.0.0.1"%string]
    | l => Return l
    end = Return l
    /\ l <> []
    /\ List.NoDup l
    /\ Sorted (fun x y => String.leb x y = true) l
    /\ (forall ip, In ip l <->
          In ip ips \/ (ip = "127.0.0.1"%string /\ ips = [])).
Proof.
  destruct (sorted_set ips) as [|x l] eqn:E.
  - apply sorted_set_nil in E. subst ips.
    eexists. split; [reflexivity|]. split; [discriminate|].
    split; [repeat constructor; intros []|].
    split; [repeat constructor|].
    intros ip. cbn. split.
    + intros [<-|[]]. right. auto.
    + intros [[]|[-> _]]. left. reflexivity.
  - eexists. split; [reflexivity|]. split; [discriminate|].
    rewrite <- E.
    split; [apply sorted_set_NoDup|]. split; [apply sorted_set_Sorted|].
    intros ip. rewrite sorted_set_In. split; [auto|].
    intros [H|[_ ->]]; [exact H|].
    discriminate (f_equal (@length _) E).
Qed.

End LocalIpFacts.

Import LocalIp LocalIpFacts.

(** X25.  [get_local_ip_addresses] lets an error of the name lookup
    other than [gaierror] escape.  Otherwise it returns a list that is
    never empty, holds no address twice and is in ascending order.  An
    address is in it exactly when it is the one the UDP probe
    reported (which is not filtered), or one the lookup gave that does
    not start with 127., or the fallback 127.0.0.1 when neither
    source gave any. *)
Theorem X25_local_addresses (lookup : resolution) (probe : option string) :
  match lookup with
  | OtherError => get_local_ip_addresses lookup probe = Raise OSError
  | _ =>
      exists l,
        get_local_ip_addresses lookup probe = Return l
        /\ l <> []
        /\ List.NoDup l
        /\ Sorted (fun x y => String.leb x y = true) l
        /\ (forall ip, In ip l <->
              probe = Some ip
              \/ (exists addresses,
                     lookup = Resolved addresses /\ In ip addresses
                     /\ String.prefix "127." ip = false)
              \/ (ip = "127.0.0.1"%string /\ probe = None
                  /\ forall addresses x,
                       lookup = Resolved addresses -> In x addresses ->
                       String.prefix "127." x = true))
  end.
Proof.
  destruct lookup as [addresses| |]; [| |reflexivity]; unfold get_local_ip_addresses.
  - destruct (fallback_spec
                (List.filter (fun addr => negb (String.prefix "127." addr)) addresses
                 ++ match probe with Some ip => [ip] | None => [] end))
      as (l & E & Ne & Nd & So & Mem).
    exists l. split; [exact E|]. split; [exact Ne|]. split; [exact Nd|].
    split; [exact So|].
    intros ip. rewrite Mem, in_app_iff, filter_In, negb_true_iff. split.
    + intros [[[I P]|I]|[-> Nil]].
      * right. left. exists addresses. auto.
      * left. destruct probe as [q|]; [|destruct I].
        destruct I as [->|[]]. reflexivity.
      * right. right. apply app_eq_nil in Nil. destruct Nil as [F Pr].
        split; [reflexivity|]. split; [destruct probe; [discriminate|reflexivity]|].
        intros addresses' x [= <-] I.
        destruct (String.prefix "127." x) eqn:P; [reflexivity|].
        assert (In x []) as [].
        rewrite <- F. apply filter_In. rewrite P. auto.
    + intros [->|[(addresses' & [= <-] & I & P)|(-> & -> & All)]].
      * left. right. left. reflexivity.
      * left. left. auto.
      * destruct (List.filter (fun addr => negb (String.prefix "127." addr)) addresses)
          as [|x f] eqn:F.
        { right. auto. }
        assert (I : In x (List.filter (fun addr => negb (String.prefix "127." addr))
                            addresses)) by (rewrite F; left; reflexivity).
        apply filter_In in I. destruct I as [I P].
        rewrite (All addresses x eq_refl I) in P. discriminate.
  - destruct (fallback_spec ([] ++ match probe with Some ip => [ip] | None => [] end))
      as (l & E & Ne & Nd & So & Mem).
    exists l. split; [exact E|]. split; [exact Ne|]. split; [exact Nd|].
    split; [exact So|].
    intros ip. rewrite Mem. cbn [app]. split.
    + intros [I|[-> Nil]].
      * left. destruct probe as [q|]; [|destruct I].
        destruct I as [->|[]]. reflexivity.
      * right. right. split; [reflexivity|].
        split; [destruct probe; [discriminate|reflexivity]|].
        intros ? ? [=].
    + intros [->|[(addresses' & [=] & _)|(-> & -> & _)]].
      * left. left. reflexivity.
      * right. auto.
Qed.

(** ** The cache of [_compute_display_size] *)

Import DisplaySize.

(** X26.  The display size is cached by label size alone.  Whatever
    [_compute_display_size] returns is what it leaves in the cache, and
    while the label keeps its size (any size below the minimum of
    640 x 480 counts as the minimum) every later call returns that
    same size whatever the size of its image, an image with a side of
    0 included, and leaves the cache alone. *)
Theorem X26_display_size_cached_by_label
    (scaled : Z * Z -> Z * Z -> Z * Z) (w h : Z) (image_size d : Z * Z)
    (c c1 : display_cache) :
  _compute_display_size scaled w h image_size c = Some (d, c1) ->
  cached_display_size c1 = Some d
  /\ forall w' h' image_size',
       Z.max w' 640 = Z.max w 640 -> Z.max h' 480 = Z.max h 480 ->
       _compute_display_size scaled w' h' image_size' c1 = Some (d, c1).
Proof.
  assert (R : forall s, size_eqb s s = true).
  { intros [x y]. unfold size_eqb. cbn. rewrite !Z.eqb_refl. reflexivity. }
  unfold _compute_display_size. intros H.
  assert (K : (exists cached, cached_display_size c = Some cached
                 /\ size_eqb (last_label_size c) (Z.max w 640, Z.max h 480) = true
                 /\ d = cached /\ c1 = c)
              \/ (d = scaled (Z.max w 640, Z.max h 480) image_size
                  /\ c1 = mkCache (Some d) (Z.max w 640, Z.max h 480))).
  { destruct (cached_display_size c) as [cached|] eqn:Cc.
    - destruct (size_eqb (last_label_size c) (Z.max w 640, Z.max h 480)) eqn:Sz.
      + inversion H; subst. left. eauto.
      + destruct ((fst image_size =? 0)%Z || (snd image_size =? 0)%Z);
          [discriminate|]. inversion H; subst. right. auto.
    - destruct ((fst image_size =? 0)%Z || (snd image_size =? 0)%Z);
        [discriminate|]. inversion H; subst. right. auto. }
  destruct K as [(cached & Cc & Sz & -> & ->)|[Ed ->]].
  - split; [exact Cc|]. intros w' h' i' -> ->. rewrite Cc, Sz. reflexivity.
  - split; [reflexivity|]. intros w' h' i' -> ->. cbn. rewrite R. reflexivity.
Qed.

Lemma X26_display_size_cached_by_label_witness :
  _compute_display_size scaled_exactly 800 600 (1920, 1080)%Z display_cache_new
  = Some ((800, 450)%Z, mkCache (Some (800, 450)%Z) (800, 600)%Z)
  /\ _compute_display_size scaled_exactly 800 600 (480, 640)%Z
       (mkCache (Some (800, 450)%Z) (800, 600)%Z)
     = Some ((800, 450)%Z, mkCache (Some (800, 450)%Z) (800, 600)%Z).
Proof.
  split; [vm_compute; reflexivity|].
  apply (X26_display_size_cached_by_label scaled_exactly 800 600 (1920, 1080)%Z
           (800, 450)%Z display_cache_new
           (mkCache (Some (800, 450)%Z) (800, 600)%Z));
    vm_compute; reflexivity.
Defined.
